(** * ERP Jacare MP: stock, order and return handlers of [jacaremp.py]

    A shallow embedding of the database-facing handlers of the Streamlit
    application [src/jacaremp.py] and the properties of its stock / order /
    return core.

    Modelling conventions.
    - A table is the list of its rows, in insertion order; an [UPDATE ... WHERE]
      is a [map] over the rows, a [SELECT ... WHERE] a [filter].  A [SELECT]
      without [ORDER BY] returns its rows in that order here, while the
      database may return them in another: the lines read back for a coupon
      are compared with the cart up to their order, and where a handler
      takes the first of several rows, the statement is about the rows in
      the order they were read.
    - Integer columns are [Z].  A nullable column is an [option].
    - Monetary amounts, which the program holds in Python floats, are the
      exact rationals [Q]: the binary rounding error of float arithmetic is
      outside this model, and equalities between amounts are stated with
      [==].  The one exception is the cost of a receipt, which the program
      rounds to 4 decimals: there the rounding error decides a digit, and the
      computation is carried out in binary64 ([Float]).
    - A handler that runs on its own connection is a transaction: its
      statements act on a working copy, [conn.commit()] publishes the copy,
      and an exception raised by any statement reaches the handler's
      [except] clause, whose [conn.rollback()] discards it.  Which statement
      raises is decided by an oracle [Faults] on the statement's sequence
      number, so that every theorem quantifies over all failure points.
    - [get_db_connection_cached] is a process-wide [st.cache_resource]; the
      model keeps whether it is populated. *)

From Stdlib Require Import ZArith QArith Qround Qabs Qpower List Bool Ascii String Lia Lqa.
From Stdlib Require Import DecimalString Permutation.
Import ListNotations.
Local Open Scope Z_scope.

(* ------------------------------------------------------------------ *)
(** ** Python string helpers used by [execute_query] and the coupon     *)
(* ------------------------------------------------------------------ *)

Module PyStr.

Local Open Scope string_scope.

(** The double quote character, for the HTML attributes of the coupon. *)
Definition dq : string := String (ascii_of_nat 34) EmptyString.

(** [str.isspace] on one character of an ASCII string. *)
Definition isspace (c : ascii) : bool :=
  let n := nat_of_ascii c in
  ((9 <=? n) && (n <=? 13) || (28 <=? n) && (n <=? 32))%nat.

Fixpoint lstrip (s : string) : string :=
  match s with
  | EmptyString => EmptyString
  | String c r => if isspace c then lstrip r else s
  end.

Fixpoint rev_onto (s acc : string) : string :=
  match s with
  | EmptyString => acc
  | String c r => rev_onto r (String c acc)
  end.

Definition rev (s : string) : string := rev_onto s EmptyString.

Definition rstrip (s : string) : string := rev (lstrip (rev s)).

(** [s.strip()] *)
Definition strip (s : string) : string := rstrip (lstrip s).

Definition islower (c : ascii) : bool :=
  let n := nat_of_ascii c in ((97 <=? n) && (n <=? 122))%nat.

(** [c.upper()] for one character: ASCII letters only; the bytes of a
    non-ASCII character are left as they are (Python would map them to
    other non-ASCII characters). *)
Definition upper_char (c : ascii) : ascii :=
  if islower c then ascii_of_nat (nat_of_ascii c - 32) else c.

(** [s.upper()] *)
Fixpoint upper (s : string) : string :=
  match s with
  | EmptyString => EmptyString
  | String c r => String (upper_char c) (upper r)
  end.

(** [s.startswith(p)] *)
Fixpoint startswith (s p : string) : bool :=
  match p, s with
  | EmptyString, _ => true
  | String _ _, EmptyString => false
  | String a p', String b s' => Ascii.eqb a b && startswith s' p'
  end.

(** [s.startswith((p1, p2, ...))] *)
Definition startswith_any (s : string) (ps : list string) : bool :=
  existsb (startswith s) ps.

Fixpoint repeat_char (c : ascii) (n : nat) : string :=
  match n with
  | O => EmptyString
  | S k => String c (repeat_char c k)
  end.

(** A text is held as the bytes of its UTF-8 encoding, and Python counts
    and slices characters: a byte [10xxxxxx] continues the character that
    the byte before it began. *)
Definition is_cont (c : ascii) : bool :=
  let n := nat_of_ascii c in ((128 <=? n) && (n <? 192))%nat.

(** [len(s)] *)
Fixpoint len (s : string) : nat :=
  match s with
  | EmptyString => O
  | String c r => if is_cont c then len r else S (len r)
  end.

(** [s.rjust(w)] and [s.ljust(w)], padding with spaces. *)
Definition rjust (s : string) (w : nat) : string :=
  repeat_char " "%char (w - len s) ++ s.

Definition ljust (s : string) (w : nat) : string :=
  s ++ repeat_char " "%char (w - len s).

(** [s[:n]]: the first [n] characters, each with all its bytes. *)
Fixpoint take (n : nat) (s : string) : string :=
  match s with
  | EmptyString => EmptyString
  | String c r =>
      if is_cont c then String c (take n r)
      else match n with
           | O => EmptyString
           | S k => String c (take k r)
           end
  end.

(** [str(n)] for an integer. *)
Definition str_Z (z : Z) : string := NilZero.string_of_int (Z.to_int z).

(** A non-negative integer on at least [w] digits, as [%02d] does. *)
Definition zfill (w : nat) (z : Z) : string :=
  let s := str_Z z in repeat_char "0"%char (w - String.length s) ++ s.

End PyStr.

(* ------------------------------------------------------------------ *)
(** ** Amounts                                                         *)
(* ------------------------------------------------------------------ *)

Module Amount.

Local Open Scope Q_scope.

(** Round to the nearest integer, ties to the even one: the rounding of
    Python's [round] and of the [f] format. *)
Definition round_half_even (x : Q) : Z :=
  let n := Qfloor x in
  let frac := x - inject_Z n in
  match Qcompare frac (1 # 2) with
  | Lt => n
  | Gt => (n + 1)%Z
  | Eq => if Z.even n then n else (n + 1)%Z
  end.

Definition pow10 (digits : nat) : Z := (10 ^ Z.of_nat digits)%Z.

(** [round(x, digits)] *)
Definition round (x : Q) (digits : nat) : Q :=
  inject_Z (round_half_even (x * inject_Z (pow10 digits))) / inject_Z (pow10 digits).

(** [f"{x:.<digits>f}"].  (The minus sign that Python prints before a
    negative amount that rounds to zero is not modelled; the amounts of the
    coupon are not negative.) *)
Definition format_f (digits : nat) (x : Q) : string :=
  let n := round_half_even (x * inject_Z (pow10 digits)) in
  let a := Z.abs n in
  let sign := if (n <? 0)%Z then "-"%string else EmptyString in
  let int_part := PyStr.str_Z (a / pow10 digits) in
  match digits with
  | O => (sign ++ int_part)%string
  | _ => (sign ++ int_part ++ "." ++ PyStr.zfill digits (a mod pow10 digits))%string
  end.

(** [float(n)] *)
Definition of_int (n : Z) : Q := inject_Z n.

End Amount.

(* ------------------------------------------------------------------ *)
(** ** Python floats: IEEE 754 binary64, rounding to nearest            *)
(* ------------------------------------------------------------------ *)

(** A finite float is the rational it denotes.  An operation computes the
    exact result and rounds it to the nearest float, ties to the even
    significand; [None] stands for a result that is not finite ([inf],
    [nan]) and for the [OverflowError] of a conversion. *)
Module Float.

Local Open Scope Q_scope.

Definition pow2 (e : Z) : Q := Qpower 2 e.

(** [floor(log2(x))], for [x > 0]. *)
Definition ilog2 (x : Q) : Z :=
  let k := (Z.log2 (Qnum x) - Z.log2 (Zpos (Qden x)))%Z in
  if Qle_bool (pow2 k) x then k else (k - 1)%Z.

(** The exponent of the unit in the last place of the floats around
    [x > 0]: 53 significant bits, and no exponent below that of the
    subnormal numbers. *)
Definition ulp_exp (x : Q) : Z := Z.max (ilog2 x - 52) (-1074).

Definition nearest_pos (x : Q) : Q :=
  let e := ulp_exp x in
  inject_Z (Amount.round_half_even (x / pow2 e)) * pow2 e.

(** The float nearest to [x], were the exponent unbounded above. *)
Definition nearest (x : Q) : Q :=
  match Qnum x with
  | Z0 => 0
  | Zpos _ => Qred (nearest_pos x)
  | Zneg _ => Qred (- nearest_pos (- x))
  end.

(** [float(x)] for an exact [x]: a decimal column value, a number typed in
    a widget, the exact result of an operation. *)
Definition of_Q (x : Q) : option Q :=
  let r := nearest x in
  if Qle_bool (pow2 1024) (Qabs r) then None else Some r.

(** [float(n)] for an [int]. *)
Definition of_int (n : Z) : option Q := of_Q (inject_Z n).

Definition lift2 (f : Q -> Q -> Q) (x y : option Q) : option Q :=
  match x, y with
  | Some a, Some b => of_Q (f a b)
  | _, _ => None
  end.

(** [x * y], [x + y] and [x / y] (for [y] not zero). *)
Definition mul : option Q -> option Q -> option Q := lift2 Qmult.
Definition add : option Q -> option Q -> option Q := lift2 Qplus.
Definition div : option Q -> option Q -> option Q := lift2 Qdiv.

(** [round(x, digits)]: the exact value of the float is rounded to
    [digits] decimals, ties to even, and the float nearest to that decimal
    number is returned. *)
Definition round (x : option Q) (digits : nat) : option Q :=
  match x with
  | Some a => of_Q (Amount.round a digits)
  | None => None
  end.

End Float.

(* ------------------------------------------------------------------ *)
(** ** Data model: the rows of the tables the handlers touch           *)
(* ------------------------------------------------------------------ *)

(** [status_pedido]: the three literals the program writes and filters on,
    'Pendente', 'Concluído' and 'Cancelado'. *)
Inductive StatusPedido := Pendente | Concluido | Cancelado.

Definition StatusPedido_eqb (a b : StatusPedido) : bool :=
  match a, b with
  | Pendente, Pendente | Concluido, Concluido | Cancelado, Cancelado => true
  | _, _ => false
  end.

(** The options of the radio button of the return form. *)
Inductive EstadoOpcao := NovoPerfeitoEstado | AvariadoLeve | SucataDanificado.

(** The values of [mapa_estado], stored in [Devolucoes.estado_produto]. *)
Inductive EstadoProduto := Novo | Avariado | Sucata.

(** A value of a date column as the driver returns it: a [datetime], or a
    text when the column is not a timestamp. *)
Inductive DataValor :=
| DataHora (ano mes dia hora minuto segundo : Z)
| DataTexto (s : string).

Module Produtos.
Record row := mk {
  produto_id : Z;
  codigo_sku : string;
  descricao : string;
  marca : string;
  preco_custo : option Q;
  preco_venda : Q;
  estoque_atual : option Z;
  estoque_minimo : Z;
  categoria_id : Z;
  fornecedor_id : Z;
  modelo_moto : string;
  ano_moto : string
}.
End Produtos.

Module Clientes.
Record row := mk {
  cliente_id : Z;
  nome : string;
  cpf_cnpj : option string
}.
End Clientes.

Module Entradas.
Record row := mk {
  produto_id : Z;
  fornecedor_id : Z;
  data_recebimento : DataValor;
  emissao : DataValor;
  quantidade_comprada : Z;
  valor_unitario_compra : Q;
  numero_nota_fiscal : string
}.
End Entradas.

Module Pedidos.
Record row := mk {
  pedido_id : Z;
  cliente_id : Z;
  data_pedido : DataValor;
  valor_total : Q;
  status_pedido : StatusPedido;
  forma_pagamento : option string
}.
End Pedidos.

Module Vendas.
Record row := mk {
  pedido_id : Z;
  produto_id : Z;
  quantidade : Z;
  preco_unitario : Q;
  subtotal : Q;
  desconto : Q
}.
End Vendas.

Module Devolucoes.
Record row := mk {
  pedido_id : Z;
  produto_id : Z;
  quantidade : Z;
  estado_produto : EstadoProduto;
  retornou_estoque : bool;
  motivo : string;
  data_devolucao : DataValor
}.
End Devolucoes.

(** The database: one list of rows per table. *)
Record DB := mkDB {
  tProdutos : list Produtos.row;
  tClientes : list Clientes.row;
  tEntradas : list Entradas.row;
  tPedidos : list Pedidos.row;
  tVendas : list Vendas.row;
  tDevolucoes : list Devolucoes.row
}.

Definition set_Produtos (f : list Produtos.row -> list Produtos.row) (d : DB) : DB :=
  mkDB (f (tProdutos d)) (tClientes d) (tEntradas d) (tPedidos d) (tVendas d) (tDevolucoes d).
Definition set_Entradas (f : list Entradas.row -> list Entradas.row) (d : DB) : DB :=
  mkDB (tProdutos d) (tClientes d) (f (tEntradas d)) (tPedidos d) (tVendas d) (tDevolucoes d).
Definition set_Pedidos (f : list Pedidos.row -> list Pedidos.row) (d : DB) : DB :=
  mkDB (tProdutos d) (tClientes d) (tEntradas d) (f (tPedidos d)) (tVendas d) (tDevolucoes d).
Definition set_Vendas (f : list Vendas.row -> list Vendas.row) (d : DB) : DB :=
  mkDB (tProdutos d) (tClientes d) (tEntradas d) (tPedidos d) (f (tVendas d)) (tDevolucoes d).
Definition set_Devolucoes (f : list Devolucoes.row -> list Devolucoes.row) (d : DB) : DB :=
  mkDB (tProdutos d) (tClientes d) (tEntradas d) (tPedidos d) (tVendas d) (f (tDevolucoes d)).

(** *** Row updates of the [UPDATE Produtos] statements *)

Definition with_estoque (e : option Z) (p : Produtos.row) : Produtos.row :=
  Produtos.mk (Produtos.produto_id p) (Produtos.codigo_sku p) (Produtos.descricao p)
    (Produtos.marca p) (Produtos.preco_custo p) (Produtos.preco_venda p) e
    (Produtos.estoque_minimo p) (Produtos.categoria_id p) (Produtos.fornecedor_id p)
    (Produtos.modelo_moto p) (Produtos.ano_moto p).

Definition with_precos (custo : option Q) (venda : Q) (p : Produtos.row) : Produtos.row :=
  Produtos.mk (Produtos.produto_id p) (Produtos.codigo_sku p) (Produtos.descricao p)
    (Produtos.marca p) custo venda (Produtos.estoque_atual p)
    (Produtos.estoque_minimo p) (Produtos.categoria_id p) (Produtos.fornecedor_id p)
    (Produtos.modelo_moto p) (Produtos.ano_moto p).

Definition with_status (s : StatusPedido) (p : Pedidos.row) : Pedidos.row :=
  Pedidos.mk (Pedidos.pedido_id p) (Pedidos.cliente_id p) (Pedidos.data_pedido p)
    (Pedidos.valor_total p) s (Pedidos.forma_pagamento p).

(** [UPDATE t SET ... WHERE cond]: rewrite the rows that satisfy [cond]. *)
Definition update_where {A} (cond : A -> bool) (f : A -> A) (rows : list A) : list A :=
  map (fun r => if cond r then f r else r) rows.

(** SQL arithmetic on a nullable integer: NULL is absorbing. *)
Definition sql_add (e : option Z) (n : Z) : option Z := option_map (fun x => x + n) e.
Definition sql_sub (e : option Z) (n : Z) : option Z := option_map (fun x => x - n) e.

(** The statements of the handlers, as functions on the database. *)

(** [UPDATE Produtos SET estoque_atual = estoque_atual - %s WHERE produto_id = %s] *)
Definition sql_baixa_estoque (qtd prod_id : Z) : DB -> DB :=
  set_Produtos (update_where (fun p => Produtos.produto_id p =? prod_id)
                  (fun p => with_estoque (sql_sub (Produtos.estoque_atual p) qtd) p)).

(** [UPDATE Produtos SET estoque_atual = estoque_atual + %s WHERE produto_id = %s] *)
Definition sql_retorno_estoque (qtd prod_id : Z) : DB -> DB :=
  set_Produtos (update_where (fun p => Produtos.produto_id p =? prod_id)
                  (fun p => with_estoque (sql_add (Produtos.estoque_atual p) qtd) p)).

(** [UPDATE Produtos SET estoque_atual = %s, preco_custo = %s WHERE produto_id = %s] *)
Definition sql_update_estoque (novo_estoque : Z) (custo : Q) (prod_id : Z) : DB -> DB :=
  set_Produtos (update_where (fun p => Produtos.produto_id p =? prod_id)
                  (fun p => with_estoque (Some novo_estoque)
                              (with_precos (Some custo) (Produtos.preco_venda p) p))).

(** [UPDATE Produtos SET preco_custo = %s, preco_venda = %s WHERE produto_id = %s] *)
Definition sql_update_precos (custo venda : Q) (prod_id : Z) : DB -> DB :=
  set_Produtos (update_where (fun p => Produtos.produto_id p =? prod_id)
                  (with_precos (Some custo) venda)).

(** [UPDATE Pedidos SET status_pedido = <s> WHERE pedido_id IN (ids)] *)
Definition sql_update_status (s : StatusPedido) (ids : list Z) : DB -> DB :=
  set_Pedidos (update_where (fun p => existsb (Z.eqb (Pedidos.pedido_id p)) ids)
                 (with_status s)).

(** [INSERT INTO t ... VALUES ...]: the row goes to the end of the table. *)
Definition sql_insert_produto (r : Produtos.row) : DB -> DB := set_Produtos (fun t => t ++ [r]).
Definition sql_insert_entrada (r : Entradas.row) : DB -> DB := set_Entradas (fun t => t ++ [r]).
Definition sql_insert_pedido (r : Pedidos.row) : DB -> DB := set_Pedidos (fun t => t ++ [r]).
Definition sql_insert_venda (r : Vendas.row) : DB -> DB := set_Vendas (fun t => t ++ [r]).
Definition sql_insert_devolucao (r : Devolucoes.row) : DB -> DB := set_Devolucoes (fun t => t ++ [r]).

(** [SELECT estoque_atual, preco_custo FROM Produtos WHERE produto_id = %s],
    then [fetchone()]. *)
Definition sql_dados_atuais (prod_id : Z) (d : DB) : option (option Z * option Q) :=
  match filter (fun p => Produtos.produto_id p =? prod_id) (tProdutos d) with
  | [] => None
  | p :: _ => Some (Produtos.estoque_atual p, Produtos.preco_custo p)
  end.

(** The stock of a product, as a catalog read shows it (first matching row). *)
Definition estoque_de (prod_id : Z) (d : DB) : option Z :=
  match filter (fun p => Produtos.produto_id p =? prod_id) (tProdutos d) with
  | [] => None
  | p :: _ => Produtos.estoque_atual p
  end.

(* ------------------------------------------------------------------ *)
(** ** Transactions on a new connection                                *)
(* ------------------------------------------------------------------ *)

(** [Faults n = true]: the [n]-th call made on the cursor or connection of
    this transaction raises. *)
Definition Faults := nat -> bool.

Definition no_faults : Faults := fun _ => false.

Record Cursor := mkCursor { cur_db : DB; cur_calls : nat }.

(** A computation inside [try:]; [None] is a raised exception. *)
Definition Tx (A : Type) : Type := Faults -> Cursor -> option (A * Cursor).

Definition tx_ret {A} (a : A) : Tx A := fun _ c => Some (a, c).

Definition tx_bind {A B} (m : Tx A) (k : A -> Tx B) : Tx B :=
  fun fl c => match m fl c with
              | Some (a, c') => k a fl c'
              | None => None
              end.

Definition tx_raise {A} : Tx A := fun _ _ => None.

Notation "x <- m ;; k" := (tx_bind m (fun x => k))
  (at level 61, m at next level, right associativity).
Notation "m ;;; k" := (tx_bind m (fun _ => k))
  (at level 61, right associativity).

(** [cursor.execute(stmt, params)] for a writing statement. *)
Definition cursor_execute (stmt : DB -> DB) : Tx unit :=
  fun fl c => if fl (cur_calls c) then None
              else Some (tt, mkCursor (stmt (cur_db c)) (S (cur_calls c))).

(** [cursor.execute(query, params)] followed by a fetch. *)
Definition cursor_query {A} (q : DB -> A) : Tx A :=
  fun fl c => if fl (cur_calls c) then None
              else Some (q (cur_db c), mkCursor (cur_db c) (S (cur_calls c))).

(** [conn.commit()] *)
Definition conn_commit : Tx unit :=
  fun fl c => if fl (cur_calls c) then None
              else Some (tt, mkCursor (cur_db c) (S (cur_calls c))).

(** A value that Python computes by a lookup or conversion that raises
    when there is none ([d[k]], [int(None)], ...). *)
Definition tx_get {A} (o : option A) : Tx A :=
  match o with Some a => tx_ret a | None => tx_raise end.

(** [for x in xs: body(x)] *)
Fixpoint tx_for {A} (xs : list A) (body : A -> Tx unit) : Tx unit :=
  match xs with
  | [] => tx_ret tt
  | x :: r => body x ;;; tx_for r body
  end.

(** [try: body; except Exception: conn.rollback()] on a new connection to
    the database [d]: the committed database and the value of [body], or the
    database as it was. *)
Definition run_transaction {A} (body : Tx A) (fl : Faults) (d : DB) : DB * option A :=
  match body fl (mkCursor d 0) with
  | Some (a, c) => (cur_db c, Some a)
  | None => (d, None)
  end.

(* ------------------------------------------------------------------ *)
(** ** Application state                                               *)
(* ------------------------------------------------------------------ *)

(** One entry of [st.session_state.vendas], the cart. *)
Module Item.
Record t := mk {
  produto_id : Z;
  produto_nome : string;
  quantidade : Z;
  preco_unit_original : Q;
  desconto_perc : Q;
  preco_unit : Q;
  subtotal : Q
}.
End Item.

(** The database, whether the [st.cache_resource] of
    [get_db_connection_cached] holds a connection, and the cart. *)
Record App := mkApp {
  db : DB;
  conn_cached : bool;
  vendas : list Item.t
}.

(* ------------------------------------------------------------------ *)
(** ** [execute_query] and the statements sent through it              *)
(* ------------------------------------------------------------------ *)

(** A row of the coupon's header query. *)
Module Header.
Record t := mk {
  pedido_id : Z;
  cliente_nome : option string;
  cpf_cnpj : option string;
  data_pedido : DataValor;
  valor_total : Q;
  forma_pagamento : option string
}.
End Header.

(** A row of the coupon's items query. *)
Module Linha.
Record t := mk {
  quantidade : Z;
  preco_unitario : Q;
  subtotal : Q;
  descricao : option string
}.
End Linha.

(** The statements that reach [execute_query] from the handlers below. *)
Inductive Sql :=
| InsertProduto (r : Produtos.row)
| UpdatePrecos (custo venda : Q) (prod_id : Z)
| UpdateStatus (s : StatusPedido) (ids : list Z)
| SelectAllProdutos
| SelectPendentes
| SelectHeader (pedido_id : Z)
| SelectItems (pedido_id : Z).

Inductive Rows :=
| RowsProdutos (rs : list Produtos.row)
| RowsPedidos (rs : list Pedidos.row)
| RowsHeader (rs : list Header.t)
| RowsLinhas (rs : list Linha.t).

(** What [execute_query] returns: [True], the fetched rows, or [None]. *)
Inductive QueryResult := QTrue | QRows (rs : Rows) | QNone.

(** [','.join(['%s'] * n)] *)
Fixpoint placeholders (n : nat) : string :=
  match n with
  | O => EmptyString
  | S O => "%s"
  | S k => ("%s," ++ placeholders k)%string
  end.

Definition status_literal (s : StatusPedido) : string :=
  match s with
  | Pendente => "Pendente"
  | Concluido => "Concluído"
  | Cancelado => "Cancelado"
  end.

(** The text of each statement, as the program passes it. *)
Definition sql_text (q : Sql) : string :=
  match q with
  | InsertProduto _ =>
"
                            INSERT INTO Produtos (codigo_sku, descricao, marca, preco_custo, preco_venda, estoque_atual, estoque_minimo, categoria_id, fornecedor_id, modelo_moto, ano_moto)
                            VALUES (%s, %s, %s, %s, %s, %s, %s, %s, %s, %s, %s)
                        "
  | UpdatePrecos _ _ _ =>
      "UPDATE Produtos SET preco_custo = %s, preco_venda = %s WHERE produto_id = %s"
  | UpdateStatus s ids =>
      "UPDATE Pedidos SET status_pedido='" ++ status_literal s ++
      "' WHERE pedido_id IN (" ++ placeholders (List.length ids) ++ ")"
  | SelectAllProdutos => "SELECT * FROM Produtos"
  | SelectPendentes =>
"
        SELECT P.pedido_id, C.nome AS cliente_nome, P.data_pedido, P.valor_total
        FROM Pedidos P
        LEFT JOIN Clientes C ON P.cliente_id = C.cliente_id
        WHERE P.status_pedido = 'Pendente'
        ORDER BY P.data_pedido
    "
  | SelectHeader _ =>
"
        SELECT P.pedido_id, C.nome AS cliente_nome, C.cpf_cnpj, 
               P.data_pedido, P.valor_total, P.forma_pagamento
        FROM Pedidos P
        LEFT JOIN Clientes C ON P.cliente_id = C.cliente_id
        WHERE P.pedido_id = %s
    "
  | SelectItems _ =>
"
        SELECT I.quantidade, I.preco_unitario, I.subtotal, 
               Pr.descricao
        FROM Vendas I
        LEFT JOIN Produtos Pr ON I.produto_id = Pr.produto_id
        WHERE I.pedido_id = %s
    "
  end%string.

(** [a LEFT JOIN b ON on]: every row of [a], once per matching row of [b],
    or once with no partner. *)
Definition left_join {A B C} (a : list A) (b : list B) (on : A -> B -> bool)
    (row : A -> option B -> C) : list C :=
  flat_map (fun x => match filter (on x) b with
                     | [] => [row x None]
                     | ms => map (fun y => row x (Some y)) ms
                     end) a.

(** The effect of a statement on the database. *)
Definition sql_effect (q : Sql) : DB -> DB :=
  match q with
  | InsertProduto r => sql_insert_produto r
  | UpdatePrecos c v i => sql_update_precos c v i
  | UpdateStatus s ids => sql_update_status s ids
  | _ => fun d => d
  end.

(** The rows a statement returns. *)
Definition sql_rows (q : Sql) (d : DB) : Rows :=
  match q with
  | SelectPendentes =>
      RowsPedidos (filter (fun p => StatusPedido_eqb (Pedidos.status_pedido p) Pendente)
                     (tPedidos d))
  | SelectHeader pid =>
      RowsHeader
        (left_join (filter (fun p => Pedidos.pedido_id p =? pid) (tPedidos d)) (tClientes d)
           (fun p c => Pedidos.cliente_id p =? Clientes.cliente_id c)
           (fun p c => Header.mk (Pedidos.pedido_id p)
                         (option_map Clientes.nome c)
                         (match c with Some c => Clientes.cpf_cnpj c | None => None end)
                         (Pedidos.data_pedido p) (Pedidos.valor_total p)
                         (Pedidos.forma_pagamento p)))
  | SelectItems pid =>
      RowsLinhas
        (left_join (filter (fun v => Vendas.pedido_id v =? pid) (tVendas d)) (tProdutos d)
           (fun v p => Vendas.produto_id v =? Produtos.produto_id p)
           (fun v p => Linha.mk (Vendas.quantidade v) (Vendas.preco_unitario v)
                         (Vendas.subtotal v) (option_map Produtos.descricao p)))
  | _ => RowsProdutos (tProdutos d)
  end.

(** [execute_query(sql, params, fetch)].  [falha] says whether
    [cursor.execute] raises [OperationalError].  The call first obtains the
    cached connection, which populates the cache. *)
Definition execute_query (q : Sql) (fetch : bool) (falha : bool) (a : App)
  : QueryResult * App :=
  let a := mkApp (db a) true (vendas a) in
  if falha then (QNone, a)
  else
    let head := PyStr.upper (PyStr.strip (sql_text q)) in
    if PyStr.startswith_any head ["INSERT"; "UPDATE"; "DELETE"]%string then
      let a := mkApp (sql_effect q (db a)) (conn_cached a) (vendas a) in
      let a := if PyStr.startswith head "INSERT INTO Produtos"
               then mkApp (db a) false (vendas a) else a in
      (QTrue, a)
    else if fetch then (QRows (sql_rows q (db a)), a)
    else (QTrue, a).

(** [if execute_query(sql, params): ...] of the product form
    ("Salvar Produto") and of the price form ("Atualizar Preços"). *)
Definition salvar_produto (r : Produtos.row) (falha : bool) (a : App) : App :=
  snd (execute_query (InsertProduto r) false falha a).

Definition atualizar_precos (custo venda : Q) (prod_id : Z) (falha : bool) (a : App) : App :=
  snd (execute_query (UpdatePrecos custo venda prod_id) false falha a).

(** [fetch_all("Produtos")]: a catalog read. *)
Definition fetch_all_Produtos (falha : bool) (a : App) : list Produtos.row * App :=
  match execute_query SelectAllProdutos true falha a with
  | (QRows (RowsProdutos rs), a') => (rs, a')
  | (_, a') => ([], a')
  end.

(* ------------------------------------------------------------------ *)
(** ** The non-fiscal coupon                                           *)
(* ------------------------------------------------------------------ *)

(** The dict returned by [get_order_details_for_coupon]. *)
Record OrderDetails := mkDetails {
  header : Header.t;
  items : option (list Linha.t)
}.

(** [get_order_details_for_coupon(pedido_id)]: two reads through
    [execute_query]; [falha_h] and [falha_i] say whether each one fails. *)
Definition get_order_details_for_coupon (pedido_id : Z) (falha_h falha_i : bool) (a : App)
  : option OrderDetails * App :=
  let (header_data, a1) := execute_query (SelectHeader pedido_id) true falha_h a in
  match header_data with
  | QRows (RowsHeader (h :: _)) =>
      let (items_data, a2) := execute_query (SelectItems pedido_id) true falha_i a1 in
      match items_data with
      | QRows (RowsLinhas ls) => (Some (mkDetails h (Some ls)), a2)
      | _ => (Some (mkDetails h None), a2)
      end
  | _ => (None, a1)
  end.

(** [str(x)] of a nullable text. *)
Definition py_str (o : option string) : string :=
  match o with Some s => s | None => "None"%string end.

(** [x.strftime('%d/%m/%Y %H:%M') if isinstance(x, datetime) else str(x)] *)
Definition data_formatada (x : DataValor) : string :=
  match x with
  | DataHora ano mes dia hora minuto _ =>
      (PyStr.zfill 2 dia ++ "/" ++ PyStr.zfill 2 mes ++ "/" ++ PyStr.str_Z ano ++ " " ++
       PyStr.zfill 2 hora ++ ":" ++ PyStr.zfill 2 minuto)%string
  | DataTexto s => s
  end.

Section Coupon.
Import PyStr.
Local Open Scope string_scope.

Definition coupon_head (h : Header.t) : string :=
"
<div style=" ++ dq ++ "font-family: monospace; font-size: 10px; line-height: 1.2; width: 300px; margin: 0 auto; padding: 10px; border: 1px dashed black; background-color: #fff;" ++ dq ++ ">
    <h3 style=" ++ dq ++ "text-align: center; margin-bottom: 5px;" ++ dq ++ ">AUTOPEÇAS JACARÉ 🐊</h3>
    <p style=" ++ dq ++ "text-align: center; margin: 0;" ++ dq ++ ">CNPJ: 00.000.000/0001-00</p>
    <p style=" ++ dq ++ "text-align: center; margin: 0;" ++ dq ++ ">Rua Exemplo, 123 - Centro</p>
    <p style=" ++ dq ++ "text-align: center; margin-bottom: 10px;" ++ dq ++ ">(92) 99999-9999</p>
    
    <p style=" ++ dq ++ "border-top: 1px dashed black; padding-top: 5px; margin: 5px 0 5px 0;" ++ dq ++ ">
        **CUPOM NÃO FISCAL**<br>
        PEDIDO: **#" ++
str_Z (Header.pedido_id h) ++
"**<br>
        DATA: " ++
data_formatada (Header.data_pedido h) ++
"<br>
        CLIENTE: " ++
py_str (Header.cliente_nome h) ++
"<br>
        CPF/CNPJ: " ++
match Header.cpf_cnpj h with
| Some (String c r) => String c r
| _ => "Não Informado"
end ++
"<br>
    </p>
    <p style=" ++ dq ++ "border-top: 1px dashed black; padding-top: 5px; margin: 5px 0;" ++ dq ++ ">
        **ITENS DA VENDA:**<br>
        DESCRIÇÃO | QTD | UNIT (R$) | TOTAL (R$)<br>
        -------------------------------------------
    </p>
    ".

(** One turn of [for item in items]; [item['descricao'][:15]] raises on a
    missing description. *)
Definition coupon_item (item : Linha.t) : option string :=
  match Linha.descricao item with
  | None => None
  | Some descricao =>
      let nome := ljust (take 15 descricao) 15 in
      let qtd := rjust (Amount.format_f 0 (Amount.of_int (Linha.quantidade item))) 3 in
      let unit := rjust (Amount.format_f 2 (Linha.preco_unitario item)) 9 in
      let total := rjust (Amount.format_f 2 (Linha.subtotal item)) 9 in
      Some ("
        <p style=" ++ dq ++ "margin: 0;" ++ dq ++ ">" ++
nome ++
" | " ++
qtd ++
" | " ++
unit ++
" | " ++
total ++
"</p>
        ")
  end.

Definition coupon_foot (h : Header.t) : string :=
"
    <p style=" ++ dq ++ "border-top: 1px dashed black; padding-top: 5px; margin: 5px 0;" ++ dq ++ ">
        VALOR TOTAL: " ++
rjust ("R$ " ++ Amount.format_f 2 (Header.valor_total h)) 26 ++
"<br>
        FORMA PGTO: " ++
py_str (Header.forma_pagamento h) ++
"<br>
    </p>
    <p style=" ++ dq ++ "border-top: 1px dashed black; padding-top: 5px; text-align: center;" ++ dq ++ ">
        *** OBRIGADO PELA PREFERÊNCIA! ***<br>
        Este cupom não possui validade fiscal.<br>
        Verifique a garantia de seus produtos.
    </p>
</div>
    ".

(** The loop over the items, appending to [coupon_content]. *)
Fixpoint coupon_items (coupon_content : string) (its : list Linha.t) : option string :=
  match its with
  | [] => Some coupon_content
  | item :: r =>
      match coupon_item item with
      | Some line => coupon_items (coupon_content ++ line) r
      | None => None
      end
  end.

(** [generate_non_fiscal_coupon(pedido_id, order_details)]; [None] when the
    function raises (no item list, or an item without description). *)
Definition generate_non_fiscal_coupon (pedido_id : Z) (order_details : OrderDetails)
  : option string :=
  match items order_details with
  | None => None
  | Some its =>
      match coupon_items (coupon_head (header order_details)) its with
      | Some coupon_content => Some (coupon_content ++ coupon_foot (header order_details))
      | None => None
      end
  end.

End Coupon.

(** The coupon of an order, as the "CONCLUÍDO" handler prints it:
    [generate_non_fiscal_coupon(pid, get_order_details_for_coupon(pid))].
    Subscripting the [None] of a missing order raises. *)
Definition cupom (pid : Z) (falha_h falha_i : bool) (a : App) : option string * App :=
  let (detalhes, a') := get_order_details_for_coupon pid falha_h falha_i a in
  match detalhes with
  | Some d => (generate_non_fiscal_coupon pid d, a')
  | None => (None, a')
  end.

(* ------------------------------------------------------------------ *)
(** ** Select boxes                                                    *)
(* ------------------------------------------------------------------ *)

(** [d[k]] for a dict built by [dict(zip(keys, values))]: the last pair
    with the key wins; [None] stands for [KeyError]. *)
Fixpoint dict_get (k : string) (kv : list (string * Z)) : option Z :=
  match kv with
  | [] => None
  | (k', v) :: r =>
      match dict_get k r with
      | Some v' => Some v'
      | None => if String.eqb k k' then Some v else None
      end
  end.

(** [dict(zip(df_produtos['descricao'], df_produtos['produto_id']))] *)
Definition opcoes_produtos (d : DB) : list (string * Z) :=
  map (fun p => (Produtos.descricao p, Produtos.produto_id p)) (tProdutos d).

(** [dict(zip(df_clientes['nome'], df_clientes['cliente_id']))] *)
Definition opcoes_clientes (d : DB) : list (string * Z) :=
  map (fun c => (Clientes.nome c, Clientes.cliente_id c)) (tClientes d).

(** The choice of a select box that starts empty ([index=None]), looked up
    in its dict; no choice is a [KeyError]. *)
Definition escolha (sel : option string) (opcoes : list (string * Z)) : option Z :=
  match sel with
  | Some k => dict_get k opcoes
  | None => None
  end.

(** Python truth value of a select box choice. *)
Definition truthy (sel : option string) : bool :=
  match sel with
  | Some (String _ _) => true
  | _ => false
  end.

(** [st.number_input(min_value, max_value)]: the widget yields only values
    of its range. *)
Definition number_input (min_value : Z) (max_value : option Z) (v : Z) : option Z :=
  if (min_value <=? v) && match max_value with Some m => v <=? m | None => true end
  then Some v else None.

(* ------------------------------------------------------------------ *)
(** ** Purchases: "Registrar Compra e Dar Entrada no Estoque"          *)
(* ------------------------------------------------------------------ *)

(** The weighted-average cost the handler computes from the values it read.
    The cost read and the unit cost typed are Python floats, the floats
    nearest to the column value ([float(resultado[1])]) and to the number
    typed; an [int] that meets a float in an operation is converted to
    float. *)
Definition novo_custo_medio (estoque_atual_db : Z) (custo_atual_db : Q)
    (quantidade_entrada_int : Z) (valor_unitario_compra : Q) : option Q :=
  let custo_atual_db := Float.of_Q custo_atual_db in
  let valor_unitario_compra := Float.of_Q valor_unitario_compra in
  let valor_total_antigo := Float.mul (Float.of_int estoque_atual_db) custo_atual_db in
  let valor_total_novo :=
    Float.mul (Float.of_int quantidade_entrada_int) valor_unitario_compra in
  let novo_estoque := estoque_atual_db + quantidade_entrada_int in
  if novo_estoque >? 0
  then Float.div (Float.add valor_total_antigo valor_total_novo) (Float.of_int novo_estoque)
  else valor_unitario_compra.

(** The body of the handler's [try:] block.  A cost that is not a finite
    float is no value of the column [preco_custo], which holds amounts: the
    [UPDATE] that would write it is taken to raise. *)
Definition registrar_compra_tx (produto_id fornecedor_id : Z)
    (quantidade_entrada : Z) (valor_unitario_compra : Q)
    (data_emissao_input data_recebimento_input : DataValor) (nota_fiscal : string)
  : Tx Z :=
  resultado <- cursor_query (sql_dados_atuais produto_id) ;;
  match resultado with
  | None => tx_raise                     (* "Produto não encontrado no DB."; st.stop() *)
  | Some (r0, r1) =>
      let estoque_atual_db := match r0 with Some e => e | None => 0 end in
      let custo_atual_db := match r1 with Some c => c | None => 0%Q end in
      let quantidade_entrada_int := quantidade_entrada in
      cursor_execute
        (sql_insert_entrada
           (Entradas.mk produto_id fornecedor_id data_recebimento_input data_emissao_input
              quantidade_entrada_int valor_unitario_compra nota_fiscal)) ;;;
      let novo_estoque := estoque_atual_db + quantidade_entrada_int in
      let custo := novo_custo_medio estoque_atual_db custo_atual_db
                     quantidade_entrada_int valor_unitario_compra in
      match Float.round custo 4 with
      | None => tx_raise       (* OverflowError; or [inf], which the column cannot hold *)
      | Some custo_arredondado =>
          cursor_execute (sql_update_estoque novo_estoque custo_arredondado produto_id) ;;;
          conn_commit ;;;
          tx_ret novo_estoque
      end
  end.

(** The submit handler of [form_entrada_estoque].  [fornecedor_id] is the
    supplier resolved from its select box, when one is chosen.  The handler
    never calls [get_db_connection_cached.clear()]. *)
Definition registrar_compra (fornecedor_id : option Z) (produto_selecionado : option string)
    (quantidade_entrada : Z) (valor_unitario_compra : Q)
    (data_emissao_input data_recebimento_input : DataValor) (nota_fiscal : string)
    (fl : Faults) (a : App) : App :=
  match fornecedor_id, truthy produto_selecionado with
  | Some forn, true =>
      match escolha produto_selecionado (opcoes_produtos (db a)) with
      | None => a
      | Some produto_id =>
          let (d', _) :=
            run_transaction
              (registrar_compra_tx produto_id forn quantidade_entrada valor_unitario_compra
                 data_emissao_input data_recebimento_input nota_fiscal) fl (db a) in
          mkApp d' (conn_cached a) (vendas a)
      end
  | _, _ => a
  end.

(* ------------------------------------------------------------------ *)
(** ** Sales orders                                                    *)
(* ------------------------------------------------------------------ *)

(** What pressing "Adicionar Item" does. *)
Inductive AddResult :=
| Adicionado (a : App)                      (* "Item adicionado ao pedido." *)
| EstoqueInsuficiente (disponivel : Z)      (* "Estoque insuficiente! Disponível: ..." *)
| Excecao.                                  (* an uncaught exception; nothing changes *)

(** The "Adicionar Item" handler.  [df_produtos] is the catalog read at the
    top of the same script run. *)
Definition adicionar_item (produto_item : option string) (quantidade_item : option Z)
    (percentual_desconto : option Q) (a : App) : AddResult :=
  let df_produtos := tProdutos (db a) in
  match escolha produto_item (opcoes_produtos (db a)), produto_item with
  | Some produto_id, Some nome =>
      match filter (fun p => Produtos.produto_id p =? produto_id) df_produtos with
      | [] => Excecao
      | produto_data :: _ =>
          match Produtos.estoque_atual produto_data, percentual_desconto, quantidade_item with
          | Some estoque_atual, Some perc, Some qtd =>
              let preco_venda_original := Produtos.preco_venda produto_data in
              let fator_desconto := (1 - perc / 100)%Q in
              let preco_unit_com_desconto := (preco_venda_original * fator_desconto)%Q in
              let subtotal_item := (preco_unit_com_desconto * Amount.of_int qtd)%Q in
              if qtd >? estoque_atual then EstoqueInsuficiente estoque_atual
              else Adicionado
                     (mkApp (db a) (conn_cached a)
                        (vendas a ++
                         [Item.mk produto_id nome qtd preco_venda_original perc
                            preco_unit_com_desconto subtotal_item]))
          | _, _, _ => Excecao
          end
      end
  | _, _ => Excecao
  end.

(** [df_itens['subtotal'].sum()] *)
Definition valor_total (itens : list Item.t) : Q :=
  fold_left (fun acc i => (acc + Item.subtotal i)%Q) itens 0%Q.

(** The two statements issued for one cart item. *)
Definition registrar_item (pedido_id : Z) (item : Item.t) : Tx unit :=
  let qtd := Item.quantidade item in
  let preco_unit := Item.preco_unit item in
  let subtotal := Item.subtotal item in
  let desconto_p := Item.desconto_perc item in
  let prod_id := Item.produto_id item in
  cursor_execute
    (sql_insert_venda (Vendas.mk pedido_id prod_id qtd preco_unit subtotal desconto_p)) ;;;
  cursor_execute (sql_baixa_estoque qtd prod_id).

(** The body of the [try:] block of "Registrar Pedido".  [novo_id] is the
    key the database assigns to the new order ([RETURNING pedido_id]). *)
Definition registrar_pedido_tx (cliente_selecionado forma_pagamento : option string)
    (data_pedido : DataValor) (novo_id : Z) (a : App) : Tx Z :=
  cliente_id <- tx_get (escolha cliente_selecionado (opcoes_clientes (db a))) ;;
  let valor_total_float := valor_total (vendas a) in
  cursor_execute
    (sql_insert_pedido
       (Pedidos.mk novo_id cliente_id data_pedido valor_total_float Pendente
          forma_pagamento)) ;;;
  let pedido_id := novo_id in
  tx_for (vendas a) (registrar_item pedido_id) ;;;
  conn_commit ;;;
  tx_ret pedido_id.

(** The "Registrar Pedido" button, which exists only while the cart has
    items.  After a commit the cart is emptied and the connection cache
    cleared. *)
Definition registrar_pedido (cliente_selecionado forma_pagamento : option string)
    (data_pedido : DataValor) (novo_id : Z) (fl : Faults) (a : App) : App :=
  match vendas a with
  | [] => a
  | _ :: _ =>
      match run_transaction
              (registrar_pedido_tx cliente_selecionado forma_pagamento data_pedido novo_id a)
              fl (db a) with
      | (d', Some _) => mkApp d' false []
      | (d', None) => mkApp d' (conn_cached a) (vendas a)
      end
  end.

(** The ids offered by the multiselect of "Processar Pedidos Pendentes":
    [df_pendentes['pedido_id'].tolist()]. *)
Definition opcoes_pendentes (d : DB) : list Z :=
  map Pedidos.pedido_id
    (filter (fun p => StatusPedido_eqb (Pedidos.status_pedido p) Pendente) (tPedidos d)).

(** The coupons printed after "CONCLUÍDO"; [None] when one of them raises.
    Calls [2k+1] and [2k+2] of the handler are the reads of the [k]-th
    coupon. *)
Fixpoint imprimir_cupons (pids : list Z) (n : nat) (falhas : nat -> bool) (a : App)
  : option (list string) * App :=
  match pids with
  | [] => (Some [], a)
  | pid :: r =>
      match cupom pid (falhas n) (falhas (S n)) a with
      | (Some c, a') =>
          match imprimir_cupons r (S (S n)) falhas a' with
          | (Some cs, a'') => (Some (c :: cs), a'')
          | (None, a'') => (None, a'')
          end
      | (None, a') => (None, a')
      end
  end.

(** "Marcar como CONCLUÍDO" *)
Definition marcar_concluido (pedidos_selecionados : list Z) (imprimir_cupom : bool)
    (falhas : nat -> bool) (a : App) : App :=
  match pedidos_selecionados with
  | [] => a
  | _ :: _ =>
      let (_, a1) := execute_query (UpdateStatus Concluido pedidos_selecionados) false
                       (falhas O) a in
      if imprimir_cupom then
        match imprimir_cupons pedidos_selecionados 1 falhas a1 with
        | (Some _, a2) => mkApp (db a2) false (vendas a2)
        | (None, a2) => a2
        end
      else mkApp (db a1) false (vendas a1)
  end.

(** "Marcar como CANCELADO" *)
Definition marcar_cancelado (pedidos_selecionados : list Z)
    (falhas : nat -> bool) (a : App) : App :=
  match pedidos_selecionados with
  | [] => a
  | _ :: _ =>
      let (_, a1) := execute_query (UpdateStatus Cancelado pedidos_selecionados) false
                       (falhas O) a in
      mkApp (db a1) false (vendas a1)
  end.

(** The status of an order, when it exists. *)
Definition status_de (pid : Z) (d : DB) : option StatusPedido :=
  match filter (fun p => Pedidos.pedido_id p =? pid) (tPedidos d) with
  | [] => None
  | p :: _ => Some (Pedidos.status_pedido p)
  end.

(* ------------------------------------------------------------------ *)
(** ** Returns: the "Devoluções" form                                  *)
(* ------------------------------------------------------------------ *)

(** A row of [df_itens_pedido]. *)
Module ItemPedido.
Record t := mk {
  produto_id : Z;
  descricao : string;
  quantidade : Z;
  preco_unitario : Q
}.
End ItemPedido.

(** The orders offered for a return: [status_pedido = 'Concluído'], joined
    with their customer. *)
Definition pedidos_concluidos (d : DB) : list Z :=
  flat_map (fun p =>
              if StatusPedido_eqb (Pedidos.status_pedido p) Concluido
              then map (fun _ => Pedidos.pedido_id p)
                     (filter (fun c => Pedidos.cliente_id p =? Clientes.cliente_id c)
                        (tClientes d))
              else []) (tPedidos d).

(** [sql_itens]: the lines of the order, joined with their product. *)
Definition itens_do_pedido (pedido_id_sel : Z) (d : DB) : list ItemPedido.t :=
  flat_map (fun v =>
              map (fun p => ItemPedido.mk (Vendas.produto_id v) (Produtos.descricao p)
                              (Vendas.quantidade v) (Vendas.preco_unitario v))
                (filter (fun p => Vendas.produto_id v =? Produtos.produto_id p)
                   (tProdutos d)))
    (filter (fun v => Vendas.pedido_id v =? pedido_id_sel) (tVendas d)).

(** [df_itens_pedido[df_itens_pedido['descricao'] == produto_para_devolver].iloc[0]] *)
Definition item_selecionado (produto_para_devolver : string) (df_itens_pedido : list ItemPedido.t)
  : option ItemPedido.t :=
  find (fun i => String.eqb (ItemPedido.descricao i) produto_para_devolver) df_itens_pedido.

Definition mapa_estado (e : EstadoOpcao) : EstadoProduto :=
  match e with
  | NovoPerfeitoEstado => Novo
  | AvariadoLeve => Avariado
  | SucataDanificado => Sucata
  end.

(** The [value=] of the checkbox "Apto a voltar ao estoque de vendas?". *)
Definition retornar_estoque_padrao (estado_produto : EstadoOpcao) : bool :=
  match estado_produto with
  | NovoPerfeitoEstado => true
  | _ => false
  end.

(** The checkbox: its default, unless the user sets it. *)
Definition checkbox (value : bool) (marcado : option bool) : bool :=
  match marcado with
  | Some b => b
  | None => value
  end.

(** What the form holds when "Confirmar Devolução" is pressed. *)
Record FormDevolucao := mkForm {
  f_pedido_id_sel : Z;
  f_item_selecionado : ItemPedido.t;
  f_qtd_devolver : Z;
  f_estado_produto : EstadoOpcao;
  f_retornar_estoque : bool;
  f_motivo : string;
  f_data_devolucao_input : DataValor
}.

(** The widgets of [form_devolucao], from the order chosen to the values
    submitted; [None] when a widget cannot hold the value asked for. *)
Definition form_devolucao (pedido_id_sel : Z) (produto_para_devolver : string)
    (qtd : Z) (estado_produto : EstadoOpcao) (marcado : option bool)
    (motivo : string) (data_devolucao_input : DataValor) (d : DB) : option FormDevolucao :=
  if existsb (Z.eqb pedido_id_sel) (pedidos_concluidos d) then
    match item_selecionado produto_para_devolver (itens_do_pedido pedido_id_sel d) with
    | None => None
    | Some item =>
        match number_input 1 (Some (ItemPedido.quantidade item)) qtd with
        | None => None
        | Some qtd_devolver =>
            Some (mkForm pedido_id_sel item qtd_devolver estado_produto
                    (checkbox (retornar_estoque_padrao estado_produto) marcado)
                    motivo data_devolucao_input)
        end
    end
  else None.

(** The body of the [try:] block of "Confirmar Devolução". *)
Definition confirmar_devolucao_tx (f : FormDevolucao) : Tx unit :=
  let estado_final := mapa_estado (f_estado_produto f) in
  let prod := ItemPedido.produto_id (f_item_selecionado f) in
  cursor_execute
    (sql_insert_devolucao
       (Devolucoes.mk (f_pedido_id_sel f) prod (f_qtd_devolver f) estado_final
          (f_retornar_estoque f) (f_motivo f) (f_data_devolucao_input f))) ;;;
  (if f_retornar_estoque f
   then cursor_execute (sql_retorno_estoque (f_qtd_devolver f) prod)
   else tx_ret tt) ;;;
  conn_commit.

(** The submit handler: commit and clear the connection cache, or roll back. *)
Definition confirmar_devolucao (f : FormDevolucao) (fl : Faults) (a : App) : App :=
  match run_transaction (confirmar_devolucao_tx f) fl (db a) with
  | (d', Some _) => mkApp d' false (vendas a)
  | (d', None) => mkApp d' (conn_cached a) (vendas a)
  end.

(** The whole interaction: fill the form, then submit it. *)
Definition devolucao (pedido_id_sel : Z) (produto_para_devolver : string)
    (qtd : Z) (estado_produto : EstadoOpcao) (marcado : option bool)
    (motivo : string) (data_devolucao_input : DataValor) (fl : Faults) (a : App) : option App :=
  match form_devolucao pedido_id_sel produto_para_devolver qtd estado_produto marcado
          motivo data_devolucao_input (db a) with
  | Some f => Some (confirmar_devolucao f fl a)
  | None => None
  end.

(** Units of a product returned so far on an order. *)
Definition ja_devolvido (pedido_id prod_id : Z) (d : DB) : Z :=
  fold_right Z.add 0
    (map Devolucoes.quantidade
       (filter (fun r => (Devolucoes.pedido_id r =? pedido_id) &&
                         (Devolucoes.produto_id r =? prod_id)) (tDevolucoes d))).

(** Units of a product sold on an order. *)
Definition vendido (pedido_id prod_id : Z) (d : DB) : Z :=
  fold_right Z.add 0
    (map Vendas.quantidade
       (filter (fun v => (Vendas.pedido_id v =? pedido_id) &&
                         (Vendas.produto_id v =? prod_id)) (tVendas d))).

(* ------------------------------------------------------------------ *)
(** ** A small shop, for the concrete runs                             *)
(* ------------------------------------------------------------------ *)

Module Loja.
Local Open Scope string_scope.

Definition pastilha (estoque : Z) (custo : Q) : Produtos.row :=
  Produtos.mk 1 "P-001" "Pastilha" "Cobreq" (Some custo) 100 (Some estoque) 1 1 1
    "Honda CB 300R" "2012".

Definition oleo (estoque : Z) : Produtos.row :=
  Produtos.mk 2 "O-001" "Oleo" "Mobil" (Some 30%Q) 50 (Some estoque) 1 1 1
    "Honda CG 160" "2020".

Definition ana : Clientes.row := Clientes.mk 1 "Ana" (Some "123").

Definition hoje : DataValor := DataHora 2024 5 17 9 30 0.

(** Both products in stock, no order yet. *)
Definition inicio : DB :=
  mkDB [pastilha 5 4; oleo 10] [ana] [] [] [] [].

(** A fresh session on a database. *)
Definition sessao (d : DB) : App := mkApp d true [].

(** A completed order of five "Pastilha", none of them left in stock. *)
Definition vendido5 : DB :=
  mkDB [pastilha 0 4; oleo 10] [ana] []
    [Pedidos.mk 7 1 hoje 500 Concluido (Some "Pix")]
    [Vendas.mk 7 1 5 100 500 0] [].

(** The result of [adicionar_item] when it adds the item. *)
Definition adicionado (r : AddResult) (a : App) : App :=
  match r with Adicionado a' => a' | _ => a end.

End Loja.

(* ------------------------------------------------------------------ *)
(** ** Observations used in the statements, and sample runs          *)
(* ------------------------------------------------------------------ *)

(** Every character of [s] satisfies [f]. *)
Fixpoint all_chars (f : ascii -> bool) (s : string) : bool :=
  match s with
  | EmptyString => true
  | String c r => f c && all_chars f r
  end.

(** The statements whose text starts with INSERT, UPDATE or DELETE. *)
Definition is_write (q : Sql) : bool :=
  match q with
  | InsertProduto _ | UpdatePrecos _ _ _ | UpdateStatus _ _ => true
  | _ => false
  end.

(** The row that "Confirmar Devolução" inserts. *)
Definition linha_devolucao (f : FormDevolucao) : Devolucoes.row :=
  Devolucoes.mk (f_pedido_id_sel f) (ItemPedido.produto_id (f_item_selecionado f))
    (f_qtd_devolver f) (mapa_estado (f_estado_produto f)) (f_retornar_estoque f)
    (f_motivo f) (f_data_devolucao_input f).

(** Calls the transaction of a return makes: the insert, the stock update
    when the item goes back to stock, the commit. *)
Definition chamadas_devolucao (f : FormDevolucao) : nat :=
  if f_retornar_estoque f then 3%nat else 2%nat.

(** The database of a committed return. *)
Definition devolucao_confirmada (f : FormDevolucao) (d d' : DB) : Prop :=
  tDevolucoes d' = tDevolucoes d ++ [linha_devolucao f] /\
  (forall k, estoque_de k d' =
             if f_retornar_estoque f && (k =? ItemPedido.produto_id (f_item_selecionado f))
             then sql_add (estoque_de k d) (f_qtd_devolver f)
             else estoque_de k d) /\
  tPedidos d' = tPedidos d /\ tVendas d' = tVendas d /\
  tEntradas d' = tEntradas d /\ tClientes d' = tClientes d.

(** Two returns of 3 on the completed order of 5 "Pastilha". *)
Definition primeira_devolucao : option App :=
  devolucao 7 "Pastilha" 3 NovoPerfeitoEstado None "defeito" Loja.hoje no_faults
    (Loja.sessao Loja.vendido5).

(** The application after the first return, and after the second. *)
Definition apos_primeira : App :=
  match primeira_devolucao with Some a => a | None => Loja.sessao Loja.vendido5 end.

Definition segunda_devolucao : option App :=
  devolucao 7 "Pastilha" 3 NovoPerfeitoEstado None "defeito" Loja.hoje no_faults
    apos_primeira.

Definition apos_segunda : App :=
  match segunda_devolucao with Some a => a | None => apos_primeira end.

(** The [Vendas] row written for a cart item. *)
Definition linha_venda (pedido_id : Z) (item : Item.t) : Vendas.row :=
  Vendas.mk pedido_id (Item.produto_id item) (Item.quantidade item) (Item.preco_unit item)
    (Item.subtotal item) (Item.desconto_perc item).

(** What the two statements of one cart item do to the database. *)
Definition efeito_item (pedido_id : Z) (d : DB) (item : Item.t) : DB :=
  sql_baixa_estoque (Item.quantidade item) (Item.produto_id item)
    (sql_insert_venda (linha_venda pedido_id item) d).

(** Units of a product in the cart. *)
Definition qtd_no_carrinho (prod_id : Z) (itens : list Item.t) : Z :=
  fold_right Z.add 0
    (map Item.quantidade (filter (fun i => Item.produto_id i =? prod_id) itens)).

(** Calls the transaction of an order makes: the header insert, two
    statements per cart item, the commit. *)
Definition chamadas_pedido (a : App) : nat := (2 + 2 * List.length (vendas a))%nat.

(** The sum of a list of amounts. *)
Definition soma (l : list Q) : Q := fold_right Qplus 0%Q l.

(** The lines of an order. *)
Definition linhas_do_pedido (pedido_id : Z) (d : DB) : list Vendas.row :=
  filter (fun v => Vendas.pedido_id v =? pedido_id) (tVendas d).

(** A line was added to the cart of [a], giving [a']: it carries the catalog
    price of its product, the quantity and discount entered, the discounted
    unit price and the subtotal. *)
Definition item_adicionado (a : App) (q : Z) (d : Q) (a' : App) : Prop :=
  exists item produto_data,
    vendas a' = vendas a ++ [item] /\ db a' = db a /\
    In produto_data (tProdutos (db a)) /\
    Produtos.produto_id produto_data = Item.produto_id item /\
    Item.preco_unit_original item = Produtos.preco_venda produto_data /\
    Item.quantidade item = q /\ Item.desconto_perc item = d /\
    (Item.preco_unit item == Item.preco_unit_original item * (1 - d / 100))%Q /\
    (Item.subtotal item == Item.preco_unit item * inject_Z q)%Q.

(** The order [pid] was written from the cart of [a], giving the database
    [d']: one 'Pendente' header whose total is the sum of the subtotals of
    the lines written, one line per cart item. *)
Definition pedido_gravado (a : App) (pid : Z) (d' : DB) : Prop :=
  exists pedido,
    tPedidos d' = tPedidos (db a) ++ [pedido] /\
    tVendas d' = tVendas (db a) ++ map (linha_venda pid) (vendas a) /\
    Pedidos.pedido_id pedido = pid /\
    Pedidos.status_pedido pedido = Pendente /\
    (Pedidos.valor_total pedido ==
     soma (map Vendas.subtotal (map (linha_venda pid) (vendas a))))%Q /\
    ((forall v, In v (tVendas (db a)) -> Vendas.pedido_id v <> pid) ->
     (Pedidos.valor_total pedido == soma (map Vendas.subtotal (linhas_do_pedido pid d')))%Q).

(** The order of the specification's example: two "Pastilha" at 100 with 10%
    off and one "Oleo" at 50. *)
Definition carrinho1 : App :=
  Loja.adicionado
    (adicionar_item (Some "Pastilha"%string) (Some 2) (Some 10%Q) (Loja.sessao Loja.inicio))
    (Loja.sessao Loja.inicio).

Definition carrinho2 : App :=
  Loja.adicionado (adicionar_item (Some "Oleo"%string) (Some 1) (Some 0%Q) carrinho1)
    carrinho1.

(** That cart, registered for customer "Ana" as order 1. *)
Definition pedido_exemplo : DB * option Z :=
  run_transaction
    (registrar_pedido_tx (Some "Ana"%string) (Some "Pix"%string) Loja.hoje 1 carrinho2)
    no_faults (db carrinho2).

(** Session A puts 5 "Pastilha" in its cart while 5 are in stock; session B
    then sells 2, leaving 3. *)
Definition sessao_A : App :=
  Loja.adicionado
    (adicionar_item (Some "Pastilha"%string) (Some 5) (Some 0%Q) (Loja.sessao Loja.inicio))
    (Loja.sessao Loja.inicio).

Definition sessao_B : App :=
  Loja.adicionado
    (adicionar_item (Some "Pastilha"%string) (Some 2) (Some 0%Q) (Loja.sessao Loja.inicio))
    (Loja.sessao Loja.inicio).

(** The database once session B has registered its order. *)
Definition apos_B : DB :=
  db (registrar_pedido (Some "Ana"%string) (Some "Pix"%string) Loja.hoje 1 no_faults sessao_B).

(** Session A when it presses "Registrar Pedido": its cart, on the database
    session B left. *)
Definition carrinho_velho : App := mkApp apos_B true (vendas sessao_A).

(** No product has a negative stock. *)
Definition nao_negativo (d : DB) : Prop :=
  forall k e, estoque_de k d = Some e -> 0 <= e.

(** The cart asks, of each product, no more than its stock. *)
Definition carrinho_cabe (a : App) : Prop :=
  forall k e, estoque_de k (db a) = Some e -> qtd_no_carrinho k (vendas a) <= e.

(** One interaction that touches the stock or the cart: a receipt (the
    quantity field has [min_value=1]), a line added to the cart, an order
    registered in a state that satisfies [guarda], a return. *)
Inductive passo (guarda : App -> Prop) : App -> App -> Prop :=
| passo_compra (forn : option Z) (sel : option string) (q : Z) (u : Q)
    (emissao recebimento : DataValor) (nf : string) (fl : Faults) (a : App) :
    1 <= q ->
    passo guarda a (registrar_compra forn sel q u emissao recebimento nf fl a)
| passo_adicionar (produto_item : option string) (q : Z) (d : Q) (a a' : App) :
    adicionar_item produto_item (Some q) (Some d) a = Adicionado a' ->
    passo guarda a a'
| passo_pedido (cs fp : option string) (data : DataValor) (novo_id : Z) (fl : Faults)
    (a : App) :
    guarda a ->
    passo guarda a (registrar_pedido cs fp data novo_id fl a)
| passo_devolucao (pid : Z) (nome : string) (qtd : Z) (estado : EstadoOpcao)
    (marcado : option bool) (motivo : string) (data : DataValor) (fl : Faults) (a a' : App) :
    devolucao pid nome qtd estado marcado motivo data fl a = Some a' ->
    passo guarda a a'.

(** A run: any number of interactions. *)
Inductive passos (guarda : App -> Prop) : App -> App -> Prop :=
| passos_fim (a : App) : passos guarda a a
| passos_mais (a b c : App) : passo guarda a b -> passos guarda b c -> passos guarda a c.

(** A cart with one line of 3 "Pastilha", against a stock of 5. *)
Definition uma_linha : App :=
  Loja.adicionado
    (adicionar_item (Some "Pastilha"%string) (Some 3) (Some 0%Q) (Loja.sessao Loja.inicio))
    (Loja.sessao Loja.inicio).

(** Two pending orders. *)
Definition dois_pendentes : DB :=
  mkDB [Loja.pastilha 5 4] [Loja.ana] []
    [Pedidos.mk 1 1 Loja.hoje 100 Pendente None; Pedidos.mk 2 1 Loja.hoje 200 Pendente None]
    [] [].

(* ------------------------------------------------------------------ *)
(** ** [execute_query] on any statement text; the generic readers      *)
(* ------------------------------------------------------------------ *)

(** The test [sql.strip().upper().startswith(("INSERT", "UPDATE", "DELETE"))]
    of [execute_query]. *)
Definition is_write_text (sql : string) : bool :=
  PyStr.startswith_any (PyStr.upper (PyStr.strip sql)) ["INSERT"; "UPDATE"; "DELETE"]%string.

(** What [execute_query] returns, for any type of rows. *)
Inductive Resultado (R : Type) : Type :=
| RTrue
| RRows (rs : R)
| RNone.
Arguments RTrue {R}.
Arguments RRows {R} rs.
Arguments RNone {R}.

(** [execute_query(sql, params, fetch)] for the text [sql] of a handler, on
    any store [S] with the flag of the connection cache.  What the database
    does with the text is given by [efeito] (the change a write makes) and
    [linhas] (the rows a read returns); [falha] says whether
    [cursor.execute] raises [OperationalError].  Two things are outside this
    definition: an exception of another class, which [execute_query] does
    not catch, and a change made by a text that does not begin with
    [INSERT], [UPDATE] or [DELETE], which [execute_query] would leave
    uncommitted on the cached connection. *)
Definition execute_query_texto {S R : Type} (sql : string) (efeito : S -> S)
    (linhas : S -> R) (fetch falha : bool) (st : S * bool) : Resultado R * (S * bool) :=
  let st := (fst st, true) in
  if falha then (RNone, st)
  else
    let head := PyStr.upper (PyStr.strip sql) in
    if PyStr.startswith_any head ["INSERT"; "UPDATE"; "DELETE"]%string then
      let st := (efeito (fst st), snd st) in
      let st := if PyStr.startswith head "INSERT INTO Produtos"
                then (fst st, false) else st in
      (RTrue, st)
    else if fetch then (RRows (linhas (fst st)), st)
    else (RTrue, st).

(** [sep.join(l)] *)
Fixpoint join_sep (sep : string) (l : list string) : string :=
  match l with
  | [] => EmptyString
  | [x] => x
  | x :: r => (x ++ sep ++ join_sep sep r)%string
  end.

(** The text [fetch_all] builds. *)
Definition sql_fetch_all (table_name : string) : string :=
  ("SELECT * FROM " ++ table_name)%string.

(** The text [fetch_data_for_display] builds; a join is the pair of its
    ['table'] and ['on'] entries. *)
Definition sql_fetch_data_for_display (table_name : string) (columns : list string)
    (join_info : option (list (string * string))) (condition : option string) : string :=
  let select_cols := join_sep ", " columns in
  let sql := ("SELECT " ++ select_cols ++ " FROM " ++ table_name)%string in
  let sql :=
    match join_info with
    | Some (j :: js) =>
        fold_left (fun sql join => (sql ++ " LEFT JOIN " ++ fst join ++ " ON " ++ snd join)%string)
          (j :: js) sql
    | _ => sql
    end in
  match condition with
  | Some (String c r) => (sql ++ " WHERE " ++ String c r)%string
  | _ => sql
  end.

(** The query of the purchase history, as the page builds it. *)
Definition sql_historico_entradas : string :=
  sql_fetch_data_for_display "Entradas E"
    ["F.nome_fantasia AS Fornecedor"; "P.descricao AS Produto"; "E.emissao";
     "E.data_recebimento"; "E.quantidade_comprada"; "E.valor_unitario_compra";
     "E.numero_nota_fiscal"]%string
    (Some [("Produtos P", "E.produto_id = P.produto_id");
           ("Fornecedores F", "E.fornecedor_id = F.fornecedor_id")]%string)
    None.

(* ------------------------------------------------------------------ *)
(** ** Observations for the further properties                         *)
(* ------------------------------------------------------------------ *)

(** An order with this id exists. *)
Definition existe_pedido (pid : Z) (d : DB) : Prop :=
  exists p, In p (tPedidos d) /\ Pedidos.pedido_id p = pid.

(** Every line of the order refers to a product of the catalog. *)
Definition linhas_com_produto (pid : Z) (d : DB) : Prop :=
  forall v, In v (tVendas d) -> Vendas.pedido_id v = pid ->
            exists p, In p (tProdutos d) /\ Produtos.produto_id p = Vendas.produto_id v.

(** The literal text around the columns of a coupon line. *)
Definition coupon_item_abre : string :=
  ("
        <p style=" ++ PyStr.dq ++ "margin: 0;" ++ PyStr.dq ++ ">")%string.

Definition coupon_item_fecha : string :=
  "</p>
        "%string.

(** Units of a product received, sold, and returned to stock, as the
    history tables record them. *)
Definition comprado (prod_id : Z) (d : DB) : Z :=
  fold_right Z.add 0
    (map Entradas.quantidade_comprada
       (filter (fun e => Entradas.produto_id e =? prod_id) (tEntradas d))).

Definition vendido_produto (prod_id : Z) (d : DB) : Z :=
  fold_right Z.add 0
    (map Vendas.quantidade
       (filter (fun v => Vendas.produto_id v =? prod_id) (tVendas d))).

Definition retornado (prod_id : Z) (d : DB) : Z :=
  fold_right Z.add 0
    (map Devolucoes.quantidade
       (filter (fun r => Devolucoes.retornou_estoque r &&
                         (Devolucoes.produto_id r =? prod_id)) (tDevolucoes d))).

(** The stock of a product less what the history tables account for: the
    stock it would have with no receipt, sale or return on record. *)
Definition saldo_inicial (prod_id : Z) (d : DB) : option Z :=
  option_map (fun e => e - comprado prod_id d + vendido_produto prod_id d
                       - retornado prod_id d)
    (estoque_de prod_id d).

(** Python truth value of a text field. *)
Definition preenchido (s : string) : bool :=
  match s with
  | EmptyString => false
  | String _ _ => true
  end.

(** The submit handler of [form_produto] ("Salvar Produto").  [novo_id] is
    the key the database gives the product; the category and the supplier
    are the ids their select boxes resolve to. *)
Definition form_produto (novo_id : Z) (codigo_sku descricao marca : string)
    (preco_custo preco_venda : Q) (estoque_atual estoque_minimo : Z)
    (cat_id forn_id : Z) (modelo_moto ano_moto : string) (falha : bool) (a : App) : App :=
  if preenchido codigo_sku && preenchido marca then
    salvar_produto
      (Produtos.mk novo_id codigo_sku descricao marca (Some preco_custo) preco_venda
         (Some estoque_atual) estoque_minimo cat_id forn_id modelo_moto ano_moto)
      falha a
  else a.

(** One interaction with the application, of any module that writes: a
    receipt, a line added to the cart, an order registered under a new id, a
    return, pending orders chosen in the multiselect and marked completed or
    cancelled, a product saved, prices updated, the cart cleared. *)
Inductive interacao : App -> App -> Prop :=
| i_compra (forn : option Z) (sel : option string) (q : Z) (u : Q)
    (emissao recebimento : DataValor) (nf : string) (fl : Faults) (a : App) :
    interacao a (registrar_compra forn sel q u emissao recebimento nf fl a)
| i_adicionar (produto_item : option string) (q : Z) (d : Q) (a a' : App) :
    adicionar_item produto_item (Some q) (Some d) a = Adicionado a' ->
    interacao a a'
| i_limpar (a : App) :
    interacao a (mkApp (db a) (conn_cached a) [])
| i_pedido (cs fp : option string) (data : DataValor) (novo_id : Z) (fl : Faults)
    (a : App) :
    ~ existe_pedido novo_id (db a) ->
    interacao a (registrar_pedido cs fp data novo_id fl a)
| i_devolucao (pid : Z) (nome : string) (qtd : Z) (estado : EstadoOpcao)
    (marcado : option bool) (motivo : string) (data : DataValor) (fl : Faults) (a a' : App) :
    devolucao pid nome qtd estado marcado motivo data fl a = Some a' ->
    interacao a a'
| i_concluir (sel : list Z) (imprimir : bool) (falhas : nat -> bool) (a : App) :
    incl sel (opcoes_pendentes (db a)) ->
    interacao a (marcar_concluido sel imprimir falhas a)
| i_cancelar (sel : list Z) (falhas : nat -> bool) (a : App) :
    incl sel (opcoes_pendentes (db a)) ->
    interacao a (marcar_cancelado sel falhas a)
| i_produto (novo_id : Z) (codigo_sku descricao marca : string)
    (preco_custo preco_venda : Q) (estoque_atual estoque_minimo : Z)
    (cat_id forn_id : Z) (modelo_moto ano_moto : string) (falha : bool) (a : App) :
    interacao a (form_produto novo_id codigo_sku descricao marca preco_custo preco_venda
                   estoque_atual estoque_minimo cat_id forn_id modelo_moto ano_moto falha a)
| i_precos (custo venda : Q) (prod_id : Z) (falha : bool) (a : App) :
    interacao a (atualizar_precos custo venda prod_id falha a).

(** Any number of interactions, one after the other. *)
Inductive sessoes : App -> App -> Prop :=
| sessoes_fim (a : App) : sessoes a a
| sessoes_mais (a b c : App) : interacao a b -> sessoes b c -> sessoes a c.

(** [l] is the start of [l']: rows were only added, at the end. *)
Definition so_cresce {A} (l l' : list A) : Prop := exists novos, l' = l ++ novos.

(** What one interaction may do to the database: nothing (a read, a
    rejected input, a transaction rolled back), or the whole effect of one
    committed handler. *)
Inductive efeito_db (d : DB) : DB -> Prop :=
| e_nada : efeito_db d d
| e_compra (pid forn q : Z) (u c : Q) (r0 : option Z) (r1 : option Q)
    (emissao recebimento : DataValor) (nf : string) :
    sql_dados_atuais pid d = Some (r0, r1) ->
    efeito_db d
      (sql_update_estoque (match r0 with Some e => e | None => 0 end + q) c pid
         (sql_insert_entrada (Entradas.mk pid forn recebimento emissao q u nf) d))
| e_pedido (novo_id cid : Z) (data : DataValor) (total : Q) (fp : option string)
    (itens : list Item.t) :
    ~ existe_pedido novo_id d ->
    efeito_db d
      (fold_left (efeito_item novo_id) itens
         (sql_insert_pedido (Pedidos.mk novo_id cid data total Pendente fp) d))
| e_devolucao (f : FormDevolucao) (d' : DB) :
    tProdutos d' = tProdutos
                     (if f_retornar_estoque f
                      then sql_retorno_estoque (f_qtd_devolver f)
                             (ItemPedido.produto_id (f_item_selecionado f)) d
                      else d) ->
    devolucao_confirmada f d d' ->
    efeito_db d d'
| e_status (s : StatusPedido) (sel : list Z) :
    incl sel (opcoes_pendentes d) ->
    efeito_db d (sql_update_status s sel d)
| e_produto (r : Produtos.row) :
    efeito_db d (sql_insert_produto r d)
| e_precos (custo venda : Q) (prod_id : Z) :
    efeito_db d (sql_update_precos custo venda prod_id d).

(** The columns of an order that no handler rewrites: all but the status. *)
Definition cabecalho_fixo (p : Pedidos.row) : Z * Z * DataValor * Q * option string :=
  (Pedidos.pedido_id p, Pedidos.cliente_id p, Pedidos.data_pedido p,
   Pedidos.valor_total p, Pedidos.forma_pagamento p).

(* ------------------------------------------------------------------ *)
(** ** Expenses: "Salvar Despesa"                                      *)
(* ------------------------------------------------------------------ *)

Module Despesas.
Record row := mk {
  tipo_despesa : string;
  descricao : string;
  valor : Q;
  data_vencimento : DataValor;
  status : string;
  data_pagamento : option DataValor
}.
End Despesas.

(** The text of the form's statement, with the line break and the
    indentation it has in the source. *)
Definition sql_insert_despesa : string :=
  "
                        INSERT INTO Despesas (tipo_despesa, descricao, valor, data_vencimento, status, data_pagamento)
                        VALUES (%s, %s, %s, %s, %s, %s)
                    "%string.

(** The submit handler of [form_despesa], on the table [Despesas] and the
    flag of the connection cache.  [tipo] and [status] are the choices of
    their select boxes ([None] while nothing is chosen), [data_pgto] the
    value of the payment date input, which exists only when the status is
    'Pago'. *)
Definition form_despesa (tipo : option string) (descricao : string) (valor : Q)
    (data_vencimento : DataValor) (status : option string) (data_pgto : DataValor)
    (falha : bool) (st : list Despesas.row * bool) : list Despesas.row * bool :=
  let data_pagamento :=
    match status with
    | Some s => if String.eqb s "Pago" then Some data_pgto else None
    | None => None
    end in
  match tipo, status with
  | Some t, Some s =>
      if negb (Qle_bool valor 0) && truthy tipo && truthy status then
        match
          execute_query_texto sql_insert_despesa
            (fun tab => tab ++ [Despesas.mk t descricao valor data_vencimento s data_pagamento])
            (fun _ : list Despesas.row => tt) false falha st
        with
        | (RTrue, st') => (fst st', false)      (* get_db_connection_cached.clear() *)
        | (RRows _, st') => (fst st', false)
        | (RNone, st') => st'                   (* "Falha ao registrar despesa." *)
        end
      else st
  | _, _ => st
  end.

(** What the form guarantees of a stored expense: a positive value, a type
    and a status, and a payment date exactly when the status is 'Pago'. *)
Definition despesa_valida (r : Despesas.row) : Prop :=
  (0 < Despesas.valor r)%Q /\ Despesas.tipo_despesa r <> EmptyString /\
  Despesas.status r <> EmptyString /\
  (Despesas.data_pagamento r <> None <-> Despesas.status r = "Pago"%string).

(** A session on the shop with a completed order: a receipt of 10
    "Pastilha", a cart line of 4, the order, and a return of 2 units of the
    completed order to stock. *)
Definition ex_compra : App :=
  registrar_compra (Some 1) (Some "Pastilha"%string) 10 5 Loja.hoje Loja.hoje
    "NF-1"%string no_faults (Loja.sessao Loja.vendido5).

Definition ex_carrinho : App :=
  Loja.adicionado
    (adicionar_item (Some "Pastilha"%string) (Some 4) (Some 0%Q) ex_compra) ex_compra.

Definition ex_pedido : App :=
  registrar_pedido (Some "Ana"%string) (Some "Pix"%string) Loja.hoje 8 no_faults ex_carrinho.

Definition ex_devolucao : App :=
  confirmar_devolucao
    (mkForm 7 (ItemPedido.mk 1 "Pastilha" 5 100) 2 NovoPerfeitoEstado true
       "defeito" Loja.hoje) no_faults ex_pedido.

(* ------------------------------------------------------------------ *)
(** ** Measuring float computations                                    *)
(* ------------------------------------------------------------------ *)

(** The factor of one rounding to nearest: [1 - 2^-53]. *)
Definition teta : Q := (1 - Float.pow2 (-53))%Q.

Fixpoint qpow (t : Q) (k : nat) : Q :=
  match k with
  | O => 1%Q
  | S k' => (t * qpow t k')%Q
  end.

(** [y] is [x] up to [k] roundings: each may shrink or stretch the value by
    the factor [teta]. *)
Definition near (k : nat) (x y : Q) : Prop :=
  (x * qpow teta k <= y /\ y * qpow teta k <= x)%Q.

(** A float computation that is finite and within [k] roundings of the
    exact value [x]. *)
Definition aprox (k : nat) (x : Q) (r : option Q) : Prop :=
  exists y, r = Some y /\ near k x y.

(** Limits between which a positive value is a normal float and stays
    finite through an operation. *)
Definition normal_min : Q := Float.pow2 (-1021).
Definition finite_max : Q := Float.pow2 1022.

(** An amount of the range of the application: zero, or between a
    millionth and a billion. *)
Definition valor_comum (x : Q) : Prop :=
  ((x == 0 \/ 1 # 1000000 <= x) /\ x <= 1000000000)%Q.

(* ================================================================== *)
(** * Properties                                                       *)
(* ================================================================== *)

(* ------------------------------------------------------------------ *)
(** ** Strings: what [upper] and [strip] guarantee                     *)
(* ------------------------------------------------------------------ *)

Section StringFacts.
Import PyStr.
Local Open Scope string_scope.

Lemma upper_char_not_lower (c : ascii) : islower (upper_char c) = false.
Proof.
  destruct c as [[] [] [] [] [] [] [] []]; reflexivity.
Qed.

Lemma upper_has_no_lower (s : string) :
  all_chars (fun c => negb (islower c)) (upper s) = true.
Proof.
  induction s as [|c r IH]; simpl; [reflexivity|].
  rewrite upper_char_not_lower, IH. reflexivity.
Qed.

Lemma startswith_all_chars (f : ascii -> bool) (p s : string) :
  startswith s p = true -> all_chars f s = true -> all_chars f p = true.
Proof.
  revert s. induction p as [|a p IH]; intros s Hs Hall; [reflexivity|].
  destruct s as [|b s]; simpl in Hs; [discriminate|].
  apply andb_true_iff in Hs. destruct Hs as [Hab Hs].
  apply Ascii.eqb_eq in Hab. subst b.
  simpl in Hall. apply andb_true_iff in Hall. destruct Hall as [Hf Hall].
  simpl. rewrite Hf. simpl. eapply IH; eassumption.
Qed.

(** No upper-cased text starts with a prefix that has a lower-case letter. *)
Lemma upper_never_startswith (s p : string) :
  all_chars (fun c => negb (islower c)) p = false ->
  startswith (upper s) p = false.
Proof.
  intros Hp. destruct (startswith (upper s) p) eqn:E; [|reflexivity].
  rewrite (startswith_all_chars _ _ _ E (upper_has_no_lower s)) in Hp.
  discriminate.
Qed.

Lemma rev_onto_app (s t acc : string) :
  rev_onto (s ++ t) acc = rev_onto t (rev_onto s acc).
Proof.
  revert acc. induction s as [|c r IH]; intros acc; simpl; [reflexivity|apply IH].
Qed.

Lemma rev_onto_rev (s acc : string) : rev_onto (rev_onto s acc) EmptyString = rev_onto acc s.
Proof.
  revert acc. induction s as [|c r IH]; intros acc; simpl.
  - induction acc as [|a acc IHa]; [reflexivity|].
    change (String a acc) with (String a EmptyString ++ acc).
    rewrite !rev_onto_app. simpl. reflexivity.
  - rewrite IH. reflexivity.
Qed.

Lemma rev_involutive (s : string) : rev (rev s) = s.
Proof. unfold rev. rewrite rev_onto_rev. reflexivity. Qed.

(** [strip] leaves a text alone when it neither starts nor ends with
    white space. *)
Lemma strip_id (c z : ascii) (m : string) :
  isspace c = false -> isspace z = false ->
  strip (String c (m ++ String z EmptyString)) = String c (m ++ String z EmptyString).
Proof.
  intros Hc Hz. unfold strip. simpl lstrip. rewrite Hc.
  unfold rstrip.
  assert (E : rev (String c (m ++ String z EmptyString)) =
              String z (rev (String c m))).
  { unfold rev. change (String c (m ++ String z EmptyString))
      with ((String c m) ++ String z EmptyString).
    rewrite rev_onto_app. reflexivity. }
  rewrite E. simpl lstrip. rewrite Hz. rewrite <- E. apply rev_involutive.
Qed.

End StringFacts.

(* ------------------------------------------------------------------ *)
(** ** [execute_query]: which statements write, and what it clears     *)
(* ------------------------------------------------------------------ *)

Lemma str_app_assoc (a b c : string) : ((a ++ b) ++ c = a ++ (b ++ c))%string.
Proof. induction a as [|x a IH]; simpl; [reflexivity|now rewrite IH]. Qed.

Lemma update_status_head (s : StatusPedido) (ids : list Z) :
  PyStr.startswith (PyStr.upper (PyStr.strip (sql_text (UpdateStatus s ids)))) "UPDATE" = true.
Proof.
  set (m := ("PDATE Pedidos SET status_pedido='" ++ status_literal s ++
             "' WHERE pedido_id IN (" ++ placeholders (List.length ids))%string).
  assert (E : sql_text (UpdateStatus s ids) = String "U"%char (m ++ String ")"%char EmptyString)).
  { unfold sql_text, m.
    change ("UPDATE Pedidos SET status_pedido='" ++ status_literal s ++
            "' WHERE pedido_id IN (" ++ placeholders (List.length ids) ++ ")")%string
      with (String "U"%char
              ("PDATE Pedidos SET status_pedido='" ++ status_literal s ++
               "' WHERE pedido_id IN (" ++ placeholders (List.length ids) ++ ")"))%string.
    f_equal. rewrite !str_app_assoc. reflexivity. }
  rewrite E, strip_id by reflexivity.
  unfold m. reflexivity.
Qed.

Lemma head_is_write (q : Sql) :
  PyStr.startswith_any (PyStr.upper (PyStr.strip (sql_text q)))
    ["INSERT"; "UPDATE"; "DELETE"]%string = is_write q.
Proof.
  destruct q; try (vm_compute; reflexivity).
  unfold PyStr.startswith_any, existsb.
  rewrite update_status_head. simpl. apply orb_true_r.
Qed.

(** The database after [execute_query]: the statement's effect when it is a
    write that did not fail, the same database otherwise. *)
Lemma execute_query_db (q : Sql) (fetch falha : bool) (a : App) :
  db (snd (execute_query q fetch falha a)) =
  if negb falha && is_write q then sql_effect q (db a) else db a.
Proof.
  unfold execute_query. destruct falha; [reflexivity|].
  cbv zeta. rewrite head_is_write.
  destruct (is_write q).
  - destruct (PyStr.startswith _ _); reflexivity.
  - destruct fetch; reflexivity.
Qed.

(** The guard of the cache clearing compares an upper-cased text with a
    literal that has lower-case letters: it is false for every statement, so
    [execute_query] leaves the connection cache populated. *)
Lemma execute_query_keeps_cache (q : Sql) (fetch falha : bool) (a : App) :
  conn_cached (snd (execute_query q fetch falha a)) = true.
Proof.
  unfold execute_query. destruct falha; [reflexivity|].
  cbv zeta.
  rewrite (upper_never_startswith _ "INSERT INTO Produtos") by reflexivity.
  destruct (PyStr.startswith_any _ _); [reflexivity|].
  destruct fetch; reflexivity.
Qed.

(** A read returns rows computed from the database alone. *)
Lemma execute_query_read (q : Sql) (a : App) :
  is_write q = false ->
  execute_query q true false a = (QRows (sql_rows q (db a)), mkApp (db a) true (vendas a)).
Proof.
  intros Hq. unfold execute_query. cbv zeta. rewrite head_is_write, Hq. reflexivity.
Qed.

(** A read through [execute_query], failing or not. *)
Lemma execute_query_select (q : Sql) (falha : bool) (a : App) :
  is_write q = false ->
  execute_query q true falha a =
  (if falha then QNone else QRows (sql_rows q (db a)), mkApp (db a) true (vendas a)).
Proof.
  intros Hq. destruct falha; [reflexivity|]. now apply execute_query_read.
Qed.

(** Reading the details of an order leaves database and cart as they were,
    and what is read depends on the database only. *)
Lemma get_order_details_state (pid : Z) (fh fi : bool) (a : App) :
  snd (get_order_details_for_coupon pid fh fi a) = mkApp (db a) true (vendas a).
Proof.
  unfold get_order_details_for_coupon.
  rewrite (execute_query_select (SelectHeader pid)) by reflexivity.
  destruct fh; [reflexivity|].
  destruct (sql_rows (SelectHeader pid) (db a)) as [rs|rs|[|h rs]|rs]; try reflexivity.
  rewrite (execute_query_select (SelectItems pid)) by reflexivity.
  destruct fi; [reflexivity|].
  simpl db. destruct (sql_rows (SelectItems pid) (db a)); reflexivity.
Qed.

Lemma get_order_details_value (pid : Z) (fh fi : bool) (a a' : App) :
  db a = db a' ->
  fst (get_order_details_for_coupon pid fh fi a) =
  fst (get_order_details_for_coupon pid fh fi a').
Proof.
  intros E. unfold get_order_details_for_coupon.
  rewrite !(execute_query_select (SelectHeader pid)) by reflexivity.
  rewrite <- E.
  destruct fh; [reflexivity|].
  destruct (sql_rows (SelectHeader pid) (db a)) as [rs|rs|[|h rs]|rs]; try reflexivity.
  rewrite !(execute_query_select (SelectItems pid)) by reflexivity.
  destruct fi; [reflexivity|].
  simpl db. destruct (sql_rows (SelectItems pid) (db a)); reflexivity.
Qed.

Lemma cupom_state (pid : Z) (fh fi : bool) (a : App) :
  snd (cupom pid fh fi a) = mkApp (db a) true (vendas a).
Proof.
  unfold cupom. rewrite <- get_order_details_state with (pid := pid) (fh := fh) (fi := fi).
  destruct (get_order_details_for_coupon pid fh fi a) as [[d|] a']; reflexivity.
Qed.

Lemma cupom_value (pid : Z) (fh fi : bool) (a a' : App) :
  db a = db a' -> fst (cupom pid fh fi a) = fst (cupom pid fh fi a').
Proof.
  intros E. unfold cupom.
  pose proof (get_order_details_value pid fh fi a a' E) as H.
  destruct (get_order_details_for_coupon pid fh fi a) as [[d|] a1];
    destruct (get_order_details_for_coupon pid fh fi a') as [[d'|] a1'];
    simpl in H; try discriminate; [|reflexivity].
  injection H as ->. reflexivity.
Qed.

(* ------------------------------------------------------------------ *)
(** ** C9: the coupon is a read                                        *)
(* ------------------------------------------------------------------ *)

(** C9.  Generating the coupon of an order twice in a row gives the same
    document both times, and neither call changes the database or the cart:
    the generator only reads the order's header and lines and formats them.
    This holds for every order id (a completed order included) and whether or
    not a read fails, as long as it fails the same way both times. *)
Theorem C9_cupom_idempotente (pid : Z) (falha_h falha_i : bool) (a : App) :
  let r1 := cupom pid falha_h falha_i a in
  let r2 := cupom pid falha_h falha_i (snd r1) in
  fst r1 = fst r2 /\
  db (snd r1) = db a /\ vendas (snd r1) = vendas a /\
  db (snd r2) = db a /\ vendas (snd r2) = vendas a.
Proof.
  cbv zeta. rewrite !cupom_state. simpl.
  split; [apply cupom_value; reflexivity | repeat split].
Qed.

(** The coupon of the completed order of the sample shop is produced, and
    produced again unchanged. *)
Example cupom_vendido5 :
  exists doc,
    fst (cupom 7 false false (Loja.sessao Loja.vendido5)) = Some doc /\
    fst (cupom 7 false false (snd (cupom 7 false false (Loja.sessao Loja.vendido5)))) = Some doc /\
    PyStr.startswith (PyStr.strip doc) "<div" = true.
Proof.
  eexists. split; [vm_compute; reflexivity|]. split; vm_compute; reflexivity.
Qed.

(* ------------------------------------------------------------------ *)
(** ** Stock reads after the stock statements                          *)
(* ------------------------------------------------------------------ *)

Lemma estoque_de_ajuste (h : Z -> Z) (k j : Z) (d : DB) :
  estoque_de k
    (set_Produtos (update_where (fun p => Produtos.produto_id p =? j)
                     (fun p => with_estoque (option_map h (Produtos.estoque_atual p)) p)) d) =
  if k =? j then option_map h (estoque_de k d) else estoque_de k d.
Proof.
  unfold estoque_de, set_Produtos, update_where. simpl tProdutos.
  induction (tProdutos d) as [|p rows IH]; simpl.
  - destruct (k =? j); reflexivity.
  - destruct (Produtos.produto_id p =? j) eqn:Ej; simpl.
    + destruct (Produtos.produto_id p =? k) eqn:Ek; simpl.
      * apply Z.eqb_eq in Ej, Ek. subst. rewrite Z.eqb_refl. reflexivity.
      * apply IH.
    + destruct (Produtos.produto_id p =? k) eqn:Ek; simpl.
      * apply Z.eqb_eq in Ek. subst k. rewrite Ej. reflexivity.
      * apply IH.
Qed.

(** The sale statement subtracts, whatever the stock is. *)
Lemma estoque_de_baixa (qtd k j : Z) (d : DB) :
  estoque_de k (sql_baixa_estoque qtd j d) =
  if k =? j then sql_sub (estoque_de k d) qtd else estoque_de k d.
Proof. apply (estoque_de_ajuste (fun x => x - qtd)). Qed.

Lemma estoque_de_retorno (qtd k j : Z) (d : DB) :
  estoque_de k (sql_retorno_estoque qtd j d) =
  if k =? j then sql_add (estoque_de k d) qtd else estoque_de k d.
Proof. apply (estoque_de_ajuste (fun x => x + qtd)). Qed.

(* ------------------------------------------------------------------ *)
(** ** Transactions: all or nothing                                    *)
(* ------------------------------------------------------------------ *)

(** Whatever the body and wherever it fails, a transaction that raises
    leaves the database as it was. *)
Lemma run_transaction_rollback {A} (body : Tx A) (fl : Faults) (d : DB) :
  snd (run_transaction body fl d) = None -> fst (run_transaction body fl d) = d.
Proof.
  unfold run_transaction. destruct (body fl (mkCursor d 0)) as [[x c]|]; simpl;
    [discriminate|reflexivity].
Qed.

(* ------------------------------------------------------------------ *)
(** ** C8: the return and its stock increment                          *)
(* ------------------------------------------------------------------ *)

Lemma confirmar_devolucao_commit (f : FormDevolucao) (fl : Faults) (a : App) :
  (forall n, (n < chamadas_devolucao f)%nat -> fl n = false) ->
  devolucao_confirmada f (db a) (db (confirmar_devolucao f fl a)) /\
  conn_cached (confirmar_devolucao f fl a) = false.
Proof.
  intros Hfl. unfold chamadas_devolucao in Hfl.
  unfold confirmar_devolucao, run_transaction, confirmar_devolucao_tx,
    tx_bind, cursor_execute, conn_commit, tx_ret, devolucao_confirmada.
  simpl cur_calls. rewrite (Hfl 0%nat) by (destruct (f_retornar_estoque f); lia).
  destruct (f_retornar_estoque f) eqn:Er; simpl cur_calls.
  - rewrite (Hfl 1%nat) by lia. simpl cur_calls. rewrite (Hfl 2%nat) by lia.
    simpl. unfold linha_devolucao. rewrite Er.
    split; [|reflexivity]. split; [reflexivity|]. split; [|repeat split].
    intros k. rewrite estoque_de_retorno. reflexivity.
  - rewrite (Hfl 1%nat) by lia. simpl. unfold linha_devolucao. rewrite Er.
    repeat split.
Qed.

Lemma confirmar_devolucao_rollback (f : FormDevolucao) (fl : Faults) (a : App) :
  (exists n, (n < chamadas_devolucao f)%nat /\ fl n = true) ->
  db (confirmar_devolucao f fl a) = db a /\
  conn_cached (confirmar_devolucao f fl a) = conn_cached a.
Proof.
  intros [n [Hn Hf]]. unfold chamadas_devolucao in Hn.
  unfold confirmar_devolucao, run_transaction, confirmar_devolucao_tx,
    tx_bind, cursor_execute, conn_commit, tx_ret.
  simpl cur_calls.
  destruct (fl 0%nat) eqn:F0; [split; reflexivity|].
  destruct (f_retornar_estoque f) eqn:Er; simpl cur_calls.
  - destruct (fl 1%nat) eqn:F1; [split; reflexivity|]. simpl cur_calls.
    destruct (fl 2%nat) eqn:F2; [split; reflexivity|].
    assert (n = 0 \/ n = 1 \/ n = 2)%nat as [->|[->| ->]] by lia; congruence.
  - destruct (fl 1%nat) eqn:F1; [split; reflexivity|].
    assert (n = 0 \/ n = 1)%nat as [->| ->] by lia; congruence.
Qed.

(** Every call of the transaction succeeds, or one of them fails. *)
Lemma chamadas_devolucao_casos (f : FormDevolucao) (fl : Faults) :
  (forall n, (n < chamadas_devolucao f)%nat -> fl n = false) \/
  (exists n, (n < chamadas_devolucao f)%nat /\ fl n = true).
Proof.
  unfold chamadas_devolucao.
  destruct (fl 0%nat) eqn:F0; [right; exists 0%nat; split;
    [destruct (f_retornar_estoque f); lia|assumption]|].
  destruct (fl 1%nat) eqn:F1; [right; exists 1%nat; split;
    [destruct (f_retornar_estoque f); lia|assumption]|].
  destruct (f_retornar_estoque f).
  - destruct (fl 2%nat) eqn:F2; [right; exists 2%nat; split; [lia|assumption]|].
    left. intros n Hn. assert (n = 0 \/ n = 1 \/ n = 2)%nat as [->|[->| ->]] by lia;
      assumption.
  - left. intros n Hn. assert (n = 0 \/ n = 1)%nat as [->| ->] by lia; assumption.
Qed.

(** A return is committed whole or not at all. *)
Lemma confirmar_devolucao_casos (f : FormDevolucao) (fl : Faults) (a : App) :
  (forall n, (n < chamadas_devolucao f)%nat -> fl n = false) /\
  devolucao_confirmada f (db a) (db (confirmar_devolucao f fl a))
  \/
  (exists n, (n < chamadas_devolucao f)%nat /\ fl n = true) /\
  db (confirmar_devolucao f fl a) = db a.
Proof.
  destruct (chamadas_devolucao_casos f fl) as [Hok|Hbad].
  - left. split; [assumption|]. now apply confirmar_devolucao_commit.
  - right. split; [assumption|]. now apply confirmar_devolucao_rollback.
Qed.



(* ------------------------------------------------------------------ *)
(** ** C10 and C3: how much one return, and several, may give back     *)
(* ------------------------------------------------------------------ *)

(** Every row of [df_itens_pedido] comes from a line of that order. *)
Lemma itens_do_pedido_venda (pid : Z) (d : DB) (i : ItemPedido.t) :
  In i (itens_do_pedido pid d) ->
  exists v, In v (tVendas d) /\ Vendas.pedido_id v = pid /\
            Vendas.produto_id v = ItemPedido.produto_id i /\
            Vendas.quantidade v = ItemPedido.quantidade i.
Proof.
  unfold itens_do_pedido. intros H.
  apply in_flat_map in H. destruct H as [v [Hv Hi]].
  apply filter_In in Hv. destruct Hv as [Hv Hp]. apply Z.eqb_eq in Hp.
  apply in_map_iff in Hi. destruct Hi as [p [<- _]].
  exists v. simpl. repeat split; assumption.
Qed.

(** The form never looks at the returns already recorded. *)
Lemma form_devolucao_ignora_devolucoes (pid : Z) (nome : string) (qtd : Z)
    (estado : EstadoOpcao) (marcado : option bool) (motivo : string) (data : DataValor)
    (d : DB) (devs : list Devolucoes.row) :
  form_devolucao pid nome qtd estado marcado motivo data (set_Devolucoes (fun _ => devs) d) =
  form_devolucao pid nome qtd estado marcado motivo data d.
Proof. reflexivity. Qed.

(** C10.  Every return the form accepts has a quantity between 1 and the
    quantity sold on the selected line of that order: the bound is the
    line's own quantity, whatever returns were recorded before for the same
    order and product. *)
Theorem C10_quantidade_de_uma_devolucao (pid : Z) (nome : string) (qtd : Z)
    (estado : EstadoOpcao) (marcado : option bool) (motivo : string) (data : DataValor)
    (d : DB) (f : FormDevolucao) :
  form_devolucao pid nome qtd estado marcado motivo data d = Some f ->
  f_qtd_devolver f = qtd /\
  1 <= qtd <= ItemPedido.quantidade (f_item_selecionado f) /\
  (exists v, In v (tVendas d) /\ Vendas.pedido_id v = pid /\
             Vendas.produto_id v = ItemPedido.produto_id (f_item_selecionado f) /\
             Vendas.quantidade v = ItemPedido.quantidade (f_item_selecionado f)) /\
  Devolucoes.quantidade (linha_devolucao f) = qtd /\
  (forall devs,
      form_devolucao pid nome qtd estado marcado motivo data
        (set_Devolucoes (fun _ => devs) d) = Some f).
Proof.
  intros H. pose proof H as H0. unfold form_devolucao in H.
  destruct (existsb _ _); [|discriminate].
  destruct (item_selecionado nome (itens_do_pedido pid d)) as [item|] eqn:Ei; [|discriminate].
  unfold number_input in H.
  destruct ((1 <=? qtd) && (qtd <=? ItemPedido.quantidade item)) eqn:Eq; [|discriminate].
  injection H as <-. simpl.
  apply andb_true_iff in Eq. destruct Eq as [H1 H2].
  apply Z.leb_le in H1, H2.
  repeat split; try assumption.
  - apply itens_do_pedido_venda. unfold item_selecionado in Ei.
    apply find_some in Ei. apply Ei.
  - intros devs. rewrite form_devolucao_ignora_devolucoes. exact H0.
Qed.

(** The form of the sample shop accepts a return of 3 of the 5 sold. *)
Lemma C10_witness :
  exists f,
    form_devolucao 7 "Pastilha" 3 NovoPerfeitoEstado None "defeito" Loja.hoje Loja.vendido5
      = Some f /\
    f_qtd_devolver f = 3 /\
    1 <= 3 <= ItemPedido.quantidade (f_item_selecionado f).
Proof.
  eexists. split; [reflexivity|].
  pose proof (C10_quantidade_de_uma_devolucao 7 "Pastilha" 3 NovoPerfeitoEstado None
                "defeito" Loja.hoje Loja.vendido5 _ eq_refl) as H.
  split; [apply H|apply H].
Defined.

(** Both are accepted: 6 units are recorded as returned against 5 sold, and
    6 units go back to stock. *)
Example duas_devolucoes :
  primeira_devolucao = Some apos_primeira /\
  segunda_devolucao = Some apos_segunda /\
  vendido 7 1 (db apos_segunda) = 5 /\
  ja_devolvido 7 1 (db apos_primeira) = 3 /\
  ja_devolvido 7 1 (db apos_segunda) = 6 /\
  estoque_de 1 Loja.vendido5 = Some 0 /\
  estoque_de 1 (db apos_segunda) = Some 6.
Proof. repeat split. Qed.

(** The specification's wording does not hold of the code: a return is accepted
    although its quantity plus the quantity already returned for the same
    order and product exceeds the quantity sold. *)
Lemma C3_counterexample :
  ~ (forall (pid : Z) (nome : string) (qtd : Z) (estado : EstadoOpcao)
            (marcado : option bool) (motivo : string) (data : DataValor)
            (a : App) (f : FormDevolucao),
        form_devolucao pid nome qtd estado marcado motivo data (db a) = Some f ->
        qtd + ja_devolvido pid (ItemPedido.produto_id (f_item_selecionado f)) (db a)
        <= vendido pid (ItemPedido.produto_id (f_item_selecionado f)) (db a)).
Proof.
  intros H.
  specialize (H 7 "Pastilha"%string 3 NovoPerfeitoEstado None "defeito"%string Loja.hoje
                apos_primeira _ eq_refl).
  vm_compute in H. apply H. reflexivity.
Qed.

Lemma ja_devolvido_insert (pid prod : Z) (r : Devolucoes.row) (d : DB) :
  ja_devolvido pid prod (sql_insert_devolucao r d) =
  ja_devolvido pid prod d +
  (if (Devolucoes.pedido_id r =? pid) && (Devolucoes.produto_id r =? prod)
   then Devolucoes.quantidade r else 0).
Proof.
  unfold ja_devolvido, sql_insert_devolucao, set_Devolucoes. simpl tDevolucoes.
  induction (tDevolucoes d) as [|x rows IH]; simpl.
  - destruct ((Devolucoes.pedido_id r =? pid) && (Devolucoes.produto_id r =? prod));
      simpl; lia.
  - destruct ((Devolucoes.pedido_id x =? pid) && (Devolucoes.produto_id x =? prod));
      simpl; rewrite IH; lia.
Qed.

(** C3, as the code has it.  A return on a line of a completed order is
    accepted exactly when its quantity is between 1 and the quantity sold on
    the selected line; the returns already recorded are not consulted.  When
    the transaction of an accepted return commits, the quantity recorded as
    returned for that order and product grows by the quantity of the return;
    when it fails, by nothing. *)
Theorem C3_devolucao_aceita_por_linha (pid : Z) (nome : string) (qtd : Z)
    (estado : EstadoOpcao) (marcado : option bool) (motivo : string) (data : DataValor)
    (d : DB) :
  ((exists f, form_devolucao pid nome qtd estado marcado motivo data d = Some f) <->
   (In pid (pedidos_concluidos d) /\
    exists item, item_selecionado nome (itens_do_pedido pid d) = Some item /\
                 1 <= qtd <= ItemPedido.quantidade item)) /\
  (forall (f : FormDevolucao) (fl : Faults) (a : App),
      db a = d ->
      form_devolucao pid nome qtd estado marcado motivo data d = Some f ->
      let prod := ItemPedido.produto_id (f_item_selecionado f) in
      ((forall n, (n < chamadas_devolucao f)%nat -> fl n = false) ->
       ja_devolvido pid prod (db (confirmar_devolucao f fl a)) = ja_devolvido pid prod d + qtd) /\
      ((exists n, (n < chamadas_devolucao f)%nat /\ fl n = true) ->
       ja_devolvido pid prod (db (confirmar_devolucao f fl a)) = ja_devolvido pid prod d)) /\
  (forall devs : list Devolucoes.row,
      form_devolucao pid nome qtd estado marcado motivo data (set_Devolucoes (fun _ => devs) d)
      = form_devolucao pid nome qtd estado marcado motivo data d).
Proof.
  split; [|split; [|intros devs; apply form_devolucao_ignora_devolucoes]].
  - unfold form_devolucao. split.
    + intros [f H].
      destruct (existsb (Z.eqb pid) (pedidos_concluidos d)) eqn:Ex; [|discriminate].
      apply existsb_exists in Ex. destruct Ex as [x [Hx Ex]]. apply Z.eqb_eq in Ex. subst x.
      split; [exact Hx|].
      destruct (item_selecionado nome (itens_do_pedido pid d)) as [item|]; [|discriminate].
      exists item. split; [reflexivity|].
      unfold number_input in H.
      destruct ((1 <=? qtd) && (qtd <=? ItemPedido.quantidade item)) eqn:Eq; [|discriminate].
      apply andb_true_iff in Eq. destruct Eq as [H1 H2].
      apply Z.leb_le in H1, H2. lia.
    + intros [Hin [item [Hi [H1 H2]]]].
      assert (Ex : existsb (Z.eqb pid) (pedidos_concluidos d) = true).
      { apply existsb_exists. exists pid. split; [exact Hin|apply Z.eqb_refl]. }
      rewrite Ex, Hi. unfold number_input.
      apply Z.leb_le in H1, H2. rewrite H1, H2. simpl. eexists. reflexivity.
  - intros f fl a Hd Hf prod. subst d.
    assert (Hform : f_pedido_id_sel f = pid /\ f_qtd_devolver f = qtd).
    { unfold form_devolucao in Hf.
      destruct (existsb _ _); [|discriminate].
      destruct (item_selecionado _ _); [|discriminate].
      unfold number_input in Hf. destruct (_ && _); [|discriminate].
      injection Hf as <-. split; reflexivity. }
    destruct Hform as [Hp Hq].
    split.
    + intros Hok. destruct (confirmar_devolucao_commit f fl a Hok) as [[Ht _] _].
      unfold ja_devolvido at 1. rewrite Ht.
      change (fold_right Z.add 0
                (map Devolucoes.quantidade
                   (filter (fun r => (Devolucoes.pedido_id r =? pid) &&
                                     (Devolucoes.produto_id r =? prod))
                      (tDevolucoes (db a) ++ [linha_devolucao f]))))
        with (ja_devolvido pid prod (sql_insert_devolucao (linha_devolucao f) (db a))).
      rewrite ja_devolvido_insert. unfold linha_devolucao. simpl.
      rewrite Hp, Hq. unfold prod. rewrite !Z.eqb_refl. reflexivity.
    + intros Hbad. destruct (confirmar_devolucao_rollback f fl a Hbad) as [-> _].
      reflexivity.
Qed.

(** On the sample shop: 3 of the 5 sold are accepted, and again after the
    first return was committed. *)
Lemma C3_witness :
  (exists f, form_devolucao 7 "Pastilha" 3 NovoPerfeitoEstado None "defeito" Loja.hoje
               (db apos_primeira) = Some f) /\
  ja_devolvido 7 1 (db apos_primeira) = 3.
Proof.
  split.
  - apply (proj1 (C3_devolucao_aceita_por_linha 7 "Pastilha" 3 NovoPerfeitoEstado None
                    "defeito" Loja.hoje (db apos_primeira))).
    split.
    + left. reflexivity.
    + eexists. split; [reflexivity|]. simpl. lia.
  - reflexivity.
Defined.

(* ------------------------------------------------------------------ *)
(** ** The order transaction, statement by statement                   *)
(* ------------------------------------------------------------------ *)

(** Inversion of the steps of a transaction. *)
Lemma tx_bind_some {A B} (m : Tx A) (k : A -> Tx B) (fl : Faults) (c : Cursor)
    (r : B * Cursor) :
  tx_bind m k fl c = Some r ->
  exists x c1, m fl c = Some (x, c1) /\ k x fl c1 = Some r.
Proof.
  unfold tx_bind. destruct (m fl c) as [[x c1]|]; [|discriminate].
  intros H. exists x, c1. split; [reflexivity|exact H].
Qed.

Lemma cursor_execute_some (stmt : DB -> DB) (fl : Faults) (c : Cursor) (r : unit * Cursor) :
  cursor_execute stmt fl c = Some r ->
  fl (cur_calls c) = false /\ snd r = mkCursor (stmt (cur_db c)) (S (cur_calls c)).
Proof.
  unfold cursor_execute. destruct (fl (cur_calls c)); [discriminate|].
  intros H. inversion H. split; reflexivity.
Qed.

Lemma cursor_execute_ok (stmt : DB -> DB) (fl : Faults) (c : Cursor) :
  fl (cur_calls c) = false ->
  cursor_execute stmt fl c = Some (tt, mkCursor (stmt (cur_db c)) (S (cur_calls c))).
Proof. unfold cursor_execute. now intros ->. Qed.

Lemma conn_commit_some (fl : Faults) (c : Cursor) (r : unit * Cursor) :
  conn_commit fl c = Some r ->
  fl (cur_calls c) = false /\ cur_db (snd r) = cur_db c.
Proof.
  unfold conn_commit. destruct (fl (cur_calls c)); [discriminate|].
  intros H. inversion H. split; reflexivity.
Qed.

Lemma registrar_item_some (pedido_id : Z) (item : Item.t) (fl : Faults) (c : Cursor)
    (r : unit * Cursor) :
  registrar_item pedido_id item fl c = Some r ->
  cur_db (snd r) = efeito_item pedido_id (cur_db c) item /\
  cur_calls (snd r) = S (S (cur_calls c)).
Proof.
  unfold registrar_item. intros H.
  apply tx_bind_some in H. destruct H as [[] [c1 [H1 H2]]].
  apply cursor_execute_some in H1. destruct H1 as [_ H1]. simpl in H1. subst c1.
  apply cursor_execute_some in H2. destruct H2 as [_ H2]. rewrite H2.
  split; reflexivity.
Qed.

Lemma registrar_item_ok (pedido_id : Z) (item : Item.t) (fl : Faults) (c : Cursor) :
  fl (cur_calls c) = false -> fl (S (cur_calls c)) = false ->
  registrar_item pedido_id item fl c =
  Some (tt, mkCursor (efeito_item pedido_id (cur_db c) item) (S (S (cur_calls c)))).
Proof.
  intros H0 H1. unfold registrar_item, tx_bind.
  rewrite (cursor_execute_ok _ _ _ H0). rewrite cursor_execute_ok by exact H1.
  reflexivity.
Qed.

(** When the loop over the cart does not raise, it has run both statements
    of every item, in order. *)
Lemma tx_for_itens (pedido_id : Z) (itens : list Item.t) (fl : Faults) (c : Cursor)
    (r : unit * Cursor) :
  tx_for itens (registrar_item pedido_id) fl c = Some r ->
  cur_db (snd r) = fold_left (efeito_item pedido_id) itens (cur_db c) /\
  cur_calls (snd r) = (cur_calls c + 2 * List.length itens)%nat.
Proof.
  revert c. induction itens as [|i rest IH]; intros c H.
  - inversion H. simpl. split; [reflexivity|lia].
  - change (tx_for (i :: rest) (registrar_item pedido_id))
      with (tx_bind (registrar_item pedido_id i)
              (fun _ => tx_for rest (registrar_item pedido_id))) in H.
    apply tx_bind_some in H. destruct H as [[] [c1 [H1 H2]]].
    apply registrar_item_some in H1. simpl in H1. destruct H1 as [Hd Hn].
    apply IH in H2. destruct H2 as [Hd2 Hn2].
    rewrite Hd2, Hn2, Hd, Hn. simpl. split; [reflexivity|lia].
Qed.

(** Without a failing call, the loop does not raise. *)
Lemma tx_for_itens_ok (pedido_id : Z) (itens : list Item.t) (fl : Faults) (c : Cursor) :
  (forall n, (cur_calls c <= n < cur_calls c + 2 * List.length itens)%nat -> fl n = false) ->
  exists c', tx_for itens (registrar_item pedido_id) fl c = Some (tt, c').
Proof.
  revert c. induction itens as [|i rest IH]; intros c H.
  - eexists. reflexivity.
  - change (tx_for (i :: rest) (registrar_item pedido_id))
      with (tx_bind (registrar_item pedido_id i)
              (fun _ => tx_for rest (registrar_item pedido_id))).
    unfold tx_bind. rewrite registrar_item_ok by (apply H; simpl; lia).
    apply IH. simpl. intros n Hn. apply H. simpl. lia.
Qed.

Lemma fold_efeito_vendas (pedido_id : Z) (itens : list Item.t) (d : DB) :
  tVendas (fold_left (efeito_item pedido_id) itens d) =
  tVendas d ++ map (linha_venda pedido_id) itens.
Proof.
  revert d. induction itens as [|i r IH]; intros d; simpl.
  - now rewrite app_nil_r.
  - rewrite IH. simpl. now rewrite <- app_assoc.
Qed.

Lemma fold_efeito_pedidos (pedido_id : Z) (itens : list Item.t) (d : DB) :
  tPedidos (fold_left (efeito_item pedido_id) itens d) = tPedidos d.
Proof.
  revert d. induction itens as [|i r IH]; intros d; simpl; [reflexivity|].
  rewrite IH. reflexivity.
Qed.

(** The stock after the loop: the stock before, less every unit of the
    product in the cart.  No comparison with the stock takes place. *)
Lemma fold_efeito_estoque (pedido_id k : Z) (itens : list Item.t) (d : DB) :
  estoque_de k (fold_left (efeito_item pedido_id) itens d) =
  sql_sub (estoque_de k d) (qtd_no_carrinho k itens).
Proof.
  revert d. induction itens as [|i r IH]; intros d; simpl.
  - unfold qtd_no_carrinho. simpl. destruct (estoque_de k d); simpl; [f_equal; lia|reflexivity].
  - rewrite IH. unfold efeito_item. rewrite estoque_de_baixa.
    unfold qtd_no_carrinho. simpl filter.
    change (estoque_de k (sql_insert_venda (linha_venda pedido_id i) d)) with (estoque_de k d).
    rewrite (Z.eqb_sym k). destruct (Item.produto_id i =? k); simpl.
    + destruct (estoque_de k d); simpl; [f_equal; lia|reflexivity].
    + reflexivity.
Qed.

(** The committed database of an order, and that a commit happens when no
    call fails. *)
Lemma registrar_pedido_tx_commit (cs fp : option string) (data : DataValor) (novo_id : Z)
    (fl : Faults) (a : App) (d' : DB) (pid : Z) :
  run_transaction (registrar_pedido_tx cs fp data novo_id a) fl (db a) = (d', Some pid) ->
  pid = novo_id /\
  exists cliente_id,
    escolha cs (opcoes_clientes (db a)) = Some cliente_id /\
    d' = fold_left (efeito_item novo_id) (vendas a)
           (sql_insert_pedido
              (Pedidos.mk novo_id cliente_id data (valor_total (vendas a)) Pendente fp)
              (db a)).
Proof.
  unfold run_transaction.
  destruct (registrar_pedido_tx cs fp data novo_id a fl (mkCursor (db a) 0))
    as [[x c]|] eqn:E; [|discriminate].
  intros H. injection H as <- <-.
  unfold registrar_pedido_tx in E.
  apply tx_bind_some in E. destruct E as [cid [c0 [E0 E]]].
  unfold tx_get in E0.
  destruct (escolha cs (opcoes_clientes (db a))) as [cid'|]; [|discriminate].
  inversion E0; subst cid' c0. clear E0.
  apply tx_bind_some in E. destruct E as [[] [c1 [E1 E]]].
  apply cursor_execute_some in E1. destruct E1 as [_ E1]. simpl in E1. subst c1.
  apply tx_bind_some in E. destruct E as [[] [c2 [E2 E]]].
  apply tx_for_itens in E2. simpl in E2. destruct E2 as [E2 _].
  apply tx_bind_some in E. destruct E as [[] [c3 [E3 E]]].
  apply conn_commit_some in E3. simpl in E3. destruct E3 as [_ E3].
  inversion E; subst. split; [reflexivity|].
  exists cid. split; [reflexivity|]. rewrite E3. exact E2.
Qed.

Lemma registrar_pedido_tx_ok (cs fp : option string) (data : DataValor) (novo_id : Z)
    (fl : Faults) (a : App) (cliente_id : Z) :
  (forall n, (n < chamadas_pedido a)%nat -> fl n = false) ->
  escolha cs (opcoes_clientes (db a)) = Some cliente_id ->
  snd (run_transaction (registrar_pedido_tx cs fp data novo_id a) fl (db a))
  = Some novo_id.
Proof.
  unfold chamadas_pedido. intros Hfl Hc.
  unfold run_transaction, registrar_pedido_tx, tx_bind, tx_get.
  rewrite Hc. unfold tx_ret at 1.
  rewrite cursor_execute_ok by (apply Hfl; simpl; lia).
  destruct (tx_for_itens_ok novo_id (vendas a) fl
              (mkCursor (sql_insert_pedido
                           (Pedidos.mk novo_id cliente_id data (valor_total (vendas a))
                              Pendente fp) (cur_db (mkCursor (db a) 0)))
                 (S (cur_calls (mkCursor (db a) 0))))) as [c' Hc'].
  { intros n Hn. apply Hfl. simpl in Hn. lia. }
  rewrite Hc'.
  apply tx_for_itens in Hc'. simpl in Hc'. destruct Hc' as [_ Hn].
  unfold conn_commit. rewrite Hfl by (rewrite Hn; lia). reflexivity.
Qed.

Lemma registrar_item_sem_falha (pedido_id : Z) (item : Item.t) (fl : Faults) (c : Cursor)
    (r : unit * Cursor) :
  registrar_item pedido_id item fl c = Some r ->
  fl (cur_calls c) = false /\ fl (S (cur_calls c)) = false.
Proof.
  unfold registrar_item. intros H.
  apply tx_bind_some in H. destruct H as [[] [c1 [H1 H2]]].
  apply cursor_execute_some in H1. destruct H1 as [F1 H1]. simpl in H1. subst c1.
  apply cursor_execute_some in H2. destruct H2 as [F2 _]. simpl in F2.
  split; assumption.
Qed.

Lemma tx_for_itens_sem_falha (pedido_id : Z) (itens : list Item.t) (fl : Faults) (c : Cursor)
    (r : unit * Cursor) :
  tx_for itens (registrar_item pedido_id) fl c = Some r ->
  forall n, (cur_calls c <= n < cur_calls c + 2 * List.length itens)%nat -> fl n = false.
Proof.
  revert c. induction itens as [|i rest IH]; intros c H n Hn.
  - simpl in Hn. lia.
  - change (tx_for (i :: rest) (registrar_item pedido_id))
      with (tx_bind (registrar_item pedido_id i)
              (fun _ => tx_for rest (registrar_item pedido_id))) in H.
    apply tx_bind_some in H. destruct H as [[] [c1 [H1 H2]]].
    pose proof (registrar_item_sem_falha _ _ _ _ _ H1) as [F0 F1].
    apply registrar_item_some in H1. simpl in H1. destruct H1 as [_ Hc1].
    simpl in Hn.
    destruct (Nat.eq_dec n (cur_calls c)) as [->|N0]; [exact F0|].
    destruct (Nat.eq_dec n (S (cur_calls c))) as [->|N1]; [exact F1|].
    apply (IH c1 H2). rewrite Hc1. lia.
Qed.

(** A committed order met no failing call. *)
Lemma registrar_pedido_tx_sem_falha (cs fp : option string) (data : DataValor) (novo_id : Z)
    (fl : Faults) (a : App) (d' : DB) (pid : Z) :
  run_transaction (registrar_pedido_tx cs fp data novo_id a) fl (db a) = (d', Some pid) ->
  forall n, (n < chamadas_pedido a)%nat -> fl n = false.
Proof.
  unfold run_transaction, chamadas_pedido.
  destruct (registrar_pedido_tx cs fp data novo_id a fl (mkCursor (db a) 0))
    as [[x c]|] eqn:E; [|discriminate].
  intros _ n Hn.
  unfold registrar_pedido_tx in E.
  apply tx_bind_some in E. destruct E as [cid [c0 [E0 E]]].
  unfold tx_get in E0.
  destruct (escolha cs (opcoes_clientes (db a))) as [cid'|]; [|discriminate].
  inversion E0; subst cid' c0. clear E0.
  apply tx_bind_some in E. destruct E as [[] [c1 [E1 E]]].
  apply cursor_execute_some in E1. destruct E1 as [F0 E1]. simpl in F0, E1. subst c1.
  apply tx_bind_some in E. destruct E as [[] [c2 [E2 E]]].
  pose proof (tx_for_itens_sem_falha _ _ _ _ _ E2) as Fi. simpl in Fi.
  apply tx_for_itens in E2. simpl in E2. destruct E2 as [_ Hc2].
  apply tx_bind_some in E. destruct E as [[] [c3 [E3 _]]].
  apply conn_commit_some in E3. destruct E3 as [Fc _]. rewrite Hc2 in Fc.
  destruct (Nat.eq_dec n 0) as [->|N0]; [exact F0|].
  destruct (Nat.eq_dec n (1 + 2 * List.length (vendas a))) as [->|N1]; [exact Fc|].
  apply Fi. lia.
Qed.

(* ------------------------------------------------------------------ *)
(** ** C6: discounted price, subtotal and order total                  *)
(* ------------------------------------------------------------------ *)

Lemma fold_subtotal_soma (itens : list Item.t) (acc : Q) :
  (fold_left (fun acc i => acc + Item.subtotal i) itens acc ==
   acc + soma (map Item.subtotal itens))%Q.
Proof.
  revert acc. induction itens as [|i r IH]; intros acc; simpl.
  - now rewrite Qplus_0_r.
  - rewrite IH. now rewrite Qplus_assoc.
Qed.

Lemma valor_total_soma (itens : list Item.t) :
  (valor_total itens == soma (map Item.subtotal itens))%Q.
Proof. unfold valor_total. rewrite fold_subtotal_soma. apply Qplus_0_l. Qed.

Lemma subtotal_linha_venda (pedido_id : Z) (itens : list Item.t) :
  map Vendas.subtotal (map (linha_venda pedido_id) itens) = map Item.subtotal itens.
Proof. rewrite map_map. reflexivity. Qed.

Lemma filter_none {A} (f : A -> bool) (l : list A) :
  (forall x, In x l -> f x = false) -> filter f l = [].
Proof.
  induction l as [|x l IH]; intros H; simpl; [reflexivity|].
  rewrite (H x) by (left; reflexivity). apply IH. intros y Hy. apply H. now right.
Qed.

Lemma filter_all {A} (f : A -> bool) (l : list A) :
  (forall x, In x l -> f x = true) -> filter f l = l.
Proof.
  induction l as [|x l IH]; intros H; simpl; [reflexivity|].
  rewrite (H x) by (left; reflexivity). f_equal. apply IH. intros y Hy. apply H. now right.
Qed.

Lemma adicionar_item_linha (produto_item : option string) (q : Z) (d : Q) (a a' : App) :
  adicionar_item produto_item (Some q) (Some d) a = Adicionado a' ->
  item_adicionado a q d a'.
Proof.
  intros H. unfold adicionar_item in H.
  destruct (escolha produto_item (opcoes_produtos (db a))) as [pid|]; [|discriminate].
  destruct produto_item as [nome|]; [|discriminate].
  destruct (filter (fun p => Produtos.produto_id p =? pid) (tProdutos (db a)))
    as [|produto_data rest] eqn:Ef; [discriminate|].
  destruct (Produtos.estoque_atual produto_data) as [estoque|]; [|discriminate].
  destruct (q >? estoque); [discriminate|].
  injection H as <-.
  assert (Hin : In produto_data
                  (filter (fun p => Produtos.produto_id p =? pid) (tProdutos (db a))))
    by (rewrite Ef; left; reflexivity).
  apply filter_In in Hin. destruct Hin as [Hin Hid]. apply Z.eqb_eq in Hid.
  eexists. exists produto_data. simpl.
  repeat split; try reflexivity; assumption.
Qed.

Lemma registrar_pedido_gravado (cs fp : option string) (data : DataValor) (novo_id : Z)
    (fl : Faults) (a : App) (d' : DB) (pid : Z) :
  run_transaction (registrar_pedido_tx cs fp data novo_id a) fl (db a) = (d', Some pid) ->
  pedido_gravado a pid d'.
Proof.
  intros H.
  apply registrar_pedido_tx_commit in H. destruct H as [-> [cid [_ ->]]].
  eexists. rewrite fold_efeito_pedidos, fold_efeito_vendas. simpl.
  split; [reflexivity|]. split; [reflexivity|]. split; [reflexivity|].
  split; [reflexivity|]. split.
  - rewrite subtotal_linha_venda. apply valor_total_soma.
  - intros Hnovo. unfold linhas_do_pedido.
    rewrite fold_efeito_vendas. simpl. rewrite filter_app.
    rewrite filter_none.
    + simpl. rewrite filter_all.
      * rewrite subtotal_linha_venda. apply valor_total_soma.
      * intros v Hv. apply in_map_iff in Hv. destruct Hv as [i [<- _]].
        simpl. apply Z.eqb_refl.
    + intros v Hv. apply Z.eqb_neq. now apply Hnovo.
Qed.

(** C6.  (1) A line added to the cart carries the product's catalog price
    [p], the quantity [q] and the discount [d] entered, the discounted unit
    price [p * (1 - d/100)] and the subtotal (discounted price times [q]).
    (2) Every committed order appends one [Pedidos] row, created with status
    'Pendente', and one [Vendas] row per cart line; the stored total equals
    the sum of the subtotals of those lines, which are all the lines of the
    order when its id is new.  (3) With a customer chosen and no failing
    call the order is committed. *)
Theorem C6_subtotais_e_total :
  (forall (produto_item : option string) (q : Z) (d : Q) (a a' : App),
      adicionar_item produto_item (Some q) (Some d) a = Adicionado a' ->
      item_adicionado a q d a')
  /\
  (forall (cs fp : option string) (data : DataValor) (novo_id : Z) (fl : Faults)
          (a : App) (d' : DB) (pid : Z),
      run_transaction (registrar_pedido_tx cs fp data novo_id a) fl (db a) = (d', Some pid) ->
      pedido_gravado a pid d')
  /\
  (forall (cs fp : option string) (data : DataValor) (novo_id : Z) (a : App) (cliente_id : Z),
      escolha cs (opcoes_clientes (db a)) = Some cliente_id ->
      snd (run_transaction (registrar_pedido_tx cs fp data novo_id a) no_faults (db a))
      = Some novo_id).
Proof.
  split; [|split].
  - apply adicionar_item_linha.
  - apply registrar_pedido_gravado.
  - intros cs fp data novo_id a cliente_id H.
    eapply registrar_pedido_tx_ok; [reflexivity|exact H].
Qed.

Lemma C6_witness :
  (adicionar_item (Some "Pastilha"%string) (Some 2) (Some 10%Q) (Loja.sessao Loja.inicio)
   = Adicionado carrinho1 /\
   item_adicionado (Loja.sessao Loja.inicio) 2 10%Q carrinho1) /\
  (pedido_exemplo = (fst pedido_exemplo, Some 1) /\
   pedido_gravado carrinho2 1 (fst pedido_exemplo)).
Proof.
  split; split.
  - reflexivity.
  - apply (proj1 C6_subtotais_e_total (Some "Pastilha"%string)). reflexivity.
  - reflexivity.
  - apply (proj1 (proj2 C6_subtotais_e_total) (Some "Ana"%string) (Some "Pix"%string)
             Loja.hoje 1 no_faults). reflexivity.
Defined.

(** The numbers of that order: subtotals 180 and 50, total 230, stock down by
    2 and by 1. *)
Example pedido_exemplo_valores :
  Forall2 Qeq (map Item.subtotal (vendas carrinho2)) [180%Q; 50%Q] /\
  Forall2 Qeq (map Pedidos.valor_total (tPedidos (fst pedido_exemplo))) [230%Q] /\
  map Pedidos.status_pedido (tPedidos (fst pedido_exemplo)) = [Pendente] /\
  estoque_de 1 (fst pedido_exemplo) = Some 3 /\
  estoque_de 2 (fst pedido_exemplo) = Some 9.
Proof.
  repeat split.
  - repeat constructor; vm_compute; reflexivity.
  - repeat constructor; vm_compute; reflexivity.
Qed.

(* ------------------------------------------------------------------ *)
(** ** C1 and C2: the stock at commit time                             *)
(* ------------------------------------------------------------------ *)

(** A committed order takes every unit of the cart out of the stock; the
    stock is not compared with anything on the way. *)
Lemma registrar_pedido_estoque (cs fp : option string) (data : DataValor) (novo_id : Z)
    (fl : Faults) (a : App) (d' : DB) (pid k : Z) :
  run_transaction (registrar_pedido_tx cs fp data novo_id a) fl (db a) = (d', Some pid) ->
  estoque_de k d' = sql_sub (estoque_de k (db a)) (qtd_no_carrinho k (vendas a)).
Proof.
  intros H. apply registrar_pedido_tx_commit in H. destruct H as [_ [cid [_ ->]]].
  rewrite fold_efeito_estoque. reflexivity.
Qed.

(** An order whose transaction raises leaves database and cart as they
    were. *)
Lemma registrar_pedido_rollback (cs fp : option string) (data : DataValor) (novo_id : Z)
    (fl : Faults) (a : App) :
  snd (run_transaction (registrar_pedido_tx cs fp data novo_id a) fl (db a)) = None ->
  registrar_pedido cs fp data novo_id fl a = a.
Proof.
  intros H. unfold registrar_pedido.
  pose proof (run_transaction_rollback _ _ _ H) as Hd.
  destruct (run_transaction _ fl (db a)) as [d' [x|]]; simpl in *; [discriminate|].
  subst d'. destruct a as [d c [|i r]]; reflexivity.
Qed.

(** The only stock check of a sale is the one of "Adicionar Item", against
    the stock read in that run and for that line alone. *)
Lemma adicionar_item_estoque (produto_item : option string) (q : Z) (d : Q) (a a' : App) :
  adicionar_item produto_item (Some q) (Some d) a = Adicionado a' ->
  exists item estoque,
    vendas a' = vendas a ++ [item] /\
    estoque_de (Item.produto_id item) (db a) = Some estoque /\ q <= estoque.
Proof.
  intros H. unfold adicionar_item in H.
  destruct (escolha produto_item (opcoes_produtos (db a))) as [pid|]; [|discriminate].
  destruct produto_item as [nome|]; [|discriminate].
  destruct (filter (fun p => Produtos.produto_id p =? pid) (tProdutos (db a)))
    as [|produto_data rest] eqn:Ef; [discriminate|].
  destruct (Produtos.estoque_atual produto_data) as [estoque|] eqn:Ee; [|discriminate].
  destruct (q >? estoque) eqn:Eq; [discriminate|].
  injection H as <-. eexists. exists estoque.
  split; [reflexivity|]. split.
  - unfold estoque_de. cbn [Item.produto_id db]. rewrite Ef. exact Ee.
  - rewrite Z.gtb_ltb in Eq. apply Z.ltb_ge in Eq. exact Eq.
Qed.

(** *** C2: the order transaction is all or nothing, and checks no stock *)

(** The order of session A is committed: order 2 and its line of 5 are
    written, the stock becomes -2 and the cart is emptied as after any
    successful order. *)
Example pedido_acima_do_estoque :
  let fim := registrar_pedido (Some "Ana"%string) (Some "Dinheiro"%string) Loja.hoje 2
               no_faults carrinho_velho in
  adicionar_item (Some "Pastilha"%string) (Some 5) (Some 0%Q) (Loja.sessao Loja.inicio)
    = Adicionado sessao_A /\
  estoque_de 1 (db carrinho_velho) = Some 3 /\
  map Item.quantidade (vendas carrinho_velho) = [5] /\
  map Pedidos.pedido_id (tPedidos (db fim)) = [1; 2] /\
  map Vendas.quantidade (linhas_do_pedido 2 (db fim)) = [5] /\
  estoque_de 1 (db fim) = Some (-2) /\
  vendas fim = [].
Proof. repeat split. Qed.

(** The specification's wording does not hold of the code: a commit with a line
    whose quantity exceeds the stock is not rolled back. *)
Lemma C2_counterexample :
  ~ (forall (cs fp : option string) (data : DataValor) (novo_id : Z) (a : App)
            (item : Item.t) (e : Z),
        In item (vendas a) ->
        estoque_de (Item.produto_id item) (db a) = Some e ->
        e < Item.quantidade item ->
        db (registrar_pedido cs fp data novo_id no_faults a) = db a).
Proof.
  intros H.
  assert (Hi : exists item, vendas carrinho_velho = [item] /\
                            Item.produto_id item = 1 /\ Item.quantidade item = 5).
  { eexists. repeat split. }
  destruct Hi as [item [Hv [Hp Hq]]].
  specialize (H (Some "Ana"%string) (Some "Dinheiro"%string) Loja.hoje 2 carrinho_velho
                item 3).
  assert (E : estoque_de 1
                (db (registrar_pedido (Some "Ana"%string) (Some "Dinheiro"%string)
                       Loja.hoje 2 no_faults carrinho_velho))
              = estoque_de 1 (db carrinho_velho)).
  { f_equal. apply H.
    - rewrite Hv. left. reflexivity.
    - rewrite Hp. reflexivity.
    - rewrite Hq. lia. }
  vm_compute in E. discriminate E.
Qed.

(** C2, as the code has it.  "Registrar Pedido" compares no quantity with
    any stock and has no error of its own.  Its transaction is all or
    nothing: when any of its calls fails (the header insert, the insert or
    the stock update of a line, the commit) or no customer is chosen, the
    database and the cart are left exactly as they were, so no partial order
    is visible; when none fails, the header, every line and every stock
    decrement are committed together, whatever the stock was, and the cart is
    emptied. *)
Theorem C2_pedido_tudo_ou_nada (cs fp : option string) (data : DataValor) (novo_id : Z)
    (fl : Faults) (a : App) :
  vendas a <> [] ->
  let a' := registrar_pedido cs fp data novo_id fl a in
  ((exists n, (n < chamadas_pedido a)%nat /\ fl n = true) \/
   escolha cs (opcoes_clientes (db a)) = None ->
   a' = a) /\
  ((forall n, (n < chamadas_pedido a)%nat -> fl n = false) ->
   escolha cs (opcoes_clientes (db a)) <> None ->
   pedido_gravado a novo_id (db a') /\
   (forall k, estoque_de k (db a') =
              sql_sub (estoque_de k (db a)) (qtd_no_carrinho k (vendas a))) /\
   vendas a' = []).
Proof.
  intros Hne a'. split.
  - intros Hbad. apply registrar_pedido_rollback.
    destruct (run_transaction (registrar_pedido_tx cs fp data novo_id a) fl (db a))
      as [d' [pid|]] eqn:E; [|reflexivity].
    exfalso. destruct Hbad as [[n [Hn Hf]]|Hc].
    + rewrite (registrar_pedido_tx_sem_falha _ _ _ _ _ _ _ _ E n Hn) in Hf. discriminate.
    + apply registrar_pedido_tx_commit in E. destruct E as [_ [cid [Hcid _]]]. congruence.
  - intros Hok Hc.
    destruct (escolha cs (opcoes_clientes (db a))) as [cid|] eqn:Ec; [|contradiction].
    pose proof (registrar_pedido_tx_ok cs fp data novo_id fl a cid Hok Ec) as Hs.
    unfold a', registrar_pedido. destruct (vendas a) as [|i r] eqn:Ev; [contradiction|].
    rewrite <- Ev.
    destruct (run_transaction (registrar_pedido_tx cs fp data novo_id a) fl (db a))
      as [d' [pid|]] eqn:E; [|discriminate].
    simpl in Hs. injection Hs as ->. simpl.
    split; [|split; [|reflexivity]].
    + apply (registrar_pedido_gravado cs fp data novo_id fl a d' novo_id E).
    + intros k. eapply registrar_pedido_estoque. exact E.
Qed.

(** The order of the example, with the stock update of its first line
    failing: nothing is written and the cart is kept. *)
Lemma C2_witness :
  vendas carrinho2 <> [] /\
  (4 < chamadas_pedido carrinho2)%nat /\
  registrar_pedido (Some "Ana"%string) (Some "Pix"%string) Loja.hoje 1
    (fun n => Nat.eqb n 2) carrinho2 = carrinho2.
Proof.
  split; [discriminate|]. split; [vm_compute; lia|].
  apply (proj1 (C2_pedido_tudo_ou_nada (Some "Ana"%string) (Some "Pix"%string) Loja.hoje 1
                  (fun n => Nat.eqb n 2) carrinho2 ltac:(discriminate))).
  left. exists 2%nat. split; [vm_compute; lia|reflexivity].
Defined.

(** *** C1: the stock along a run of the application *)

Lemma sql_dados_atuais_estoque (pid : Z) (d : DB) (r0 : option Z) (r1 : option Q) :
  sql_dados_atuais pid d = Some (r0, r1) -> estoque_de pid d = r0.
Proof.
  unfold sql_dados_atuais, estoque_de.
  destruct (filter _ (tProdutos d)) as [|p rows]; [discriminate|].
  intros H. injection H as <- _. reflexivity.
Qed.

Lemma estoque_de_update_estoque (n : Z) (c : Q) (k pid : Z) (d : DB)
    (r : option Z * option Q) :
  sql_dados_atuais pid d = Some r ->
  estoque_de k (sql_update_estoque n c pid d) =
  if k =? pid then Some n else estoque_de k d.
Proof.
  unfold sql_dados_atuais, estoque_de, sql_update_estoque, set_Produtos, update_where.
  simpl tProdutos.
  induction (tProdutos d) as [|p rows IH]; simpl; [discriminate|].
  destruct (Produtos.produto_id p =? pid) eqn:Ep; simpl.
  - intros _. destruct (Produtos.produto_id p =? k) eqn:Ek.
    + apply Z.eqb_eq in Ep, Ek. subst. rewrite Z.eqb_refl. reflexivity.
    + destruct (k =? pid) eqn:Ekp.
      * apply Z.eqb_eq in Ekp, Ep. subst. rewrite Z.eqb_refl in Ek. discriminate.
      * clear IH. induction rows as [|x rows IHr]; simpl; [reflexivity|].
        destruct (Produtos.produto_id x =? pid) eqn:Ex; simpl.
        -- destruct (Produtos.produto_id x =? k) eqn:Exk; [|exact IHr].
           apply Z.eqb_eq in Ex, Exk. subst. rewrite Z.eqb_refl in Ekp. discriminate.
        -- destruct (Produtos.produto_id x =? k); [reflexivity|exact IHr].
  - intros H. destruct (Produtos.produto_id p =? k) eqn:Ek.
    + apply Z.eqb_eq in Ek. subst k. rewrite Ep. reflexivity.
    + apply IH. exact H.
Qed.

(** The database after the receipt handler: untouched, or the product found
    with its stock raised by the quantity received. *)
Lemma registrar_compra_db (forn : option Z) (sel : option string) (q : Z) (u : Q)
    (emissao recebimento : DataValor) (nf : string) (fl : Faults) (a : App) :
  db (registrar_compra forn sel q u emissao recebimento nf fl a) = db a \/
  exists pid r0 r1 c row,
    sql_dados_atuais pid (db a) = Some (r0, r1) /\
    db (registrar_compra forn sel q u emissao recebimento nf fl a) =
    sql_update_estoque (match r0 with Some e => e | None => 0 end + q) c pid
      (sql_insert_entrada row (db a)).
Proof.
  unfold registrar_compra. destruct forn as [f|]; [|left; reflexivity].
  destruct (truthy sel); [|left; reflexivity].
  destruct (escolha sel (opcoes_produtos (db a))) as [pid|]; [|left; reflexivity].
  unfold run_transaction, registrar_compra_tx, tx_bind, cursor_query.
  cbn [cur_calls cur_db].
  destruct (fl 0%nat); [left; reflexivity|].
  destruct (sql_dados_atuais pid (db a)) as [[r0 r1]|] eqn:Ed; [|left; reflexivity].
  unfold cursor_execute, conn_commit, tx_ret. cbn [cur_calls cur_db].
  destruct (fl 1%nat); [left; reflexivity|]. cbn [cur_calls cur_db].
  destruct (Float.round _ 4) as [c|]; [|left; reflexivity]. cbn [cur_calls cur_db].
  destruct (fl 2%nat); [left; reflexivity|]. cbn [cur_calls cur_db].
  destruct (fl 3%nat); [left; reflexivity|].
  right. exists pid, r0, r1. eexists. eexists. split; [exact Ed|reflexivity].
Qed.

Lemma registrar_compra_nao_negativo (forn : option Z) (sel : option string) (q : Z) (u : Q)
    (emissao recebimento : DataValor) (nf : string) (fl : Faults) (a : App) :
  1 <= q -> nao_negativo (db a) ->
  nao_negativo (db (registrar_compra forn sel q u emissao recebimento nf fl a)).
Proof.
  intros Hq Hinv.
  destruct (registrar_compra_db forn sel q u emissao recebimento nf fl a)
    as [->|[pid [r0 [r1 [c [row [Hd ->]]]]]]]; [exact Hinv|].
  intros k e He.
  rewrite (estoque_de_update_estoque _ _ k pid (sql_insert_entrada row (db a)) (r0, r1) Hd)
    in He.
  destruct (k =? pid) eqn:Ek.
  - injection He as <-. apply sql_dados_atuais_estoque in Hd.
    destruct r0 as [e0|]; [|lia]. specialize (Hinv pid e0 Hd). lia.
  - apply (Hinv k e He).
Qed.

Lemma adicionar_item_db (produto_item : option string) (q : Z) (d : Q) (a a' : App) :
  adicionar_item produto_item (Some q) (Some d) a = Adicionado a' -> db a' = db a.
Proof.
  intros H. apply adicionar_item_linha in H.
  destruct H as [item [pd [_ [H _]]]]. exact H.
Qed.

Lemma registrar_pedido_nao_negativo (cs fp : option string) (data : DataValor) (novo_id : Z)
    (fl : Faults) (a : App) :
  carrinho_cabe a -> nao_negativo (db a) ->
  nao_negativo (db (registrar_pedido cs fp data novo_id fl a)).
Proof.
  intros Hcabe Hinv. unfold registrar_pedido.
  destruct (vendas a) as [|i r] eqn:Ev; [exact Hinv|]. rewrite <- Ev.
  destruct (run_transaction (registrar_pedido_tx cs fp data novo_id a) fl (db a))
    as [d' [pid|]] eqn:E.
  - simpl. intros k e He.
    rewrite (registrar_pedido_estoque _ _ _ _ _ _ _ _ k E) in He.
    destruct (estoque_de k (db a)) as [e0|] eqn:E0; [|discriminate].
    simpl in He. injection He as <-.
    specialize (Hcabe k e0 E0). lia.
  - pose proof (run_transaction_rollback
                  (registrar_pedido_tx cs fp data novo_id a) fl (db a)) as Hr.
    rewrite E in Hr. simpl in Hr. rewrite (Hr eq_refl). exact Hinv.
Qed.

Lemma devolucao_nao_negativo (pid : Z) (nome : string) (qtd : Z) (estado : EstadoOpcao)
    (marcado : option bool) (motivo : string) (data : DataValor) (fl : Faults) (a a' : App) :
  devolucao pid nome qtd estado marcado motivo data fl a = Some a' ->
  nao_negativo (db a) -> nao_negativo (db a').
Proof.
  unfold devolucao. intros H Hinv.
  destruct (form_devolucao pid nome qtd estado marcado motivo data (db a)) as [f|] eqn:Ef;
    [|discriminate].
  injection H as <-.
  assert (Hq : 1 <= f_qtd_devolver f).
  { unfold form_devolucao in Ef.
    destruct (existsb _ _); [|discriminate].
    destruct (item_selecionado _ _) as [item|]; [|discriminate].
    unfold number_input in Ef.
    destruct ((1 <=? qtd) && (qtd <=? ItemPedido.quantidade item)) eqn:Eq; [|discriminate].
    injection Ef as <-. simpl. apply andb_true_iff in Eq. destruct Eq as [H1 _].
    now apply Z.leb_le in H1. }
  destruct (confirmar_devolucao_casos f fl a) as [[_ [_ [Hs _]]]|[_ ->]]; [|exact Hinv].
  intros k e He. rewrite Hs in He.
  destruct (f_retornar_estoque f && (k =? ItemPedido.produto_id (f_item_selecionado f))).
  - destruct (estoque_de k (db a)) as [e0|] eqn:E0; [|discriminate].
    simpl in He. injection He as <-. specialize (Hinv k e0 E0). lia.
  - apply (Hinv k e He).
Qed.

Lemma inicio_nao_negativo : nao_negativo Loja.inicio.
Proof.
  intros k e. unfold estoque_de. cbn [Loja.inicio tProdutos filter].
  cbn [Loja.pastilha Loja.oleo Produtos.produto_id Produtos.estoque_atual].
  destruct (1 =? k); [intros E; inversion E; lia|].
  destruct (2 =? k); [intros E; inversion E; lia|discriminate].
Qed.

(** The specification's wording does not hold of the code: along a run of receipts,
    cart lines, orders and returns the stock does not stay non-negative.
    With 5 "Pastilha" in stock the cart accepts a line of 3 and then a second
    line of 3, each one checked alone against the 5 in stock; the order is
    then committed and leaves the stock at -1. *)
Lemma C1_counterexample :
  ~ (forall a a' : App,
        passos (fun _ => True) a a' -> nao_negativo (db a) -> nao_negativo (db a')).
Proof.
  intros H.
  set (a0 := Loja.sessao Loja.inicio).
  set (a1 := Loja.adicionado
               (adicionar_item (Some "Pastilha"%string) (Some 3) (Some 0%Q) a0) a0).
  set (a2 := Loja.adicionado
               (adicionar_item (Some "Pastilha"%string) (Some 3) (Some 0%Q) a1) a1).
  set (a3 := registrar_pedido (Some "Ana"%string) (Some "Pix"%string) Loja.hoje 1
               no_faults a2).
  assert (Hrun : passos (fun _ => True) a0 a3).
  { apply passos_mais with a1;
      [apply (passo_adicionar _ (Some "Pastilha"%string) 3 0%Q); reflexivity|].
    apply passos_mais with a2;
      [apply (passo_adicionar _ (Some "Pastilha"%string) 3 0%Q); reflexivity|].
    apply passos_mais with a3; [apply passo_pedido; exact I|apply passos_fim]. }
  specialize (H a0 a3 Hrun inicio_nao_negativo 1 (-1) eq_refl). lia.
Qed.

(** C1, as the code has it.  Along every run of receipts, cart lines,
    registered orders and returns in which each order is registered with a
    cart that asks of each product no more than its stock, the stock of
    every product stays non-negative.  The only comparison of a sale with the
    stock is the one made when a line is added to the cart, for that line
    alone and against the stock read at that moment; "Registrar Pedido"
    rejects nothing: a committed order takes every unit of the cart out of
    the stock. *)
Theorem C1_estoque_nao_negativo :
  (forall a a' : App,
      passos carrinho_cabe a a' -> nao_negativo (db a) -> nao_negativo (db a')) /\
  (forall (produto_item : option string) (q : Z) (d : Q) (a a' : App),
      adicionar_item produto_item (Some q) (Some d) a = Adicionado a' ->
      exists item estoque,
        vendas a' = vendas a ++ [item] /\
        estoque_de (Item.produto_id item) (db a) = Some estoque /\ q <= estoque) /\
  (forall (cs fp : option string) (data : DataValor) (novo_id : Z) (fl : Faults)
          (a : App) (d' : DB) (pid k : Z),
      run_transaction (registrar_pedido_tx cs fp data novo_id a) fl (db a) = (d', Some pid) ->
      estoque_de k d' = sql_sub (estoque_de k (db a)) (qtd_no_carrinho k (vendas a))).
Proof.
  split; [|split].
  - intros a a' Hrun. induction Hrun as [a|a b c Hstep _ IH]; intros Hinv; [exact Hinv|].
    apply IH. destruct Hstep as [forn sel q u em re nf fl a Hq
                                 |produto_item q d a a' Hadd
                                 |cs fp data novo_id fl a Hg
                                 |pid nome qtd estado marcado motivo data fl a a' Hdev].
    + now apply registrar_compra_nao_negativo.
    + rewrite (adicionar_item_db _ _ _ _ _ Hadd). exact Hinv.
    + now apply registrar_pedido_nao_negativo.
    + eapply devolucao_nao_negativo; eassumption.
  - apply adicionar_item_estoque.
  - intros. eapply registrar_pedido_estoque. eassumption.
Qed.

Lemma C1_witness :
  carrinho_cabe uma_linha /\
  estoque_de 1
    (db (registrar_pedido (Some "Ana"%string) (Some "Pix"%string) Loja.hoje 1 no_faults
           uma_linha)) = Some 2 /\
  nao_negativo
    (db (registrar_pedido (Some "Ana"%string) (Some "Pix"%string) Loja.hoje 1 no_faults
           uma_linha)).
Proof.
  assert (Hc : carrinho_cabe uma_linha).
  { intros k e. unfold estoque_de, qtd_no_carrinho.
    change (tProdutos (db uma_linha)) with [Loja.pastilha 5 4; Loja.oleo 10].
    change (vendas uma_linha)
      with [Item.mk 1 "Pastilha" 3 100 0 (100 * (1 - 0 / 100)) (100 * (1 - 0 / 100) * 3)].
    cbn -[Z.eqb Qmult Qminus Qdiv].
    destruct (1 =? k); cbn -[Z.eqb Qmult Qminus Qdiv]; [intros E; inversion E; lia|].
    destruct (2 =? k); cbn -[Z.eqb Qmult Qminus Qdiv];
      [intros E; inversion E; lia|discriminate]. }
  split; [exact Hc|]. split; [reflexivity|].
  apply (proj1 C1_estoque_nao_negativo (Loja.sessao Loja.inicio)).
  - apply passos_mais with uma_linha.
    + apply (passo_adicionar _ (Some "Pastilha"%string) 3 0%Q). reflexivity.
    + apply passos_mais with
        (registrar_pedido (Some "Ana"%string) (Some "Pix"%string) Loja.hoje 1 no_faults
           uma_linha).
      * apply passo_pedido. exact Hc.
      * apply passos_fim.
  - exact inicio_nao_negativo.
Defined.

(* ------------------------------------------------------------------ *)
(** ** C5: the weighted-average cost of a receipt                      *)
(* ------------------------------------------------------------------ *)

Section Rounding.
Local Open Scope Q_scope.

Lemma round_half_even_near (t : Q) :
  -(1 # 2) <= inject_Z (Amount.round_half_even t) - t <= 1 # 2.
Proof.
  unfold Amount.round_half_even.
  pose proof (Qfloor_le t) as Hlo. pose proof (Qlt_floor t) as Hhi.
  rewrite inject_Z_plus in Hhi. change (inject_Z 1) with 1 in Hhi.
  destruct (Qcompare (t - inject_Z (Qfloor t)) (1 # 2)) eqn:E.
  - apply Qeq_alt in E. destruct (Z.even (Qfloor t)).
    + lra.
    + rewrite inject_Z_plus. change (inject_Z 1) with 1. lra.
  - apply Qlt_alt in E. lra.
  - apply Qgt_alt in E. rewrite inject_Z_plus. change (inject_Z 1) with 1. lra.
Qed.

End Rounding.

(** *** Float arithmetic: how far rounding to nearest can move a value *)

Section FloatFacts.
Local Open Scope Q_scope.

Lemma pow2_pos (e : Z) : 0 < Float.pow2 e.
Proof. apply Qpower_0_lt. reflexivity. Qed.

Lemma dois_nao_zero : ~ 2 == 0.
Proof. intros H. discriminate H. Qed.

Lemma pow2_plus (a b : Z) : Float.pow2 (a + b) == Float.pow2 a * Float.pow2 b.
Proof. apply Qpower_plus. exact dois_nao_zero. Qed.

Lemma pow2_Z (n : Z) : (0 <= n)%Z -> Float.pow2 n == inject_Z (2 ^ n).
Proof. intros H. unfold Float.pow2. now rewrite Zpower_Qpower. Qed.

(** [ilog2 x] is not above the binary logarithm of [x]. *)
Lemma ilog2_le (x : Q) : 0 < x -> Float.pow2 (Float.ilog2 x) <= x.
Proof.
  intros Hx. unfold Float.ilog2.
  destruct (Qle_bool _ x) eqn:E; [now apply Qle_bool_iff|]. clear E.
  destruct x as [n d]. cbn [Qnum Qden].
  assert (Hn : (0 < n)%Z).
  { unfold Qlt in Hx. simpl in Hx. lia. }
  pose proof (Z.log2_spec n Hn) as [Hn1 _].
  pose proof (Z.log2_spec (Zpos d) eq_refl) as [_ Hd2].
  pose proof (Z.log2_nonneg n) as Hln. pose proof (Z.log2_nonneg (Zpos d)) as Hld.
  set (ln := Z.log2 n) in *. set (ld := Z.log2 (Zpos d)) in *.
  replace (ln - ld - 1)%Z with (ln - (ld + 1))%Z by lia.
  unfold Float.pow2. rewrite Qpower_minus by exact dois_nao_zero.
  fold (Float.pow2 ln). fold (Float.pow2 (ld + 1)).
  rewrite !pow2_Z by lia. rewrite (Qmake_Qdiv n d).
  assert (HB : 0 < inject_Z (2 ^ (ld + 1))).
  { change 0 with (inject_Z 0). rewrite <- Zlt_Qlt. lia. }
  assert (HD : 0 < inject_Z (Zpos d)) by reflexivity.
  apply Qle_shift_div_r; [exact HB|].
  unfold Qdiv. rewrite <- Qmult_assoc, (Qmult_comm (/ _)), Qmult_assoc.
  apply Qle_shift_div_l; [exact HD|].
  rewrite <- !inject_Z_mult. rewrite <- Zle_Qle.
  apply Z.mul_le_mono_nonneg; lia.
Qed.

(** In the normal range the unit in the last place is at most [x / 2^52]. *)
Lemma ulp_exp_le (x : Q) :
  Float.pow2 (-1022) <= x -> Float.pow2 (Float.ulp_exp x) <= x * Float.pow2 (-52).
Proof.
  intros Hx.
  assert (Hpos : 0 < x) by (eapply Qlt_le_trans; [apply (pow2_pos (-1022))|exact Hx]).
  unfold Float.ulp_exp.
  destruct (Z.max_spec (Float.ilog2 x - 52) (-1074)) as [[_ ->]|[_ ->]].
  - change (-1074)%Z with (-1022 + -52)%Z. rewrite pow2_plus.
    apply Qmult_le_compat_r; [exact Hx|]. apply Qlt_le_weak, pow2_pos.
  - replace (Float.ilog2 x - 52)%Z with (Float.ilog2 x + -52)%Z by lia.
    rewrite pow2_plus.
    apply Qmult_le_compat_r; [now apply ilog2_le|]. apply Qlt_le_weak, pow2_pos.
Qed.

(** Rounding to nearest moves a positive number by at most half a unit in
    the last place. *)
Lemma nearest_pos_near (x : Q) :
  Qabs (Float.nearest_pos x - x) <= Float.pow2 (Float.ulp_exp x) * (1 # 2).
Proof.
  unfold Float.nearest_pos. cbv zeta.
  set (p := Float.pow2 (Float.ulp_exp x)).
  assert (Hp : 0 < p) by apply pow2_pos.
  pose proof (round_half_even_near (x / p)) as H.
  set (m := inject_Z (Amount.round_half_even (x / p))) in *.
  assert (E : m * p - x == (m - x / p) * p) by (field; lra).
  rewrite E, Qabs_Qmult, (Qabs_pos p) by lra.
  rewrite (Qmult_comm p). apply Qmult_le_compat_r; [|lra].
  apply Qabs_Qle_condition. lra.
Qed.


(** The relative error of rounding to nearest, in the normal range. *)
Lemma nearest_rel (x : Q) :
  Float.pow2 (-1022) <= x ->
  x * teta <= Float.nearest x /\ Float.nearest x * teta <= x.
Proof.
  intros Hx.
  assert (Hpos : 0 < x) by (eapply Qlt_le_trans; [apply (pow2_pos (-1022))|exact Hx]).
  assert (En : Float.nearest x == Float.nearest_pos x).
  { unfold Float.nearest. destruct x as [[|n|n] d]; try (now inversion Hpos).
    cbn [Qnum]. apply Qred_correct. }
  rewrite En.
  pose proof (nearest_pos_near x) as H1. pose proof (ulp_exp_le x Hx) as H2.
  apply Qabs_Qle_condition in H1.
  set (r := Float.nearest_pos x) in *. set (p := Float.pow2 (Float.ulp_exp x)) in *.
  unfold teta. change (Float.pow2 (-53)) with (1 # 9007199254740992).
  change (Float.pow2 (-52)) with (1 # 4503599627370496) in H2.
  split; [lra|].
  assert (Hr : r <= x * (1 + (1 # 9007199254740992))) by lra.
  apply Qle_trans with (x * (1 + (1 # 9007199254740992)) * (1 - (1 # 9007199254740992))).
  - apply Qmult_le_compat_r; [exact Hr|]. discriminate.
  - setoid_replace (x * (1 + (1 # 9007199254740992)) * (1 - (1 # 9007199254740992)))
      with (x - x * ((1 # 9007199254740992) * (1 # 9007199254740992))) by ring.
    assert (0 <= x * ((1 # 9007199254740992) * (1 # 9007199254740992))).
    { apply Qmult_le_0_compat; [lra|discriminate]. }
    lra.
Qed.


Lemma teta_bounds : 0 < teta /\ teta < 1.
Proof. split; reflexivity. Qed.

Lemma qpow_pos (k : nat) : 0 < qpow teta k.
Proof.
  induction k as [|k IH]; simpl; [reflexivity|].
  apply Qmult_lt_0_compat; [apply teta_bounds|exact IH].
Qed.

Lemma qpow_le_1 (k : nat) : qpow teta k <= 1.
Proof.
  induction k as [|k IH]; simpl; [discriminate|].
  pose proof (qpow_pos k) as Hp. destruct teta_bounds as [H0 H1].
  apply Qle_trans with (1 * qpow teta k); [|lra].
  apply Qmult_le_compat_r; lra.
Qed.

Lemma qpow_plus (j k : nat) : qpow teta (j + k) == qpow teta j * qpow teta k.
Proof.
  induction j as [|j IH]; simpl; [ring|]. rewrite IH. ring.
Qed.

Lemma qpow_half (k : nat) : (k <= 9)%nat -> 1 # 2 <= qpow teta k.
Proof.
  intros H.
  do 10 (destruct k as [|k]; [vm_compute; discriminate|]). lia.
Qed.

Lemma Qmult_le_compat_nonneg (a b c d : Q) :
  0 <= a -> 0 <= c -> a <= b -> c <= d -> a * c <= b * d.
Proof.
  intros Ha Hc Hab Hcd.
  apply Qle_trans with (b * c).
  - apply Qmult_le_compat_r; assumption.
  - rewrite !(Qmult_comm b). apply Qmult_le_compat_r; [assumption|lra].
Qed.

Lemma near_refl (x : Q) : near 0 x x.
Proof. unfold near. simpl. split; lra. Qed.

Lemma near_nonneg (k : nat) (x y : Q) : 0 <= x -> near k x y -> 0 <= y.
Proof.
  intros Hx [H _]. pose proof (qpow_pos k) as Hp.
  apply Qle_trans with (x * qpow teta k); [|exact H].
  apply Qmult_le_0_compat; lra.
Qed.

Lemma near_zero (k : nat) (x y : Q) : near k x y -> y == 0 -> 0 <= x -> x == 0.
Proof.
  intros [H _] Hy Hx. pose proof (qpow_pos k) as Hp.
  rewrite Hy in H.
  assert (x <= 0).
  { destruct (Qlt_le_dec 0 x) as [Hlt|Hle]; [|exact Hle].
    exfalso. assert (0 < x * qpow teta k) by (now apply Qmult_lt_0_compat). lra. }
  lra.
Qed.

Lemma near_mul (j k : nat) (x x' y y' : Q) :
  0 <= x -> 0 <= y -> near j x x' -> near k y y' -> near (j + k) (x * y) (x' * y').
Proof.
  intros Hx Hy Hnx Hny.
  pose proof (near_nonneg _ _ _ Hx Hnx) as Hx'. pose proof (near_nonneg _ _ _ Hy Hny) as Hy'.
  destruct Hnx as [A1 A2]. destruct Hny as [B1 B2].
  pose proof (qpow_pos j) as Hj. pose proof (qpow_pos k) as Hk.
  unfold near. rewrite qpow_plus. split.
  - setoid_replace (x * y * (qpow teta j * qpow teta k))
      with ((x * qpow teta j) * (y * qpow teta k)) by ring.
    apply Qmult_le_compat_nonneg; try assumption; apply Qmult_le_0_compat; lra.
  - setoid_replace (x' * y' * (qpow teta j * qpow teta k))
      with ((x' * qpow teta j) * (y' * qpow teta k)) by ring.
    apply Qmult_le_compat_nonneg; try assumption; apply Qmult_le_0_compat; lra.
Qed.

Lemma near_add (j : nat) (x x' y y' : Q) :
  near j x x' -> near j y y' -> near j (x + y) (x' + y').
Proof.
  intros [A1 A2] [B1 B2]. unfold near. split.
  - setoid_replace ((x + y) * qpow teta j) with (x * qpow teta j + y * qpow teta j) by ring.
    lra.
  - setoid_replace ((x' + y') * qpow teta j) with (x' * qpow teta j + y' * qpow teta j)
      by ring.
    lra.
Qed.

Lemma near_div (j k : nat) (x x' y y' : Q) :
  0 <= x -> 0 < y -> near j x x' -> near k y y' -> near (j + k) (x / y) (x' / y').
Proof.
  intros Hx Hy Hnx Hny.
  pose proof (near_nonneg _ _ _ Hx Hnx) as Hx'.
  pose proof (qpow_pos j) as Hj. pose proof (qpow_pos k) as Hk.
  destruct Hnx as [A1 A2]. destruct Hny as [B1 B2].
  assert (Hy' : 0 < y').
  { apply Qlt_le_trans with (y * qpow teta k); [|exact B1].
    now apply Qmult_lt_0_compat. }
  unfold near. rewrite qpow_plus. split.
  - apply Qle_shift_div_l; [exact Hy'|].
    setoid_replace (x / y * (qpow teta j * qpow teta k) * y')
      with ((x * qpow teta j) * (y' * qpow teta k) / y) by (field; lra).
    apply Qle_shift_div_r; [exact Hy|].
    apply Qmult_le_compat_nonneg; try assumption; apply Qmult_le_0_compat; lra.
  - apply Qle_shift_div_l; [exact Hy|].
    setoid_replace (x' / y' * (qpow teta j * qpow teta k) * y)
      with ((x' * qpow teta j) * (y * qpow teta k) / y') by (field; lra).
    apply Qle_shift_div_r; [exact Hy'|].
    apply Qmult_le_compat_nonneg; try assumption; apply Qmult_le_0_compat; lra.
Qed.

Lemma nearest_zero (x : Q) : x == 0 -> Float.nearest x = 0.
Proof.
  intros H. unfold Float.nearest. destruct x as [[|n|n] d]; try reflexivity;
    unfold Qeq in H; simpl in H; lia.
Qed.

(** One more rounding. *)
Lemma near_nearest (j : nat) (x x' : Q) :
  0 <= x -> near j x x' -> (x' == 0 \/ Float.pow2 (-1022) <= x') ->
  near (S j) x (Float.nearest x').
Proof.
  intros Hx Hn [H0|Hlo].
  - rewrite (nearest_zero x' H0).
    pose proof (near_zero _ _ _ Hn H0 Hx) as Hx0.
    unfold near. rewrite Hx0. split; lra.
  - pose proof (near_nonneg _ _ _ Hx Hn) as Hx'.
    destruct (nearest_rel x' Hlo) as [R1 R2]. destruct Hn as [A1 A2].
    pose proof (qpow_pos j) as Hj. destruct teta_bounds as [T0 T1].
    unfold near. cbn [qpow]. split.
    + apply Qle_trans with (x' * teta); [|exact R1].
      setoid_replace (x * (teta * qpow teta j)) with (x * qpow teta j * teta) by ring.
      apply Qmult_le_compat_r; lra.
    + apply Qle_trans with (x' * qpow teta j); [|exact A2].
      setoid_replace (Float.nearest x' * (teta * qpow teta j))
        with (Float.nearest x' * teta * qpow teta j) by ring.
      apply Qmult_le_compat_r; lra.
Qed.

Lemma of_Q_some (x : Q) :
  0 <= Float.nearest x -> Float.nearest x < Float.pow2 1024 ->
  Float.of_Q x = Some (Float.nearest x).
Proof.
  intros H0 H1. unfold Float.of_Q. cbv zeta.
  destruct (Qle_bool (Float.pow2 1024) (Qabs (Float.nearest x))) eqn:E; [|reflexivity].
  apply Qle_bool_iff in E. rewrite Qabs_pos in E by exact H0. lra.
Qed.

Lemma aprox_of_Q (j : nat) (x x' : Q) :
  (j <= 8)%nat -> 0 <= x -> (x == 0 \/ normal_min <= x) -> x <= finite_max ->
  near j x x' -> aprox (S j) x (Float.of_Q x').
Proof.
  intros Hj Hx Hz Hhi Hn.
  pose proof (near_nonneg _ _ _ Hx Hn) as Hx'.
  pose proof (qpow_half j ltac:(lia)) as Hh. pose proof (qpow_pos j) as Hp.
  assert (Hz' : x' == 0 \/ Float.pow2 (-1022) <= x').
  { destruct Hz as [Hz|Hz].
    - left. destruct Hn as [_ A2]. rewrite Hz in A2.
      assert (x' <= 0).
      { destruct (Qlt_le_dec 0 x') as [Hlt|Hle]; [|exact Hle].
        exfalso. assert (0 < x' * qpow teta j) by (now apply Qmult_lt_0_compat). lra. }
      lra.
    - right. destruct Hn as [A1 _].
      apply Qle_trans with (x * qpow teta j); [|exact A1].
      apply Qle_trans with (normal_min * (1 # 2)); [vm_compute; discriminate|].
      apply Qmult_le_compat_nonneg; try assumption; [vm_compute; discriminate|discriminate]. }
  pose proof (near_nearest j x x' Hx Hn Hz') as Hn'.
  exists (Float.nearest x'). split; [|exact Hn'].
  assert (Hr : 0 <= Float.nearest x') by exact (near_nonneg _ _ _ Hx Hn').
  apply of_Q_some; [exact Hr|].
  destruct Hn' as [_ B2].
  pose proof (qpow_half (S j) ltac:(lia)) as Hh'.
  assert (Float.nearest x' * (1 # 2) <= Float.nearest x' * qpow teta (S j)).
  { rewrite !(Qmult_comm (Float.nearest x')). apply Qmult_le_compat_r; assumption. }
  assert (Float.nearest x' <= finite_max * 2) by lra.
  apply Qle_lt_trans with (finite_max * 2); [assumption|]. reflexivity.
Qed.

Lemma aprox_mul (j k : nat) (x y : Q) (rx ry : option Q) :
  (j + k <= 8)%nat -> 0 <= x -> 0 <= y -> (x * y == 0 \/ normal_min <= x * y) -> x * y <= finite_max ->
  aprox j x rx -> aprox k y ry -> aprox (S (j + k)) (x * y) (Float.mul rx ry).
Proof.
  intros Hjk Hx Hy Hz Hhi [x' [-> Hnx]] [y' [-> Hny]].
  unfold Float.mul, Float.lift2.
  apply aprox_of_Q; try assumption; [now apply Qmult_le_0_compat|now apply near_mul].
Qed.

Lemma aprox_add (j : nat) (x y : Q) (rx ry : option Q) :
  (j <= 8)%nat -> 0 <= x -> 0 <= y -> (x + y == 0 \/ normal_min <= x + y) -> x + y <= finite_max ->
  aprox j x rx -> aprox j y ry -> aprox (S j) (x + y) (Float.add rx ry).
Proof.
  intros Hj Hx Hy Hz Hhi [x' [-> Hnx]] [y' [-> Hny]].
  unfold Float.add, Float.lift2.
  apply aprox_of_Q; try assumption; [lra|now apply near_add].
Qed.

Lemma aprox_div (j k : nat) (x y : Q) (rx ry : option Q) :
  (j + k <= 8)%nat -> 0 <= x -> 0 < y -> (x / y == 0 \/ normal_min <= x / y) -> x / y <= finite_max ->
  aprox j x rx -> aprox k y ry -> aprox (S (j + k)) (x / y) (Float.div rx ry).
Proof.
  intros Hjk Hx Hy Hz Hhi [x' [-> Hnx]] [y' [-> Hny]].
  unfold Float.div, Float.lift2.
  apply aprox_of_Q; try assumption; [|now apply near_div].
  apply Qle_shift_div_l; [exact Hy|lra].
Qed.

Lemma aprox_of_int (n : Z) :
  (0 <= n <= 2000000000)%Z -> aprox 1 (inject_Z n) (Float.of_int n).
Proof.
  intros Hn. unfold Float.of_int.
  assert (H0 : 0 <= inject_Z n) by (change 0 with (inject_Z 0); rewrite <- Zle_Qle; lia).
  apply aprox_of_Q; [lia|exact H0| |  |apply near_refl].
  - destruct (Z.eq_dec n 0) as [->|Hne]; [left; reflexivity|right].
    apply Qle_trans with 1; [vm_compute; discriminate|].
    change 1 with (inject_Z 1). rewrite <- Zle_Qle. lia.
  - apply Qle_trans with 2000000000; [|vm_compute; discriminate].
    change 2000000000 with (inject_Z 2000000000). rewrite <- Zle_Qle. lia.
Qed.

Lemma aprox_of_valor (x : Q) : valor_comum x -> aprox 1 x (Float.of_Q x).
Proof.
  intros [Hz Hhi].
  assert (H0 : 0 <= x) by (destruct Hz; lra).
  apply aprox_of_Q; [lia|exact H0| | |apply near_refl].
  - destruct Hz as [Hz|Hz]; [now left|right].
    apply Qle_trans with (1 # 1000000); [vm_compute; discriminate|exact Hz].
  - apply Qle_trans with 1000000000; [exact Hhi|vm_compute; discriminate].
Qed.

Lemma produto_comum (n : Z) (x : Q) :
  (0 <= n <= 1000000000)%Z -> valor_comum x ->
  0 <= inject_Z n /\ 0 <= x /\
  (inject_Z n * x == 0 \/ 1 # 1000000 <= inject_Z n * x) /\
  inject_Z n * x <= 1000000000 * 1000000000 /\
  inject_Z n * x <= inject_Z n * 1000000000.
Proof.
  intros Hn [Hz Hhi].
  assert (H0 : 0 <= x) by (destruct Hz; lra).
  assert (Hn0 : 0 <= inject_Z n) by (change 0 with (inject_Z 0); rewrite <- Zle_Qle; lia).
  assert (Hn1 : inject_Z n <= 1000000000).
  { change 1000000000 with (inject_Z 1000000000). rewrite <- Zle_Qle. lia. }
  split; [exact Hn0|]. split; [exact H0|]. split; [|split].
  - destruct (Z.eq_dec n 0) as [->|Hne]; [left; ring|].
    destruct Hz as [Hz|Hz]; [left; rewrite Hz; ring|right].
    assert (H1 : 1 <= inject_Z n).
    { change 1 with (inject_Z 1). rewrite <- Zle_Qle. lia. }
    setoid_replace (1 # 1000000) with (1 * (1 # 1000000)) by ring.
    apply Qmult_le_compat_nonneg; try assumption; discriminate.
  - apply Qmult_le_compat_nonneg; assumption.
  - rewrite !(Qmult_comm (inject_Z n)). apply Qmult_le_compat_r; assumption.
Qed.

(** The float computation of the average cost is finite and within six
    roundings of the exact weighted average. *)
Lemma novo_custo_medio_aprox (q0 q : Z) (c0 u : Q) :
  (0 <= q0 <= 1000000000)%Z -> (1 <= q <= 1000000000)%Z ->
  valor_comum c0 -> valor_comum u ->
  let media := (inject_Z q0 * c0 + inject_Z q * u) / inject_Z (q0 + q) in
  0 <= media <= 1000000000 /\ aprox 6 media (novo_custo_medio q0 c0 q u).
Proof.
  intros Hq0 Hq Hc Hu media.
  destruct (produto_comum q0 c0 Hq0 Hc) as [A0 [A1 [A2 [A3 A4]]]].
  destruct (produto_comum q u ltac:(lia) Hu) as [B0 [B1 [B2 [B3 B4]]]].
  set (A := inject_Z q0 * c0) in *. set (B := inject_Z q * u) in *.
  assert (HA : 0 <= A) by (now apply Qmult_le_0_compat).
  assert (HB : 0 <= B) by (now apply Qmult_le_0_compat).
  assert (HN1 : 1 <= inject_Z (q0 + q)).
  { change 1 with (inject_Z 1). rewrite <- Zle_Qle. lia. }
  assert (HN2 : inject_Z (q0 + q) <= 2000000000).
  { change 2000000000 with (inject_Z 2000000000). rewrite <- Zle_Qle. lia. }
  assert (HS : A + B <= inject_Z (q0 + q) * 1000000000).
  { rewrite inject_Z_plus. lra. }
  assert (Hm0 : 0 <= media).
  { unfold media. apply Qle_shift_div_l; lra. }
  assert (Hm1 : media <= 1000000000).
  { unfold media. apply Qle_shift_div_r; [lra|]. rewrite Qmult_comm. exact HS. }
  split; [split; assumption|].
  unfold novo_custo_medio. cbv zeta.
  assert (Hpos : (q0 + q >? 0)%Z = true) by (apply Z.gtb_lt; lia).
  rewrite Hpos.
  apply (aprox_div 4 1); [lia| lra | lra | | | |].
  - fold media.
    destruct A2 as [A2|A2], B2 as [B2|B2].
    + left. unfold media. rewrite A2, B2. field. lra.
    + right. apply Qle_trans with ((1 # 1000000) / 2000000000); [vm_compute; discriminate|].
      unfold media. apply Qle_shift_div_l; [lra|].
      apply Qle_trans with ((1 # 1000000) / 2000000000 * 2000000000);
        [apply Qmult_le_compat_nonneg; try lra; discriminate|].
      setoid_replace ((1 # 1000000) / 2000000000 * 2000000000) with (1 # 1000000) by field.
      lra.
    + right. apply Qle_trans with ((1 # 1000000) / 2000000000); [vm_compute; discriminate|].
      unfold media. apply Qle_shift_div_l; [lra|].
      apply Qle_trans with ((1 # 1000000) / 2000000000 * 2000000000);
        [apply Qmult_le_compat_nonneg; try lra; discriminate|].
      setoid_replace ((1 # 1000000) / 2000000000 * 2000000000) with (1 # 1000000) by field.
      lra.
    + right. apply Qle_trans with ((1 # 1000000) / 2000000000); [vm_compute; discriminate|].
      unfold media. apply Qle_shift_div_l; [lra|].
      apply Qle_trans with ((1 # 1000000) / 2000000000 * 2000000000);
        [apply Qmult_le_compat_nonneg; try lra; discriminate|].
      setoid_replace ((1 # 1000000) / 2000000000 * 2000000000) with (1 # 1000000) by field.
      lra.
  - fold media. apply Qle_trans with 1000000000; [exact Hm1|vm_compute; discriminate].
  - apply (aprox_add 3); [lia|exact HA|exact HB| | | |].
    + destruct A2 as [A2|A2], B2 as [B2|B2].
      * left. lra.
      * right. apply Qle_trans with (1 # 1000000); [vm_compute; discriminate|lra].
      * right. apply Qle_trans with (1 # 1000000); [vm_compute; discriminate|lra].
      * right. apply Qle_trans with (1 # 1000000); [vm_compute; discriminate|lra].
    + apply Qle_trans with (1000000000 * 1000000000 + 1000000000 * 1000000000);
        [lra|vm_compute; discriminate].
    + apply (aprox_mul 1 1); [lia|exact A0|exact A1| | | |].
      * destruct A2 as [A2|A2]; [now left|right].
        apply Qle_trans with (1 # 1000000); [vm_compute; discriminate|exact A2].
      * apply Qle_trans with (1000000000 * 1000000000); [exact A3|vm_compute; discriminate].
      * apply aprox_of_int. lia.
      * now apply aprox_of_valor.
    + apply (aprox_mul 1 1); [lia|exact B0|exact B1| | | |].
      * destruct B2 as [B2|B2]; [now left|right].
        apply Qle_trans with (1 # 1000000); [vm_compute; discriminate|exact B2].
      * apply Qle_trans with (1000000000 * 1000000000); [exact B3|vm_compute; discriminate].
      * apply aprox_of_int. lia.
      * now apply aprox_of_valor.
  - apply aprox_of_int. lia.
Qed.

Lemma round_half_even_nonneg (t : Q) : 0 <= t -> (0 <= Amount.round_half_even t)%Z.
Proof.
  intros Ht. unfold Amount.round_half_even.
  assert (Hf : (0 <= Qfloor t)%Z).
  { change 0%Z with (Qfloor 0). now apply Qfloor_resp_le. }
  destruct (Qcompare _ _); [destruct (Z.even _)|..]; lia.
Qed.

(** The integer within less than a half of [t] is its rounding. *)
Lemma round_half_even_unique (t : Q) (m : Z) :
  Qabs (t - inject_Z m) < 1 # 2 -> Amount.round_half_even t = m.
Proof.
  intros H. pose proof (round_half_even_near t) as Hn.
  set (r := Amount.round_half_even t) in *.
  assert (H1 : - (1 # 2) < t - inject_Z m /\ t - inject_Z m < 1 # 2).
  { split.
    - destruct (Qlt_le_dec (- (1 # 2)) (t - inject_Z m)) as [Hl|Hl]; [exact Hl|].
      exfalso. rewrite Qabs_neg in H by lra. lra.
    - eapply Qle_lt_trans; [apply Qle_Qabs|exact H]. }
  assert (Hlt : inject_Z (r - m) < inject_Z 1).
  { unfold Zminus. rewrite inject_Z_plus, inject_Z_opp. change (inject_Z 1) with 1. lra. }
  assert (Hgt : inject_Z (-1) < inject_Z (r - m)).
  { unfold Zminus. rewrite inject_Z_plus, inject_Z_opp. change (inject_Z (-1)) with (-1). lra. }
  rewrite <- Zlt_Qlt in Hlt, Hgt. lia.
Qed.

(** Six roundings of an amount up to a billion change it by less than a
    millionth. *)
Lemma near_abs (x y : Q) :
  0 <= x <= 1000000000 -> near 6 x y -> Qabs (y - x) <= 1 # 1000000.
Proof.
  intros [Hx0 Hx1] Hn. pose proof (near_nonneg _ _ _ Hx0 Hn) as Hy.
  destruct Hn as [A1 A2].
  assert (Ht : 1 - (7 # 10000000000000000) <= qpow teta 6) by (vm_compute; discriminate).
  assert (B1 : x * (1 - (7 # 10000000000000000)) <= y).
  { apply Qle_trans with (x * qpow teta 6); [|exact A1].
    rewrite !(Qmult_comm x). apply Qmult_le_compat_r; assumption. }
  assert (B2 : y * (1 - (7 # 10000000000000000)) <= x).
  { apply Qle_trans with (y * qpow teta 6); [|exact A2].
    rewrite !(Qmult_comm y). apply Qmult_le_compat_r; assumption. }
  apply Qabs_Qle_condition. split; lra.
Qed.

(** What [round(custo, 4)] stores for a cost computed within six roundings
    of the exact average [media]: the float of a number [n/10000] no further
    than 0.000051 from [media], and [media] itself when it has at most
    four decimals. *)
Lemma custo_arredondado (media : Q) (r : option Q) :
  0 <= media <= 1000000000 -> aprox 6 media r ->
  exists (n : Z) (c : Q),
    Float.round r 4 = Some c /\
    Float.of_Q (inject_Z n / 10000) = Some c /\
    Qabs (inject_Z n / 10000 - media) <= 51 # 1000000 /\
    (forall m : Z, media == inject_Z m / 10000 -> n = m).
Proof.
  intros Hm [y [-> Hn]].
  pose proof (near_abs media y Hm Hn) as Hab.
  pose proof (near_nonneg _ _ _ (proj1 Hm) Hn) as Hy.
  apply Qabs_Qle_condition in Hab.
  set (n := Amount.round_half_even (y * 10000)).
  pose proof (round_half_even_near (y * 10000)) as Hr. fold n in Hr.
  assert (Hn0 : (0 <= n)%Z).
  { apply round_half_even_nonneg. apply Qmult_le_0_compat; [exact Hy|discriminate]. }
  assert (HD : Float.round (Some y) 4 = Float.of_Q (inject_Z n / 10000)) by reflexivity.
  assert (Hap : aprox 1 (inject_Z n / 10000) (Float.of_Q (inject_Z n / 10000))).
  { assert (Hq0 : 0 <= inject_Z n).
    { change 0 with (inject_Z 0). rewrite <- Zle_Qle. exact Hn0. }
    apply aprox_of_Q; [lia| | | |apply near_refl].
    - apply Qle_shift_div_l; [reflexivity|lra].
    - destruct (Z.eq_dec n 0) as [E|E]; [left; rewrite E; reflexivity|right].
      apply Qle_trans with (1 # 10000); [vm_compute; discriminate|].
      apply Qle_shift_div_l; [reflexivity|].
      setoid_replace ((1 # 10000) * 10000) with 1 by reflexivity.
      change 1 with (inject_Z 1). rewrite <- Zle_Qle. lia.
    - apply Qle_trans with 1000000001; [|vm_compute; discriminate].
      apply Qle_shift_div_r; [reflexivity|]. lra. }
  destruct Hap as [c [Hc _]].
  exists n, c. split; [now rewrite HD|]. split; [exact Hc|]. split.
  - apply Qabs_Qle_condition. unfold Qdiv. change (/ 10000) with (1 # 10000). split; lra.
  - intros m Em. apply round_half_even_unique.
    rewrite Em in Hab. unfold Qdiv in Hab. change (/ 10000) with (1 # 10000) in Hab.
    apply Qabs_Qlt_condition. split; lra.
Qed.
End FloatFacts.

(** The product row read back after the receipt's [UPDATE]. *)
Lemma sql_dados_atuais_update (n : Z) (c : Q) (pid : Z) (d : DB) (r : option Z * option Q) :
  sql_dados_atuais pid d = Some r ->
  sql_dados_atuais pid (sql_update_estoque n c pid d) = Some (Some n, Some c).
Proof.
  unfold sql_dados_atuais, sql_update_estoque, set_Produtos, update_where.
  simpl tProdutos.
  induction (tProdutos d) as [|p rows IH]; simpl; [discriminate|].
  destruct (Produtos.produto_id p =? pid) eqn:E; simpl.
  - rewrite E. reflexivity.
  - rewrite E. exact IH.
Qed.

(** The database after a receipt on which no call fails, given the cost
    that [round(novo_custo_medio, 4)] yields. *)
Lemma registrar_compra_sem_falha (forn : Z) (sel : option string) (pid q : Z)
    (r0 : option Z) (r1 : option Q) (u c : Q) (emissao recebimento : DataValor)
    (nf : string) (a : App) :
  truthy sel = true ->
  escolha sel (opcoes_produtos (db a)) = Some pid ->
  sql_dados_atuais pid (db a) = Some (r0, r1) ->
  let e0 := match r0 with Some e => e | None => 0 end in
  let c0 := match r1 with Some x => x | None => 0%Q end in
  Float.round (novo_custo_medio e0 c0 q u) 4 = Some c ->
  db (registrar_compra (Some forn) sel q u emissao recebimento nf no_faults a) =
  sql_update_estoque (e0 + q) c pid
    (sql_insert_entrada (Entradas.mk pid forn recebimento emissao q u nf) (db a)).
Proof.
  intros Ht He Hd e0 c0 Hc. unfold registrar_compra. rewrite Ht, He.
  unfold run_transaction, registrar_compra_tx, tx_bind, cursor_query.
  cbn [no_faults cur_db cur_calls]. rewrite Hd.
  unfold cursor_execute, conn_commit, tx_ret. cbn [no_faults cur_db cur_calls db].
  fold e0 c0. rewrite Hc. reflexivity.
Qed.

(** The specification's wording does not hold of the code: the cost stored is
    not always the weighted average rounded to 4 decimals.  With 3 units at
    45.90 in stock and 5 received at 47.25 the average is 46.74375, which
    rounds to 46.7438; the handler computes the average in floats, gets a
    value just below 46.74375, and stores 46.7437. *)
Lemma C5_counterexample :
  ~ (forall (forn : Z) (sel : option string) (pid q0 q : Z) (c0 u : Q)
            (emissao recebimento : DataValor) (nf : string) (a : App),
        truthy sel = true ->
        escolha sel (opcoes_produtos (db a)) = Some pid ->
        sql_dados_atuais pid (db a) = Some (Some q0, Some c0) ->
        0 <= q0 -> 0 < q -> (0 <= u)%Q ->
        let media := ((inject_Z q0 * c0 + inject_Z q * u) / inject_Z (q0 + q))%Q in
        sql_dados_atuais pid
          (db (registrar_compra (Some forn) sel q u emissao recebimento nf no_faults a))
        = Some (Some (q0 + q), Float.of_Q (Amount.round media 4))).
Proof.
  intros H.
  specialize (H 1 (Some "Pastilha"%string) 1 3 5 (459 # 10)%Q (4725 # 100)%Q
                Loja.hoje Loja.hoje "NF-1"%string
                (Loja.sessao (mkDB [Loja.pastilha 3 (459 # 10)] [] [] [] [] []))
                eq_refl eq_refl eq_refl).
  assert (H' := H ltac:(lia) ltac:(lia) ltac:(discriminate)). clear H.
  vm_compute in H'. discriminate H'.
Qed.

(** C5, as the code has it.  A receipt of [q > 0] units at unit cost [u] on
    a product found with stock [q0 >= 0] and cost [c0], quantities up to a
    billion and costs zero or between a millionth and a billion, when no call
    fails: the receipt is appended to the purchase history and the product
    is read back with stock [q0 + q] and with a cost that is the float of a
    number [n/10000] of 4 decimals, no further than 0.000051 from the exact
    average [(q0*c0 + q*u) / (q0 + q)] (half a unit of the fourth decimal for
    [round], a millionth for the float arithmetic before it).  When the
    exact average has at most 4 decimals, [n/10000] is that average: so it is
    the receipt's unit cost when [q0 = 0] and that cost has at most 4
    decimals. *)
Theorem C5_custo_medio_ponderado (forn : Z) (sel : option string) (pid q0 q : Z) (c0 u : Q)
    (emissao recebimento : DataValor) (nf : string) (a : App) :
  truthy sel = true ->
  escolha sel (opcoes_produtos (db a)) = Some pid ->
  sql_dados_atuais pid (db a) = Some (Some q0, Some c0) ->
  0 <= q0 <= 1000000000 -> 0 < q <= 1000000000 ->
  valor_comum c0 -> valor_comum u ->
  let a' := registrar_compra (Some forn) sel q u emissao recebimento nf no_faults a in
  let media := ((inject_Z q0 * c0 + inject_Z q * u) / inject_Z (q0 + q))%Q in
  exists (n : Z) (c : Q),
    sql_dados_atuais pid (db a') = Some (Some (q0 + q), Some c) /\
    Float.of_Q (inject_Z n / 10000) = Some c /\
    (Qabs (inject_Z n / 10000 - media) <= 51 # 1000000)%Q /\
    (forall m : Z, (media == inject_Z m / 10000)%Q -> n = m) /\
    (q0 = 0 -> (media == u)%Q) /\
    tEntradas (db a') = tEntradas (db a) ++ [Entradas.mk pid forn recebimento emissao q u nf].
Proof.
  intros Ht He Hd Hq0 Hq Hc Hu a' media.
  destruct (novo_custo_medio_aprox q0 q c0 u Hq0 ltac:(lia) Hc Hu) as [Hm Hap].
  fold media in Hm, Hap.
  destruct (custo_arredondado media _ Hm Hap) as [n [c [Hr [Hn [Hab Hex]]]]].
  exists n, c.
  assert (Hrun : db a' =
                 sql_update_estoque (q0 + q) c pid
                   (sql_insert_entrada (Entradas.mk pid forn recebimento emissao q u nf)
                      (db a))).
  { apply (registrar_compra_sem_falha forn sel pid q (Some q0) (Some c0) u c); assumption. }
  rewrite Hrun. split; [|split; [|split; [|split; [|split]]]].
  - eapply sql_dados_atuais_update. exact Hd.
  - exact Hn.
  - exact Hab.
  - exact Hex.
  - intros ->. unfold media. simpl Z.add.
    assert (Hne : ~ (inject_Z q == 0)%Q) by (unfold Qeq; simpl; lia).
    change (inject_Z 0) with 0%Q. field. exact Hne.
  - reflexivity.
Qed.

(** The receipt of the specification's example: 10 units at 5.00 on 10 units
    at 4.00 give 20 units at the float of 4.5000. *)
Lemma C5_witness :
  let a := Loja.sessao (mkDB [Loja.pastilha 10 4] [] [] [] [] []) in
  let a' := registrar_compra (Some 1) (Some "Pastilha"%string) 10 5 Loja.hoje Loja.hoje
              "NF-1"%string no_faults a in
  sql_dados_atuais 1 (db a) = Some (Some 10, Some 4%Q) /\
  valor_comum 4 /\ valor_comum 5 /\
  exists c, sql_dados_atuais 1 (db a') = Some (Some (10 + 10), Some c) /\
            Float.of_Q (inject_Z 45000 / 10000) = Some c.
Proof.
  assert (H4 : valor_comum 4) by (split; [right|]; discriminate).
  assert (H5 : valor_comum 5) by (split; [right|]; discriminate).
  split; [reflexivity|]. split; [exact H4|]. split; [exact H5|].
  destruct (C5_custo_medio_ponderado 1 (Some "Pastilha"%string) 1 10 10 4 5 Loja.hoje
              Loja.hoje "NF-1"%string
              (Loja.sessao (mkDB [Loja.pastilha 10 4] [] [] [] [] []))
              eq_refl eq_refl eq_refl ltac:(lia) ltac:(lia) H4 H5)
    as [n [c [H1 [H2 [_ [H3 _]]]]]].
  exists c. split; [exact H1|].
  rewrite <- (H3 45000 ltac:(reflexivity)). exact H2.
Defined.

(** Receipts as Python computes them: the two examples of the
    specification; two averages that fall on a tie of the fourth decimal,
    which the float computation misses from below and from above; a cost
    that overflows. *)
Example custo_medio_exemplos :
  Float.round (novo_custo_medio 0 0 10 5) 4 = Float.of_Q 5 /\
  Float.round (novo_custo_medio 10 4 10 5) 4 = Float.of_Q (45 # 10) /\
  Float.round (novo_custo_medio 3 (459 # 10) 5 (4725 # 100)) 4 = Float.of_Q (467437 # 10000) /\
  Float.round (novo_custo_medio 1 0 7 (7 # 100)) 4 = Float.of_Q (613 # 10000) /\
  Float.round (novo_custo_medio 2 (Float.pow2 1023) 3 (Float.pow2 1023)) 4 = None.
Proof. vm_compute. repeat split. Qed.

(* ------------------------------------------------------------------ *)
(** ** C4: completing and cancelling pending orders                    *)
(* ------------------------------------------------------------------ *)

(** The status read back after the bulk [UPDATE]: the statement looks at the
    id only, never at the current status. *)
Lemma status_de_update (s : StatusPedido) (ids : list Z) (pid : Z) (d : DB) :
  status_de pid (sql_update_status s ids d) =
  if existsb (Z.eqb pid) ids then option_map (fun _ => s) (status_de pid d)
  else status_de pid d.
Proof.
  unfold status_de, sql_update_status, set_Pedidos, update_where. simpl tPedidos.
  induction (tPedidos d) as [|p rows IH]; simpl.
  - destruct (existsb (Z.eqb pid) ids); reflexivity.
  - destruct (existsb (Z.eqb (Pedidos.pedido_id p)) ids) eqn:Ep; simpl;
      destruct (Pedidos.pedido_id p =? pid) eqn:E; try exact IH;
      apply Z.eqb_eq in E; rewrite <- E, Ep; reflexivity.
Qed.

Lemma existsb_eqb_In (pid : Z) (ids : list Z) :
  existsb (Z.eqb pid) ids = true <-> In pid ids.
Proof.
  rewrite existsb_exists. split.
  - intros [x [Hx E]]. apply Z.eqb_eq in E. now subst.
  - intros H. exists pid. split; [exact H|apply Z.eqb_refl].
Qed.

(** With unique order ids, an id the multiselect offers is the id of an
    order that is 'Pendente'. *)
Lemma opcoes_pendentes_status (pid : Z) (d : DB) :
  NoDup (map Pedidos.pedido_id (tPedidos d)) ->
  In pid (opcoes_pendentes d) -> status_de pid d = Some Pendente.
Proof.
  unfold opcoes_pendentes, status_de.
  induction (tPedidos d) as [|p rows IH]; simpl; intros Hnd Hin; [contradiction|].
  inversion Hnd as [|x l Hnot Hnd']; subst.
  destruct (Pedidos.pedido_id p =? pid) eqn:E.
  - apply Z.eqb_eq in E.
    destruct (Pedidos.status_pedido p) eqn:Es; simpl in Hin; try reflexivity.
    + exfalso. apply Hnot. rewrite E.
      apply in_map_iff in Hin. destruct Hin as [p' [Hid Hp']].
      apply filter_In in Hp'. apply in_map_iff. exists p'. split; [exact Hid|apply Hp'].
    + exfalso. apply Hnot. rewrite E.
      apply in_map_iff in Hin. destruct Hin as [p' [Hid Hp']].
      apply filter_In in Hp'. apply in_map_iff. exists p'. split; [exact Hid|apply Hp'].
  - apply IH; [exact Hnd'|].
    destruct (StatusPedido_eqb (Pedidos.status_pedido p) Pendente); [|exact Hin].
    simpl in Hin. destruct Hin as [Hin|Hin]; [|exact Hin].
    apply Z.eqb_neq in E. contradiction.
Qed.

(** Printing coupons reads only. *)
Lemma imprimir_cupons_db (pids : list Z) (n : nat) (falhas : nat -> bool) (a : App) :
  db (snd (imprimir_cupons pids n falhas a)) = db a.
Proof.
  revert n a. induction pids as [|pid r IH]; intros n a; simpl; [reflexivity|].
  pose proof (cupom_state pid (falhas n) (falhas (S n)) a) as Hs.
  destruct (cupom pid (falhas n) (falhas (S n)) a) as [[c|] a1]; simpl in Hs; subst a1.
  - specialize (IH (S (S n)) (mkApp (db a) true (vendas a))).
    destruct (imprimir_cupons r (S (S n)) falhas (mkApp (db a) true (vendas a)))
      as [[cs|] a2]; simpl in *; exact IH.
  - reflexivity.
Qed.

Lemma marcar_concluido_db (sel : list Z) (imprimir : bool) (falhas : nat -> bool) (a : App) :
  sel <> [] -> falhas 0%nat = false ->
  db (marcar_concluido sel imprimir falhas a) = sql_update_status Concluido sel (db a).
Proof.
  intros Hne Hf. unfold marcar_concluido. destruct sel as [|x r]; [contradiction|].
  pose proof (execute_query_db (UpdateStatus Concluido (x :: r)) false (falhas 0%nat) a) as Hd.
  destruct (execute_query (UpdateStatus Concluido (x :: r)) false (falhas 0%nat) a)
    as [res a1]. simpl snd in Hd. rewrite Hf in Hd. simpl in Hd.
  destruct imprimir; [|exact Hd].
  pose proof (imprimir_cupons_db (x :: r) 1 falhas a1) as Hc.
  destruct (imprimir_cupons (x :: r) 1 falhas a1) as [[cs|] a2]; simpl snd in Hc;
    simpl; rewrite Hc; exact Hd.
Qed.

Lemma marcar_cancelado_db (sel : list Z) (falhas : nat -> bool) (a : App) :
  sel <> [] -> falhas 0%nat = false ->
  db (marcar_cancelado sel falhas a) = sql_update_status Cancelado sel (db a).
Proof.
  intros Hne Hf. unfold marcar_cancelado. destruct sel as [|x r]; [contradiction|].
  pose proof (execute_query_db (UpdateStatus Cancelado (x :: r)) false (falhas 0%nat) a) as Hd.
  destruct (execute_query (UpdateStatus Cancelado (x :: r)) false (falhas 0%nat) a)
    as [res a1]. simpl snd in Hd. rewrite Hf in Hd. simpl in Hd. exact Hd.
Qed.



(* ------------------------------------------------------------------ *)
(** ** C7: product writes and the connection cache                     *)
(* ------------------------------------------------------------------ *)

(** The program caches one thing, the connection of
    [get_db_connection_cached]; a catalog read is a query, every time, and
    shows the database as it is. *)
Lemma fetch_all_Produtos_fresh (a : App) :
  fst (fetch_all_Produtos false a) = tProdutos (db a) /\
  db (snd (fetch_all_Produtos false a)) = db a.
Proof.
  unfold fetch_all_Produtos.
  rewrite (execute_query_read SelectAllProdutos) by reflexivity. split; reflexivity.
Qed.

(** The handlers that do clear the cache: a committed order, a committed
    return, and the two status buttons. *)
Lemma registrar_pedido_limpa_cache (cs fp : option string) (data : DataValor) (novo_id : Z)
    (fl : Faults) (a : App) (pid : Z) :
  vendas a <> [] ->
  snd (run_transaction (registrar_pedido_tx cs fp data novo_id a) fl (db a)) = Some pid ->
  conn_cached (registrar_pedido cs fp data novo_id fl a) = false.
Proof.
  intros Hne H. unfold registrar_pedido. destruct (vendas a); [contradiction|].
  destruct (run_transaction _ fl (db a)) as [d' [x|]]; [reflexivity|discriminate].
Qed.

Lemma registrar_compra_cache (forn : option Z) (sel : option string) (q : Z) (u : Q)
    (emissao recebimento : DataValor) (nf : string) (fl : Faults) (a : App) :
  conn_cached (registrar_compra forn sel q u emissao recebimento nf fl a) = conn_cached a.
Proof.
  unfold registrar_compra. destruct forn; [|reflexivity].
  destruct (truthy sel); [|reflexivity].
  destruct (escolha sel (opcoes_produtos (db a))); [|reflexivity].
  destruct (run_transaction _ fl (db a)). reflexivity.
Qed.

(** C7.  Three of the product writes leave the connection cache as it is.
    "Salvar Produto" inserts the product and "Atualizar Preços" updates it
    through [execute_query], whose clearing of the cache is guarded by
    [sql.strip().upper().startswith("INSERT INTO Produtos")], false for every
    text; "Registrar Compra" commits on its own connection and has no
    clearing at all.  After each of them the cache is still populated. *)
Theorem C7_escritas_de_produto_nao_limpam_cache :
  (forall (r : Produtos.row) (a : App),
      tProdutos (db (salvar_produto r false a)) = tProdutos (db a) ++ [r] /\
      conn_cached (salvar_produto r false a) = true) /\
  (forall (custo venda : Q) (prod_id : Z) (a : App),
      db (atualizar_precos custo venda prod_id false a)
      = sql_update_precos custo venda prod_id (db a) /\
      conn_cached (atualizar_precos custo venda prod_id false a) = true) /\
  (forall (forn : option Z) (sel : option string) (q : Z) (u : Q)
          (emissao recebimento : DataValor) (nf : string) (fl : Faults) (a : App),
      conn_cached (registrar_compra forn sel q u emissao recebimento nf fl a)
      = conn_cached a) /\
  (let a' := salvar_produto (Loja.oleo 3) false (Loja.sessao Loja.inicio) in
   conn_cached (Loja.sessao Loja.inicio) = true /\
   List.length (tProdutos (db a')) = 3%nat /\
   conn_cached a' = true) /\
  (let a' := registrar_compra (Some 1) (Some "Pastilha"%string) 10 5 Loja.hoje Loja.hoje
               "NF-1"%string no_faults (Loja.sessao Loja.inicio) in
   estoque_de 1 (db a') = Some 15 /\ conn_cached a' = true).
Proof.
  split; [|split; [|split; [|split]]].
  - intros r a. unfold salvar_produto. split.
    + rewrite execute_query_db. reflexivity.
    + apply execute_query_keeps_cache.
  - intros custo venda prod_id a. unfold atualizar_precos. split.
    + rewrite execute_query_db. reflexivity.
    + apply execute_query_keeps_cache.
  - intros. apply registrar_compra_cache.
  - repeat split.
  - repeat split.
Qed.

(* ================================================================== *)
(** * Further properties of the code                                   *)
(* ================================================================== *)

(* ------------------------------------------------------------------ *)
(** ** [execute_query] on any text                                     *)
(* ------------------------------------------------------------------ *)

Section TextFacts.
Import PyStr.
Local Open Scope string_scope.

Lemma rev_onto_acc (s acc : string) : rev_onto s acc = rev s ++ acc.
Proof.
  revert acc. induction s as [|c r IH]; intros acc; [reflexivity|].
  unfold rev. simpl. rewrite (IH (String c acc)), (IH (String c EmptyString)).
  rewrite str_app_assoc. reflexivity.
Qed.

Lemma rev_cons (c : ascii) (r : string) : rev (String c r) = rev r ++ String c EmptyString.
Proof. unfold rev at 1. simpl. apply rev_onto_acc. Qed.

Lemma rev_snoc (y : string) (c : ascii) : rev (y ++ String c EmptyString) = String c (rev y).
Proof. unfold rev. rewrite rev_onto_app. reflexivity. Qed.

Lemma lstrip_snoc (x : string) (c : ascii) :
  isspace c = false ->
  lstrip (x ++ String c EmptyString) = lstrip x ++ String c EmptyString.
Proof.
  intros Hc. induction x as [|a x IH]; simpl.
  - rewrite Hc. reflexivity.
  - destruct (isspace a); [exact IH|reflexivity].
Qed.

(** [strip] keeps the first character of a text that does not start with
    white space. *)
Lemma strip_first (c : ascii) (r : string) :
  isspace c = false -> exists r', strip (String c r) = String c r'.
Proof.
  intros Hc. unfold strip. simpl lstrip. rewrite Hc.
  unfold rstrip. rewrite rev_cons, lstrip_snoc by exact Hc.
  rewrite rev_snoc. eexists. reflexivity.
Qed.

Lemma lstrip_spaces (ws s : string) :
  all_chars isspace ws = true -> lstrip (ws ++ s) = lstrip s.
Proof.
  induction ws as [|a ws IH]; simpl; [reflexivity|].
  intros H. apply andb_true_iff in H. destruct H as [Ha Hws].
  rewrite Ha. now apply IH.
Qed.

Lemma isspace_upper_char (c : ascii) : isspace (upper_char c) = isspace c.
Proof. destruct c as [[] [] [] [] [] [] [] []]; reflexivity. Qed.

Lemma upper_char_idem (c : ascii) : upper_char (upper_char c) = upper_char c.
Proof. destruct c as [[] [] [] [] [] [] [] []]; reflexivity. Qed.

Lemma upper_idem (s : string) : upper (upper s) = upper s.
Proof. induction s as [|c r IH]; simpl; [reflexivity|]. now rewrite upper_char_idem, IH. Qed.

Lemma upper_app (s t : string) : upper (s ++ t) = upper s ++ upper t.
Proof. induction s as [|c r IH]; simpl; [reflexivity|]. now rewrite IH. Qed.

Lemma upper_rev (s : string) : upper (rev s) = rev (upper s).
Proof.
  induction s as [|c r IH]; [reflexivity|].
  simpl upper. rewrite !rev_cons, upper_app, IH. reflexivity.
Qed.

Lemma upper_lstrip (s : string) : upper (lstrip s) = lstrip (upper s).
Proof.
  induction s as [|c r IH]; simpl; [reflexivity|].
  rewrite isspace_upper_char. destruct (isspace c); [exact IH|reflexivity].
Qed.

Lemma upper_strip (s : string) : upper (strip s) = strip (upper s).
Proof.
  unfold strip, rstrip.
  rewrite upper_rev, upper_lstrip, upper_rev, upper_lstrip. reflexivity.
Qed.

End TextFacts.

(** X1.  The write test sees a text through [upper] only: it reads the first
    word after the leading white space, whatever the case of its letters. *)
Theorem is_write_text_case_and_space (s t ws : string) :
  (PyStr.upper s = PyStr.upper t -> is_write_text s = is_write_text t) /\
  (all_chars PyStr.isspace ws = true -> is_write_text (ws ++ s) = is_write_text s).
Proof.
  unfold is_write_text. split.
  - intros E. rewrite !upper_strip, E. reflexivity.
  - intros H. unfold PyStr.strip. rewrite lstrip_spaces by exact H. reflexivity.
Qed.

Lemma is_write_text_witness :
  PyStr.upper "insert into Clientes (nome) values (%s)"
  = PyStr.upper "INSERT INTO Clientes (nome) VALUES (%s)" /\
  all_chars PyStr.isspace "  " = true /\
  is_write_text ("  " ++ "insert into Clientes (nome) values (%s)")
  = is_write_text "INSERT INTO Clientes (nome) VALUES (%s)".
Proof.
  split; [reflexivity|]. split; [reflexivity|].
  destruct (is_write_text_case_and_space
              "insert into Clientes (nome) values (%s)"
              "INSERT INTO Clientes (nome) VALUES (%s)" "  ") as [H1 H2].
  rewrite (H2 eq_refl). exact (H1 eq_refl).
Defined.

(** A text whose first character is neither white space nor, in upper case,
    one of I, U and D is not a write. *)
Lemma is_write_text_first (c : ascii) (r : string) :
  PyStr.isspace c = false ->
  Ascii.eqb "I" (PyStr.upper_char c) = false ->
  Ascii.eqb "U" (PyStr.upper_char c) = false ->
  Ascii.eqb "D" (PyStr.upper_char c) = false ->
  is_write_text (String c r) = false.
Proof.
  intros Hc HI HU HD. unfold is_write_text.
  destruct (strip_first c r Hc) as [r' ->].
  unfold PyStr.startswith_any. cbn [PyStr.upper PyStr.startswith existsb].
  rewrite HI, HU, HD. reflexivity.
Qed.

(** [execute_query] on a statement of the handlers is [execute_query_texto]
    on its text, effect and rows. *)
Lemma execute_query_refina (q : Sql) (fetch falha : bool) (a : App) :
  let r := execute_query q fetch falha a in
  let r' := execute_query_texto (sql_text q) (sql_effect q) (sql_rows q) fetch falha
              (db a, conn_cached a) in
  match fst r, fst r' with
  | QTrue, RTrue | QNone, RNone => True
  | QRows x, RRows y => x = y
  | _, _ => False
  end /\
  db (snd r) = fst (snd r') /\ conn_cached (snd r) = snd (snd r') /\
  vendas (snd r) = vendas a.
Proof.
  unfold execute_query, execute_query_texto. cbv zeta.
  destruct falha; [repeat split|].
  cbn [fst snd db conn_cached vendas].
  destruct (PyStr.startswith_any _ _).
  - destruct (PyStr.startswith _ _); repeat split.
  - destruct fetch; repeat split.
Qed.

Lemma join_sep_first (sep x : string) (r : list string) :
  exists t, join_sep sep (x :: r) = (x ++ t)%string.
Proof.
  destruct r as [|y r]; simpl.
  - exists EmptyString. clear. induction x as [|c x IH]; simpl; [reflexivity|now rewrite <- IH].
  - eexists. reflexivity.
Qed.

(** Every text of [fetch_data_for_display] starts with the letter S. *)
Lemma sql_fetch_data_for_display_head (table_name : string) (columns : list string)
    (join_info : option (list (string * string))) (condition : option string) :
  exists r, sql_fetch_data_for_display table_name columns join_info condition
            = String "S" r.
Proof.
  unfold sql_fetch_data_for_display. cbv zeta.
  set (sql0 := ("SELECT " ++ join_sep ", " columns ++ " FROM " ++ table_name)%string).
  assert (H0 : exists r, sql0 = String "S" r) by (eexists; reflexivity).
  assert (Hj : forall js sql, (exists r, sql = String "S" r) ->
               exists r, fold_left
                           (fun sql join =>
                              (sql ++ " LEFT JOIN " ++ fst join ++ " ON " ++ snd join)%string)
                           js sql = String "S" r).
  { induction js as [|j js IH]; intros sql H; [exact H|].
    simpl. apply IH. destruct H as [r ->]. eexists. reflexivity. }
  assert (H1 : exists r,
             match join_info with
             | Some (j :: js) =>
                 fold_left
                   (fun sql join =>
                      (sql ++ " LEFT JOIN " ++ fst join ++ " ON " ++ snd join)%string)
                   (j :: js) sql0
             | _ => sql0
             end = String "S" r).
  { destruct join_info as [[|j js]|]; try exact H0. apply Hj. exact H0. }
  destruct H1 as [r ->].
  destruct condition as [[|c k]|]; eexists; reflexivity.
Qed.

(** X3.  The generic readers never commit.  Whatever table name, columns,
    joins and condition they are given, the text that [fetch_all] and
    [fetch_data_for_display] pass to [execute_query] begins with [SELECT]:
    the test that guards [conn.commit()] is false for it. *)
Theorem leitores_nao_escrevem (table_name : string) (columns : list string)
    (join_info : option (list (string * string))) (condition : option string) :
  is_write_text (sql_fetch_all table_name) = false /\
  is_write_text (sql_fetch_data_for_display table_name columns join_info condition) = false.
Proof.
  split.
  - unfold sql_fetch_all. apply (is_write_text_first "S"); reflexivity.
  - destruct (sql_fetch_data_for_display_head table_name columns join_info condition)
      as [r ->].
    apply (is_write_text_first "S"); reflexivity.
Qed.

(** The text of the purchase-history query. *)
Example sql_historico_entradas_texto :
  sql_historico_entradas =
  ("SELECT F.nome_fantasia AS Fornecedor, P.descricao AS Produto, E.emissao, " ++
   "E.data_recebimento, E.quantidade_comprada, E.valor_unitario_compra, " ++
   "E.numero_nota_fiscal FROM Entradas E " ++
   "LEFT JOIN Produtos P ON E.produto_id = P.produto_id " ++
   "LEFT JOIN Fornecedores F ON E.fornecedor_id = F.fornecedor_id")%string.
Proof. reflexivity. Qed.

(* ------------------------------------------------------------------ *)
(** ** The coupon: missing orders, missing products, column widths     *)
(* ------------------------------------------------------------------ *)

Lemma left_join_nil {A B C} (a : list A) (b : list B) (on : A -> B -> bool)
    (row : A -> option B -> C) :
  left_join a b on row = [] <-> a = [].
Proof.
  split; [|intros ->; reflexivity].
  destruct a as [|x a]; [reflexivity|].
  unfold left_join. simpl. destruct (filter (on x) b); simpl; discriminate.
Qed.

Lemma left_join_In {A B C} (a : list A) (b : list B) (on : A -> B -> bool)
    (row : A -> option B -> C) (l : C) :
  In l (left_join a b on row) <->
  exists x, In x a /\
            ((filter (on x) b = [] /\ l = row x None) \/
             (exists y, In y (filter (on x) b) /\ l = row x (Some y))).
Proof.
  unfold left_join. rewrite in_flat_map. split.
  - intros [x [Hx Hl]]. exists x. split; [exact Hx|].
    destruct (filter (on x) b) as [|y ys] eqn:E.
    + left. split; [reflexivity|]. destruct Hl as [<-|[]]. reflexivity.
    + right. apply in_map_iff in Hl. destruct Hl as [z [<- Hz]].
      exists z. split; [exact Hz|reflexivity].
  - intros [x [Hx [[E ->]|[y [Hy ->]]]]]; exists x; (split; [exact Hx|]).
    + rewrite E. left. reflexivity.
    + destruct (filter (on x) b) as [|z zs] eqn:E; [contradiction|].
      apply in_map_iff. exists y. split; [reflexivity|exact Hy].
Qed.




(** The details read when no read fails. *)
Lemma detalhes_sem_falha (pid : Z) (a : App) :
  fst (get_order_details_for_coupon pid false false a) =
  match sql_rows (SelectHeader pid) (db a) with
  | RowsHeader (h :: _) =>
      Some (mkDetails h match sql_rows (SelectItems pid) (db a) with
                        | RowsLinhas ls => Some ls
                        | _ => None
                        end)
  | _ => None
  end.
Proof.
  unfold get_order_details_for_coupon.
  rewrite (execute_query_select (SelectHeader pid)) by reflexivity.
  destruct (sql_rows (SelectHeader pid) (db a)) as [rs|rs|[|h rs]|rs]; reflexivity.
Qed.

Lemma coupon_items_ok (acc : string) (ls : list Linha.t) :
  (forall l, In l ls -> Linha.descricao l <> None) ->
  exists out, coupon_items acc ls = Some out.
Proof.
  revert acc. induction ls as [|l ls IH]; intros acc H; simpl.
  - eexists. reflexivity.
  - unfold coupon_item.
    destruct (Linha.descricao l) as [d|] eqn:E.
    + apply IH. intros x Hx. apply H. now right.
    + exfalso. apply (H l); [now left|exact E].
Qed.

Lemma coupon_items_fail (acc : string) (ls : list Linha.t) (l : Linha.t) :
  In l ls -> Linha.descricao l = None -> coupon_items acc ls = None.
Proof.
  revert acc. induction ls as [|x ls IH]; intros acc Hin E; [contradiction|].
  simpl. unfold coupon_item.
  destruct Hin as [->|Hin].
  - rewrite E. reflexivity.
  - destruct (Linha.descricao x); [|reflexivity]. now apply IH.
Qed.

(** X5.  The coupon of an existing order is produced exactly when every line of
    the order refers to a product of the catalog: a line whose product is
    missing has no description, and slicing it raises. *)
Theorem cupom_emitido (pid : Z) (a : App) :
  existe_pedido pid (db a) ->
  ((exists doc, fst (cupom pid false false a) = Some doc) <->
   linhas_com_produto pid (db a)).
Proof.
  intros Hex.
  assert (Hval : fst (cupom pid false false a) =
                 match fst (get_order_details_for_coupon pid false false a) with
                 | Some d => generate_non_fiscal_coupon pid d
                 | None => None
                 end).
  { unfold cupom.
    destruct (get_order_details_for_coupon pid false false a) as [[d|] a']; reflexivity. }
  rewrite Hval, detalhes_sem_falha. cbn [sql_rows].
  set (vs := filter (fun v => Vendas.pedido_id v =? pid) (tVendas (db a))).
  set (on := fun (v : Vendas.row) (p : Produtos.row) =>
               Vendas.produto_id v =? Produtos.produto_id p).
  set (mk := fun (v : Vendas.row) (p : option Produtos.row) =>
               Linha.mk (Vendas.quantidade v) (Vendas.preco_unitario v) (Vendas.subtotal v)
                 (option_map Produtos.descricao p)).
  match goal with
  | |- context [left_join ?ps ?cs ?o ?m] =>
      destruct (left_join ps cs o m) as [|h hs] eqn:Ej
  end.
  { exfalso. apply left_join_nil in Ej.
    destruct Hex as [p [Hp E]].
    assert (Hin : In p (filter (fun p => Pedidos.pedido_id p =? pid) (tPedidos (db a))))
      by (apply filter_In; split; [exact Hp|now apply Z.eqb_eq]).
    rewrite Ej in Hin. contradiction. }
  unfold generate_non_fiscal_coupon. cbn [items header].
  split.
  - intros [doc Hdoc] v Hv Hpid.
    destruct (filter (on v) (tProdutos (db a))) as [|p ps] eqn:Ef.
    + exfalso.
      rewrite (coupon_items_fail _ _ (mk v None)) in Hdoc; [discriminate| |reflexivity].
      apply left_join_In. exists v. split.
      * unfold vs. apply filter_In. split; [exact Hv|now apply Z.eqb_eq].
      * left. split; [exact Ef|reflexivity].
    + assert (Hin : In p (filter (on v) (tProdutos (db a)))) by (rewrite Ef; now left).
      apply filter_In in Hin. destruct Hin as [Hp Hon]. unfold on in Hon.
      apply Z.eqb_eq in Hon. exists p. split; [exact Hp|now symmetry].
  - intros Hall.
    destruct (coupon_items_ok (coupon_head h) (left_join vs (tProdutos (db a)) on mk))
      as [out Hout].
    + intros l Hl. apply left_join_In in Hl. destruct Hl as [v [Hv Hrow]].
      unfold vs in Hv. apply filter_In in Hv. destruct Hv as [Hv Hpid].
      apply Z.eqb_eq in Hpid.
      destruct Hrow as [[Ef ->]|[y [_ ->]]]; [|discriminate].
      exfalso. destruct (Hall v Hv Hpid) as [p [Hp E]].
      assert (Hin : In p (filter (on v) (tProdutos (db a)))).
      { apply filter_In. split; [exact Hp|]. unfold on. apply Z.eqb_eq. now symmetry. }
      rewrite Ef in Hin. contradiction.
    + rewrite Hout. eexists. reflexivity.
Qed.

Lemma cupom_emitido_witness :
  existe_pedido 7 Loja.vendido5 /\
  linhas_com_produto 7 Loja.vendido5 /\
  exists doc, fst (cupom 7 false false (Loja.sessao Loja.vendido5)) = Some doc.
Proof.
  assert (H : existe_pedido 7 Loja.vendido5).
  { eexists. split; [left; reflexivity|reflexivity]. }
  assert (L : linhas_com_produto 7 Loja.vendido5).
  { intros v [<-|[]] _. eexists. split; [left; reflexivity|reflexivity]. }
  split; [exact H|]. split; [exact L|].
  apply (proj2 (cupom_emitido 7 (Loja.sessao Loja.vendido5) H)). exact L.
Defined.

Section Widths.
Import PyStr.
Local Open Scope string_scope.

Lemma len_app (s t : string) : len (s ++ t) = (len s + len t)%nat.
Proof.
  induction s as [|c s IH]; simpl; [reflexivity|].
  destruct (is_cont c); rewrite IH; reflexivity.
Qed.

Lemma len_repeat_char (n : nat) : len (repeat_char " "%char n) = n.
Proof. induction n as [|n IH]; simpl; [reflexivity|now rewrite IH]. Qed.

Lemma len_ljust (s : string) (w : nat) : len (ljust s w) = Nat.max (len s) w.
Proof. unfold ljust. rewrite len_app, len_repeat_char. lia. Qed.

Lemma len_rjust (s : string) (w : nat) : len (rjust s w) = Nat.max (len s) w.
Proof. unfold rjust. rewrite len_app, len_repeat_char. lia. Qed.

Lemma len_take (n : nat) (s : string) : len (take n s) = Nat.min n (len s).
Proof.
  revert n. induction s as [|c s IH]; intros n; simpl; [lia|].
  destruct (is_cont c) eqn:E; simpl.
  - rewrite E. apply IH.
  - destruct n as [|n]; simpl; [reflexivity|]. rewrite E, IH. reflexivity.
Qed.

(** [s[:n]] is the start of [s], and all of it when [s] has at most [n]
    characters. *)
Lemma take_prefix (n : nat) (s : string) : exists r, s = take n s ++ r.
Proof.
  revert n. induction s as [|c s IH]; intros n; simpl; [exists EmptyString; reflexivity|].
  destruct (is_cont c).
  - destruct (IH n) as [r Hr]. exists r. simpl. now rewrite <- Hr.
  - destruct n as [|n]; [eexists; reflexivity|].
    destruct (IH n) as [r Hr]. exists r. simpl. now rewrite <- Hr.
Qed.

Lemma take_all (n : nat) (s : string) : (len s <= n)%nat -> take n s = s.
Proof.
  revert n. induction s as [|c s IH]; intros n H; simpl in *; [reflexivity|].
  destruct (is_cont c).
  - now rewrite IH.
  - destruct n as [|n]; [lia|]. rewrite IH by lia. reflexivity.
Qed.

(** X6.  A coupon line has its columns at fixed places: the name column is
    exactly 15 characters wide (the first 15 characters of the description,
    accented or not, padded with spaces; a description of at most 15
    characters is kept whole), so what follows it is aligned whatever the
    description; the quantity, unit price and total are padded to at least
    3, 9 and 9 characters and never truncated. *)
Theorem coupon_item_colunas (item : Linha.t) (descricao : string) :
  Linha.descricao item = Some descricao ->
  let nome := ljust (take 15 descricao) 15 in
  let qtd := rjust (Amount.format_f 0 (Amount.of_int (Linha.quantidade item))) 3 in
  let unit := rjust (Amount.format_f 2 (Linha.preco_unitario item)) 9 in
  let total := rjust (Amount.format_f 2 (Linha.subtotal item)) 9 in
  coupon_item item =
  Some (coupon_item_abre ++ nome ++ " | " ++ qtd ++ " | " ++ unit ++ " | " ++ total ++
        coupon_item_fecha) /\
  len nome = 15%nat /\
  (exists resto, descricao = take 15 descricao ++ resto) /\
  (len descricao <= 15 -> exists pad, nome = descricao ++ pad)%nat /\
  (3 <= len qtd)%nat /\
  (9 <= len unit)%nat /\
  (9 <= len total)%nat /\
  (exists p, qtd = p ++ Amount.format_f 0 (Amount.of_int (Linha.quantidade item))) /\
  (exists p, unit = p ++ Amount.format_f 2 (Linha.preco_unitario item)) /\
  (exists p, total = p ++ Amount.format_f 2 (Linha.subtotal item)).
Proof.
  intros Hd nome qtd unit total.
  split; [unfold coupon_item; rewrite Hd; reflexivity|].
  split; [unfold nome; rewrite len_ljust, len_take; lia|].
  split; [apply take_prefix|].
  split.
  { intros Hlen. unfold nome, ljust. eexists. rewrite take_all by exact Hlen. reflexivity. }
  split; [unfold qtd; rewrite len_rjust; lia|].
  split; [unfold unit; rewrite len_rjust; lia|].
  split; [unfold total; rewrite len_rjust; lia|].
  repeat split; eexists; reflexivity.
Qed.

End Widths.

Lemma coupon_item_colunas_witness :
  coupon_item (Linha.mk 5 100 500 (Some "Jogo de relação e coroa"%string)) =
  Some (coupon_item_abre ++ "Jogo de relação" ++ " | " ++ "  5" ++ " | " ++ "   100.00" ++
        " | " ++ "   500.00" ++ coupon_item_fecha)%string /\
  PyStr.len (PyStr.ljust (PyStr.take 15 "Jogo de relação e coroa") 15) = 15%nat.
Proof.
  pose proof (coupon_item_colunas (Linha.mk 5 100 500 (Some "Jogo de relação e coroa"%string))
                "Jogo de relação e coroa" eq_refl) as H.
  cbv zeta in H. destruct H as [H1 [H2 _]]. split; [|exact H2].
  rewrite H1. reflexivity.
Defined.

(* ------------------------------------------------------------------ *)
(** ** From the cart to the coupon                                     *)
(* ------------------------------------------------------------------ *)

Lemma left_join_map {A B C D} (a : list A) (b : list B) (on : A -> B -> bool)
    (row : A -> option B -> C) (g : C -> D) (g' : A -> D) :
  (forall x o, g (row x o) = g' x) ->
  (forall x, In x a -> (List.length (filter (on x) b) <= 1)%nat) ->
  map g (left_join a b on row) = map g' a.
Proof.
  intros Hg Hone. unfold left_join.
  induction a as [|x a IH]; [reflexivity|].
  cbn [flat_map]. rewrite map_app, IH by (intros y Hy; apply Hone; now right).
  specialize (Hone x (or_introl eq_refl)).
  destruct (filter (on x) b) as [|y [|z ys]]; cbn [map app List.length] in *.
  - now rewrite Hg.
  - now rewrite Hg.
  - lia.
Qed.

Lemma filter_id_unico (k : Z) (ps : list Produtos.row) :
  NoDup (map Produtos.produto_id ps) ->
  (List.length (filter (fun p => (k =? Produtos.produto_id p)%Z) ps) <= 1)%nat.
Proof.
  induction ps as [|p ps IH]; intros Hnd; simpl; [lia|].
  inversion Hnd as [|x l Hnot Hnd']; subst.
  destruct (k =? Produtos.produto_id p) eqn:E; [|now apply IH].
  apply Z.eqb_eq in E. simpl.
  rewrite (filter_none (fun q => k =? Produtos.produto_id q) ps); [simpl; lia|].
  intros q Hq. apply Z.eqb_neq. intros Eq. apply Hnot.
  rewrite <- E, Eq. now apply in_map.
Qed.

(** The order statements rewrite the stock of the products and nothing else
    of them. *)
Lemma fold_efeito_ids (pedido_id : Z) (itens : list Item.t) (d : DB) :
  map Produtos.produto_id (tProdutos (fold_left (efeito_item pedido_id) itens d)) =
  map Produtos.produto_id (tProdutos d).
Proof.
  revert d. induction itens as [|i r IH]; intros d; [reflexivity|].
  simpl. rewrite IH. unfold efeito_item, sql_baixa_estoque, set_Produtos, update_where.
  simpl. rewrite map_map. apply map_ext. intros p.
  destruct (Produtos.produto_id p =? Item.produto_id i); reflexivity.
Qed.

(** X7.  Round trip from "Registrar Pedido" to the coupon.  When an order is
    committed under an id that no order and no line had, on a catalog
    without duplicate product ids, the details read for the coupon are the
    ones written: the header carries that id, the cart's total, the payment
    method and the date, and the lines are, up to the order in which the
    database returns them, the quantity, discounted unit price and subtotal
    of each cart item. *)
Theorem pedido_no_cupom (cs fp : option string) (data : DataValor) (novo_id : Z)
    (fl : Faults) (a a'' : App) (d' : DB) (pid : Z) :
  run_transaction (registrar_pedido_tx cs fp data novo_id a) fl (db a) = (d', Some pid) ->
  ~ existe_pedido pid (db a) ->
  (forall v, In v (tVendas (db a)) -> Vendas.pedido_id v <> pid) ->
  NoDup (map Produtos.produto_id (tProdutos (db a))) ->
  db a'' = d' ->
  exists h ls,
    fst (get_order_details_for_coupon pid false false a'') = Some (mkDetails h (Some ls)) /\
    Header.pedido_id h = pid /\
    Header.valor_total h = valor_total (vendas a) /\
    Header.forma_pagamento h = fp /\
    Header.data_pedido h = data /\
    Permutation
      (map (fun l => (Linha.quantidade l, Linha.preco_unitario l, Linha.subtotal l)) ls)
      (map (fun i => (Item.quantidade i, Item.preco_unit i, Item.subtotal i)) (vendas a)).
Proof.
  intros Hrun Hnovo Hlin Hnd Hdb.
  apply registrar_pedido_tx_commit in Hrun. destruct Hrun as [-> [cid [_ Hd']]].
  rewrite detalhes_sem_falha, Hdb. cbn [sql_rows].
  set (row := Pedidos.mk novo_id cid data (valor_total (vendas a)) Pendente fp) in *.
  assert (Hp : filter (fun p => Pedidos.pedido_id p =? novo_id) (tPedidos d') = [row]).
  { rewrite Hd', fold_efeito_pedidos. simpl. rewrite filter_app, filter_none.
    - simpl. rewrite Z.eqb_refl. reflexivity.
    - intros p Hin. apply Z.eqb_neq. intros E. apply Hnovo. exists p. split; assumption. }
  assert (Hv : filter (fun v => Vendas.pedido_id v =? novo_id) (tVendas d')
               = map (linha_venda novo_id) (vendas a)).
  { rewrite Hd', fold_efeito_vendas. simpl. rewrite filter_app, filter_none.
    - simpl. apply filter_all. intros v Hin. apply in_map_iff in Hin.
      destruct Hin as [i [<- _]]. simpl. apply Z.eqb_refl.
    - intros v Hin. apply Z.eqb_neq. now apply Hlin. }
  assert (Hnd' : NoDup (map Produtos.produto_id (tProdutos d'))).
  { rewrite Hd', fold_efeito_ids. exact Hnd. }
  rewrite Hp, Hv.
  set (on := fun (v : Vendas.row) (p : Produtos.row) =>
               Vendas.produto_id v =? Produtos.produto_id p).
  assert (Hone : forall v, In v (map (linha_venda novo_id) (vendas a)) ->
                           (List.length (filter (on v) (tProdutos d')) <= 1)%nat).
  { intros v _. apply filter_id_unico. exact Hnd'. }
  unfold left_join at 1. cbn [flat_map].
  destruct (filter (fun c => Pedidos.cliente_id row =? Clientes.cliente_id c)
              (tClientes d')) as [|c cs']; cbn [map app];
    (eexists; eexists; split; [reflexivity|];
     split; [reflexivity|]; split; [reflexivity|]; split; [reflexivity|];
     split; [reflexivity|]).
  all: match goal with
       | |- Permutation ?x ?y => assert (E : x = y); [|rewrite E; apply Permutation_refl]
       end.
  all: transitivity
         (map (fun v => (Vendas.quantidade v, Vendas.preco_unitario v, Vendas.subtotal v))
            (map (linha_venda novo_id) (vendas a)));
    [apply left_join_map; [intros; reflexivity|exact Hone]|rewrite map_map; reflexivity].
Qed.

Lemma pedido_no_cupom_witness :
  exists h ls,
    fst (get_order_details_for_coupon 1 false false (mkApp (fst pedido_exemplo) true []))
    = Some (mkDetails h (Some ls)) /\
    Header.pedido_id h = 1 /\
    Header.valor_total h = valor_total (vendas carrinho2) /\
    Header.forma_pagamento h = Some "Pix"%string /\
    Header.data_pedido h = Loja.hoje /\
    Permutation
      (map (fun l => (Linha.quantidade l, Linha.preco_unitario l, Linha.subtotal l)) ls)
      (map (fun i => (Item.quantidade i, Item.preco_unit i, Item.subtotal i))
         (vendas carrinho2)).
Proof.
  apply (pedido_no_cupom (Some "Ana"%string) (Some "Pix"%string) Loja.hoje 1 no_faults
           carrinho2 (mkApp (fst pedido_exemplo) true []) (fst pedido_exemplo) 1).
  - reflexivity.
  - intros [p [[] _]].
  - intros v [].
  - repeat constructor; simpl; intuition discriminate.
  - reflexivity.
Defined.

(* ------------------------------------------------------------------ *)
(** ** What an interaction does to the database                        *)
(* ------------------------------------------------------------------ *)

Lemma registrar_compra_efeito (forn : option Z) (sel : option string) (q : Z) (u : Q)
    (emissao recebimento : DataValor) (nf : string) (fl : Faults) (a : App) :
  efeito_db (db a) (db (registrar_compra forn sel q u emissao recebimento nf fl a)).
Proof.
  unfold registrar_compra. destruct forn as [f|]; [|apply e_nada].
  destruct (truthy sel); [|apply e_nada].
  destruct (escolha sel (opcoes_produtos (db a))) as [pid|]; [|apply e_nada].
  unfold run_transaction, registrar_compra_tx, tx_bind, cursor_query.
  cbn [cur_calls cur_db].
  destruct (fl 0%nat); [apply e_nada|].
  destruct (sql_dados_atuais pid (db a)) as [[r0 r1]|] eqn:Ed; [|apply e_nada].
  unfold cursor_execute, conn_commit, tx_ret. cbn [cur_calls cur_db].
  destruct (fl 1%nat); [apply e_nada|]. cbn [cur_calls cur_db].
  destruct (Float.round _ 4) as [c|]; [|apply e_nada]. cbn [cur_calls cur_db].
  destruct (fl 2%nat); [apply e_nada|]. cbn [cur_calls cur_db].
  destruct (fl 3%nat); [apply e_nada|].
  cbn [db fst]. apply (e_compra _ pid f q u _ r0 r1). exact Ed.
Qed.

Lemma registrar_pedido_efeito (cs fp : option string) (data : DataValor) (novo_id : Z)
    (fl : Faults) (a : App) :
  ~ existe_pedido novo_id (db a) ->
  efeito_db (db a) (db (registrar_pedido cs fp data novo_id fl a)).
Proof.
  intros Hnovo. unfold registrar_pedido.
  destruct (vendas a) as [|i r] eqn:Ev; [apply e_nada|]. rewrite <- Ev.
  destruct (run_transaction (registrar_pedido_tx cs fp data novo_id a) fl (db a))
    as [d' [pid|]] eqn:E.
  - apply registrar_pedido_tx_commit in E. destruct E as [_ [cid [_ ->]]].
    cbn [db]. now apply e_pedido.
  - pose proof (run_transaction_rollback
                  (registrar_pedido_tx cs fp data novo_id a) fl (db a)) as Hr.
    rewrite E in Hr. simpl in Hr. specialize (Hr eq_refl). subst d'.
    cbn [db]. apply e_nada.
Qed.

Lemma confirmar_devolucao_produtos (f : FormDevolucao) (fl : Faults) (a : App) :
  (forall n, (n < chamadas_devolucao f)%nat -> fl n = false) ->
  tProdutos (db (confirmar_devolucao f fl a)) =
  tProdutos (if f_retornar_estoque f
             then sql_retorno_estoque (f_qtd_devolver f)
                    (ItemPedido.produto_id (f_item_selecionado f)) (db a)
             else db a).
Proof.
  intros Hfl. unfold chamadas_devolucao in Hfl.
  unfold confirmar_devolucao, run_transaction, confirmar_devolucao_tx,
    tx_bind, cursor_execute, conn_commit, tx_ret.
  simpl cur_calls. rewrite (Hfl 0%nat) by (destruct (f_retornar_estoque f); lia).
  destruct (f_retornar_estoque f) eqn:Er; simpl cur_calls.
  - rewrite (Hfl 1%nat) by lia. simpl cur_calls. rewrite (Hfl 2%nat) by lia. reflexivity.
  - rewrite (Hfl 1%nat) by lia. reflexivity.
Qed.

Lemma devolucao_efeito (pid : Z) (nome : string) (qtd : Z) (estado : EstadoOpcao)
    (marcado : option bool) (motivo : string) (data : DataValor) (fl : Faults) (a a' : App) :
  devolucao pid nome qtd estado marcado motivo data fl a = Some a' ->
  efeito_db (db a) (db a').
Proof.
  unfold devolucao.
  destruct (form_devolucao pid nome qtd estado marcado motivo data (db a)) as [f|];
    [|discriminate].
  intros H. injection H as <-.
  destruct (confirmar_devolucao_casos f fl a) as [[Hok Hc]|[_ ->]]; [|apply e_nada].
  apply (e_devolucao _ f); [now apply confirmar_devolucao_produtos|exact Hc].
Qed.

Lemma marcar_concluido_efeito (sel : list Z) (imprimir : bool) (falhas : nat -> bool)
    (a : App) :
  incl sel (opcoes_pendentes (db a)) ->
  efeito_db (db a) (db (marcar_concluido sel imprimir falhas a)).
Proof.
  intros Hincl. unfold marcar_concluido. destruct sel as [|x r]; [apply e_nada|].
  pose proof (execute_query_db (UpdateStatus Concluido (x :: r)) false (falhas 0%nat) a) as Hd.
  destruct (execute_query (UpdateStatus Concluido (x :: r)) false (falhas 0%nat) a)
    as [res a1]. cbn [snd] in Hd.
  assert (He : efeito_db (db a) (db a1)).
  { rewrite Hd. destruct (falhas 0%nat); cbn; [apply e_nada|now apply e_status]. }
  destruct imprimir; [|exact He].
  pose proof (imprimir_cupons_db (x :: r) 1 falhas a1) as Hc.
  destruct (imprimir_cupons (x :: r) 1 falhas a1) as [[cs|] a2]; cbn [snd] in Hc;
    cbn [db]; rewrite Hc; exact He.
Qed.

Lemma marcar_cancelado_efeito (sel : list Z) (falhas : nat -> bool) (a : App) :
  incl sel (opcoes_pendentes (db a)) ->
  efeito_db (db a) (db (marcar_cancelado sel falhas a)).
Proof.
  intros Hincl. unfold marcar_cancelado. destruct sel as [|x r]; [apply e_nada|].
  pose proof (execute_query_db (UpdateStatus Cancelado (x :: r)) false (falhas 0%nat) a) as Hd.
  destruct (execute_query (UpdateStatus Cancelado (x :: r)) false (falhas 0%nat) a)
    as [res a1]. cbn [snd] in Hd. cbn [db]. rewrite Hd.
  destruct (falhas 0%nat); cbn; [apply e_nada|now apply e_status].
Qed.

Lemma form_produto_efeito (novo_id : Z) (codigo_sku descricao marca : string)
    (preco_custo preco_venda : Q) (estoque_atual estoque_minimo : Z)
    (cat_id forn_id : Z) (modelo_moto ano_moto : string) (falha : bool) (a : App) :
  efeito_db (db a)
    (db (form_produto novo_id codigo_sku descricao marca preco_custo preco_venda
           estoque_atual estoque_minimo cat_id forn_id modelo_moto ano_moto falha a)).
Proof.
  unfold form_produto. destruct (preenchido codigo_sku && preenchido marca); [|apply e_nada].
  unfold salvar_produto. rewrite execute_query_db.
  destruct falha; cbn; [apply e_nada|apply e_produto].
Qed.

Lemma atualizar_precos_efeito (custo venda : Q) (prod_id : Z) (falha : bool) (a : App) :
  efeito_db (db a) (db (atualizar_precos custo venda prod_id falha a)).
Proof.
  unfold atualizar_precos. rewrite execute_query_db.
  destruct falha; cbn; [apply e_nada|apply e_precos].
Qed.

(** Every interaction leaves the database as it was or applies the whole
    effect of one handler. *)
Lemma interacao_efeito (a a' : App) : interacao a a' -> efeito_db (db a) (db a').
Proof.
  intros H. destruct H.
  - apply registrar_compra_efeito.
  - rewrite (adicionar_item_db _ _ _ _ _ H). apply e_nada.
  - apply e_nada.
  - now apply registrar_pedido_efeito.
  - eapply devolucao_efeito. eassumption.
  - now apply marcar_concluido_efeito.
  - now apply marcar_cancelado_efeito.
  - apply form_produto_efeito.
  - apply atualizar_precos_efeito.
Qed.

(* ------------------------------------------------------------------ *)
(** ** The stock and the history tables along a session                *)
(* ------------------------------------------------------------------ *)

Lemma soma_app (l1 l2 : list Z) :
  fold_right Z.add 0 (l1 ++ l2) = fold_right Z.add 0 l1 + fold_right Z.add 0 l2.
Proof. induction l1 as [|x l IH]; simpl; [reflexivity|rewrite IH; lia]. Qed.

Lemma vendido_produto_fold (pedido_id k : Z) (itens : list Item.t) (d : DB) :
  vendido_produto k (fold_left (efeito_item pedido_id) itens d) =
  vendido_produto k d + qtd_no_carrinho k itens.
Proof.
  unfold vendido_produto. rewrite fold_efeito_vendas, filter_app, map_app, soma_app.
  f_equal. unfold qtd_no_carrinho.
  induction itens as [|i r IH]; simpl; [reflexivity|].
  destruct (Item.produto_id i =? k); simpl; rewrite IH; reflexivity.
Qed.

Lemma fold_efeito_entradas (pedido_id : Z) (itens : list Item.t) (d : DB) :
  tEntradas (fold_left (efeito_item pedido_id) itens d) = tEntradas d.
Proof.
  revert d. induction itens as [|i r IH]; intros d; simpl; [reflexivity|].
  rewrite IH. reflexivity.
Qed.

Lemma fold_efeito_devolucoes (pedido_id : Z) (itens : list Item.t) (d : DB) :
  tDevolucoes (fold_left (efeito_item pedido_id) itens d) = tDevolucoes d.
Proof.
  revert d. induction itens as [|i r IH]; intros d; simpl; [reflexivity|].
  rewrite IH. reflexivity.
Qed.

Lemma estoque_de_insert_produto (k : Z) (r : Produtos.row) (d : DB) :
  estoque_de k d <> None -> estoque_de k (sql_insert_produto r d) = estoque_de k d.
Proof.
  unfold estoque_de, sql_insert_produto, set_Produtos. simpl tProdutos.
  rewrite filter_app.
  destruct (filter (fun p => Produtos.produto_id p =? k) (tProdutos d)) as [|p ps];
    [intros H; now contradiction H|reflexivity].
Qed.

Lemma estoque_de_update_precos (custo venda : Q) (k j : Z) (d : DB) :
  estoque_de k (sql_update_precos custo venda j d) = estoque_de k d.
Proof.
  unfold estoque_de, sql_update_precos, set_Produtos, update_where. simpl tProdutos.
  induction (tProdutos d) as [|p rows IH]; simpl; [reflexivity|].
  destruct (Produtos.produto_id p =? j); simpl;
    destruct (Produtos.produto_id p =? k); simpl; try reflexivity; exact IH.
Qed.

Lemma comprado_tabela (k : Z) (d d' : DB) :
  tEntradas d' = tEntradas d -> comprado k d' = comprado k d.
Proof. unfold comprado. now intros ->. Qed.

Lemma vendido_produto_tabela (k : Z) (d d' : DB) :
  tVendas d' = tVendas d -> vendido_produto k d' = vendido_produto k d.
Proof. unfold vendido_produto. now intros ->. Qed.

Lemma retornado_tabela (k : Z) (d d' : DB) :
  tDevolucoes d' = tDevolucoes d -> retornado k d' = retornado k d.
Proof. unfold retornado. now intros ->. Qed.

Lemma efeito_saldo (d d' : DB) (k : Z) :
  efeito_db d d' -> estoque_de k d <> None ->
  saldo_inicial k d' = saldo_inicial k d /\ estoque_de k d' <> None.
Proof.
  intros H Hk. destruct H as [ |pid forn q u c r0 r1 em re nf Hd
                               |novo_id cid data total fp itens Hnovo
                               |f d' Hprod Hc
                               |s sel Hincl
                               |r
                               |custo venda j].
  - split; [reflexivity|exact Hk].
  - unfold saldo_inicial.
    rewrite (estoque_de_update_estoque _ _ k pid
               (sql_insert_entrada (Entradas.mk pid forn re em q u nf) d) (r0, r1) Hd).
    change (estoque_de k (sql_insert_entrada (Entradas.mk pid forn re em q u nf) d))
      with (estoque_de k d).
    assert (Hcomp : comprado k
                      (sql_update_estoque (match r0 with Some e => e | None => 0 end + q) c pid
                         (sql_insert_entrada (Entradas.mk pid forn re em q u nf) d))
                    = comprado k d + (if pid =? k then q else 0)).
    { unfold comprado. cbn [sql_update_estoque sql_insert_entrada set_Produtos set_Entradas
                              tEntradas].
      rewrite filter_app, map_app, soma_app. f_equal. cbn.
      destruct (pid =? k); cbn; lia. }
    rewrite Hcomp.
    change (vendido_produto k (sql_update_estoque _ c pid
              (sql_insert_entrada (Entradas.mk pid forn re em q u nf) d)))
      with (vendido_produto k d).
    change (retornado k (sql_update_estoque _ c pid
              (sql_insert_entrada (Entradas.mk pid forn re em q u nf) d)))
      with (retornado k d).
    destruct (k =? pid) eqn:Ek.
    + apply Z.eqb_eq in Ek. subst k. rewrite Z.eqb_refl.
      apply sql_dados_atuais_estoque in Hd. rewrite Hd in *.
      destruct r0 as [e|]; [|now contradiction Hk].
      split; [simpl; f_equal; lia|discriminate].
    + rewrite Z.eqb_sym, Ek. split; [|exact Hk].
      destruct (estoque_de k d); simpl; [f_equal; lia|reflexivity].
  - unfold saldo_inicial.
    rewrite fold_efeito_estoque, vendido_produto_fold.
    rewrite (comprado_tabela k d) by (rewrite fold_efeito_entradas; reflexivity).
    rewrite (retornado_tabela k d) by (rewrite fold_efeito_devolucoes; reflexivity).
    rewrite (vendido_produto_tabela k d
               (sql_insert_pedido (Pedidos.mk novo_id cid data total Pendente fp) d))
      by reflexivity.
    change (estoque_de k (sql_insert_pedido (Pedidos.mk novo_id cid data total Pendente fp) d))
      with (estoque_de k d).
    destruct (estoque_de k d) as [e|]; [|now contradiction Hk].
    split; [simpl; f_equal; lia|discriminate].
  - destruct Hc as [Hdev [Hest [_ [Hven [Hent _]]]]].
    unfold saldo_inicial. rewrite Hest.
    assert (Hret : retornado k d' =
                   retornado k d +
                   (if f_retornar_estoque f &&
                       (k =? ItemPedido.produto_id (f_item_selecionado f))
                    then f_qtd_devolver f else 0)).
    { unfold retornado. rewrite Hdev, filter_app, map_app, soma_app. f_equal.
      unfold linha_devolucao. cbn.
      rewrite (Z.eqb_sym (ItemPedido.produto_id (f_item_selecionado f)) k).
      destruct (f_retornar_estoque f && (k =? ItemPedido.produto_id (f_item_selecionado f)));
        cbn; lia. }
    rewrite Hret, (comprado_tabela k d d' Hent), (vendido_produto_tabela k d d' Hven).
    destruct (estoque_de k d) as [e|]; [|now contradiction Hk].
    destruct (f_retornar_estoque f && (k =? ItemPedido.produto_id (f_item_selecionado f)));
      (split; [simpl; f_equal; lia|discriminate]).
  - split; [reflexivity|exact Hk].
  - unfold saldo_inicial. rewrite (estoque_de_insert_produto k r d Hk).
    split; [reflexivity|exact Hk].
  - unfold saldo_inicial. rewrite estoque_de_update_precos.
    split; [reflexivity|exact Hk].
Qed.

(** X8.  The stock is what the history tables say.  Along any session of
    receipts, cart lines, orders, returns, status changes, product
    creations and price updates, committed or rolled back, the stock of a
    product (once it has one) differs from its stock at the start by exactly
    the units received since, less the units sold, plus the units returned
    to stock: the stock less that account never changes. *)
Theorem estoque_confere_com_historico (a a' : App) (k : Z) :
  sessoes a a' ->
  estoque_de k (db a) <> None ->
  saldo_inicial k (db a') = saldo_inicial k (db a) /\ estoque_de k (db a') <> None.
Proof.
  intros Hrun. induction Hrun as [a|a b c Hstep _ IH]; intros Hk.
  - split; [reflexivity|exact Hk].
  - destruct (efeito_saldo (db a) (db b) k (interacao_efeito a b Hstep) Hk) as [Hs Hk'].
    destruct (IH Hk') as [Hs' Hk'']. split; [congruence|exact Hk''].
Qed.

Lemma sessao_exemplo : sessoes (Loja.sessao Loja.vendido5) ex_devolucao.
Proof.
  apply sessoes_mais with ex_compra; [apply i_compra|].
  apply sessoes_mais with ex_carrinho;
    [apply (i_adicionar (Some "Pastilha"%string) 4 0%Q); reflexivity|].
  apply sessoes_mais with ex_pedido.
  { apply i_pedido. intros H. vm_compute in H. destruct H as [p [[<-|[]] E]].
    discriminate E. }
  apply sessoes_mais with ex_devolucao;
    [apply (i_devolucao 7 "Pastilha" 2 NovoPerfeitoEstado None "defeito" Loja.hoje
              no_faults); reflexivity|].
  apply sessoes_fim.
Qed.

Lemma estoque_confere_witness :
  estoque_de 1 Loja.vendido5 = Some 0 /\
  estoque_de 1 (db ex_devolucao) = Some 8 /\
  saldo_inicial 1 (db ex_devolucao) = saldo_inicial 1 Loja.vendido5.
Proof.
  split; [reflexivity|]. split; [reflexivity|].
  apply (estoque_confere_com_historico (Loja.sessao Loja.vendido5) ex_devolucao 1
           sessao_exemplo).
  discriminate.
Defined.

Lemma so_cresce_refl {A} (l : list A) : so_cresce l l.
Proof. exists []. now rewrite app_nil_r. Qed.

Lemma so_cresce_trans {A} (l1 l2 l3 : list A) :
  so_cresce l1 l2 -> so_cresce l2 l3 -> so_cresce l1 l3.
Proof. intros [n1 ->] [n2 ->]. exists (n1 ++ n2). now rewrite app_assoc. Qed.

Lemma so_cresce_um {A} (l : list A) (x : A) : so_cresce l (l ++ [x]).
Proof. now exists [x]. Qed.

Lemma fold_efeito_cabecalhos (pedido_id : Z) (itens : list Item.t) (d : DB) :
  tPedidos (fold_left (efeito_item pedido_id) itens d) = tPedidos d.
Proof. apply fold_efeito_pedidos. Qed.

Lemma update_where_map {A B} (cond : A -> bool) (f : A -> A) (g : A -> B) (rows : list A) :
  (forall r, g (f r) = g r) -> map g (update_where cond f rows) = map g rows.
Proof.
  intros H. unfold update_where. rewrite map_map. apply map_ext.
  intros r. destruct (cond r); [apply H|reflexivity].
Qed.

Lemma efeito_so_cresce (d d' : DB) :
  efeito_db d d' ->
  so_cresce (tEntradas d) (tEntradas d') /\
  so_cresce (tVendas d) (tVendas d') /\
  so_cresce (tDevolucoes d) (tDevolucoes d') /\
  so_cresce (map cabecalho_fixo (tPedidos d)) (map cabecalho_fixo (tPedidos d')) /\
  so_cresce (map Produtos.produto_id (tProdutos d)) (map Produtos.produto_id (tProdutos d')).
Proof.
  intros H. destruct H as [ |pid forn q u c r0 r1 em re nf Hd
                            |novo_id cid data total fp itens Hnovo
                            |f d' Hprod Hc
                            |s sel Hincl
                            |r
                            |custo venda j].
  - repeat split; apply so_cresce_refl.
  - split; [apply so_cresce_um|]. repeat split; try apply so_cresce_refl.
    cbn [sql_update_estoque sql_insert_entrada set_Produtos set_Entradas tProdutos].
    rewrite update_where_map by reflexivity. apply so_cresce_refl.
  - rewrite fold_efeito_entradas, fold_efeito_vendas, fold_efeito_devolucoes,
      fold_efeito_pedidos, fold_efeito_ids.
    cbn [sql_insert_pedido set_Pedidos tEntradas tVendas tDevolucoes tPedidos tProdutos].
    split; [apply so_cresce_refl|]. split; [eexists; reflexivity|].
    split; [apply so_cresce_refl|]. split; [|apply so_cresce_refl].
    rewrite map_app. eexists. reflexivity.
  - destruct Hc as [Hdev [_ [Hped [Hven [Hent _]]]]].
    rewrite Hdev, Hped, Hven, Hent, Hprod.
    split; [apply so_cresce_refl|]. split; [apply so_cresce_refl|].
    split; [apply so_cresce_um|]. split; [apply so_cresce_refl|].
    destruct (f_retornar_estoque f); [|apply so_cresce_refl].
    cbn [sql_retorno_estoque set_Produtos tProdutos].
    rewrite update_where_map by reflexivity. apply so_cresce_refl.
  - cbn [sql_update_status set_Pedidos tEntradas tVendas tDevolucoes tPedidos tProdutos].
    rewrite update_where_map by reflexivity. repeat split; apply so_cresce_refl.
  - cbn [sql_insert_produto set_Produtos tEntradas tVendas tDevolucoes tPedidos tProdutos].
    rewrite map_app. repeat split; try apply so_cresce_refl. eexists. reflexivity.
  - cbn [sql_update_precos set_Produtos tEntradas tVendas tDevolucoes tPedidos tProdutos].
    rewrite update_where_map by reflexivity. repeat split; apply so_cresce_refl.
Qed.

(** X9.  The history is append-only.  Along any session the receipts, the order
    lines and the returns only grow at the end: no row of them is ever
    changed or removed.  Orders only grow too and keep every column but the
    status (the total is the one fixed at creation), and no product is ever
    removed or renumbered. *)
Theorem historico_so_cresce (a a' : App) :
  sessoes a a' ->
  so_cresce (tEntradas (db a)) (tEntradas (db a')) /\
  so_cresce (tVendas (db a)) (tVendas (db a')) /\
  so_cresce (tDevolucoes (db a)) (tDevolucoes (db a')) /\
  so_cresce (map cabecalho_fixo (tPedidos (db a))) (map cabecalho_fixo (tPedidos (db a'))) /\
  so_cresce (map Produtos.produto_id (tProdutos (db a)))
    (map Produtos.produto_id (tProdutos (db a'))).
Proof.
  intros Hrun. induction Hrun as [a|a b c Hstep _ IH].
  - repeat split; apply so_cresce_refl.
  - destruct (efeito_so_cresce _ _ (interacao_efeito a b Hstep))
      as [H1 [H2 [H3 [H4 H5]]]].
    destruct IH as [I1 [I2 [I3 [I4 I5]]]].
    repeat split; eapply so_cresce_trans; eassumption.
Qed.

Lemma status_de_app (pid : Z) (d : DB) (novos : list Pedidos.row) (s : StatusPedido) :
  status_de pid d = Some s ->
  status_de pid (set_Pedidos (fun t => t ++ novos) d) = Some s.
Proof.
  unfold status_de, set_Pedidos. simpl tPedidos. rewrite filter_app.
  destruct (filter (fun p => Pedidos.pedido_id p =? pid) (tPedidos d)); [discriminate|].
  intros H. exact H.
Qed.

Lemma status_de_tabela (pid : Z) (d d' : DB) :
  tPedidos d' = tPedidos d -> status_de pid d' = status_de pid d.
Proof. unfold status_de. now intros ->. Qed.

Lemma efeito_status (d d' : DB) :
  efeito_db d d' ->
  NoDup (map Pedidos.pedido_id (tPedidos d)) ->
  NoDup (map Pedidos.pedido_id (tPedidos d')) /\
  (forall pid s, status_de pid d = Some s ->
                 (s <> Pendente -> status_de pid d' = Some s) /\
                 (exists s', status_de pid d' = Some s')).
Proof.
  intros H Hnd. destruct H as [ |pid forn q u c r0 r1 em re nf Hd
                                |novo_id cid data total fp itens Hnovo
                                |f d' Hprod Hc
                                |s sel Hincl
                                |r
                                |custo venda j].
  - split; [exact Hnd|]. intros pid s Hs. split; [intros _; exact Hs|now exists s].
  - split; [exact Hnd|]. intros k s Hs. split; [intros _; exact Hs|now exists s].
  - rewrite fold_efeito_pedidos.
    cbn [sql_insert_pedido set_Pedidos tPedidos]. split.
    + rewrite map_app. apply NoDup_app; [exact Hnd|repeat constructor; intros []|].
      intros x Hx [<-|[]]. apply Hnovo. apply in_map_iff in Hx.
      destruct Hx as [p [E Hp]]. exists p. split; assumption.
    + intros k s Hs.
      assert (E : status_de k
                    (fold_left (efeito_item novo_id) itens
                       (sql_insert_pedido (Pedidos.mk novo_id cid data total Pendente fp) d))
                  = Some s).
      { rewrite (status_de_tabela k
                   (sql_insert_pedido (Pedidos.mk novo_id cid data total Pendente fp) d))
          by apply fold_efeito_pedidos.
        now apply status_de_app. }
      split; [intros _; exact E|now exists s].
  - destruct Hc as [_ [_ [Hped _]]]. rewrite Hped. split; [exact Hnd|].
    intros k s Hs. rewrite (status_de_tabela k d d' Hped).
    split; [intros _; exact Hs|now exists s].
  - split.
    + cbn [sql_update_status set_Pedidos tPedidos].
      rewrite update_where_map by reflexivity. exact Hnd.
    + intros k s0 Hs. rewrite status_de_update.
      destruct (existsb (Z.eqb k) sel) eqn:Ex.
      * apply existsb_eqb_In in Ex.
        pose proof (opcoes_pendentes_status k d Hnd (Hincl k Ex)) as Hp.
        rewrite Hs in Hp. injection Hp as ->. rewrite Hs.
        split; [intros Hn; now contradiction Hn|eexists; reflexivity].
      * split; [intros _; exact Hs|now exists s0].
  - split; [exact Hnd|]. intros k s Hs. split; [intros _; exact Hs|now exists s].
  - split; [exact Hnd|]. intros k s Hs. split; [intros _; exact Hs|now exists s].
Qed.

(** X10.  Completed and cancelled are final.  With unique order ids at the start,
    along any session (new orders getting fresh ids, status buttons acting on
    orders chosen from the pending list) the ids stay unique, no order
    disappears, and an order that is 'Concluído' or 'Cancelado' keeps that
    status for ever. *)
Theorem status_final_permanece (a a' : App) (pid : Z) (s : StatusPedido) :
  sessoes a a' ->
  NoDup (map Pedidos.pedido_id (tPedidos (db a))) ->
  status_de pid (db a) = Some s ->
  NoDup (map Pedidos.pedido_id (tPedidos (db a'))) /\
  (s <> Pendente -> status_de pid (db a') = Some s) /\
  (exists s', status_de pid (db a') = Some s').
Proof.
  intros Hrun. revert s. induction Hrun as [a|a b c Hstep _ IH]; intros s Hnd Hs.
  - split; [exact Hnd|]. split; [intros _; exact Hs|now exists s].
  - destruct (efeito_status _ _ (interacao_efeito a b Hstep) Hnd) as [Hnd' Hst].
    destruct (Hst pid s Hs) as [Hfin [s' Hs']].
    destruct (IH s' Hnd' Hs') as [Hnd'' [Hfin' Hex]].
    split; [exact Hnd''|]. split; [|exact Hex].
    intros Hn. specialize (Hfin Hn). rewrite Hfin in Hs'. injection Hs' as <-.
    now apply Hfin'.
Qed.

Lemma historico_so_cresce_witness :
  so_cresce (tVendas Loja.vendido5) (tVendas (db ex_devolucao)) /\
  List.length (tVendas (db ex_devolucao)) = 2%nat /\
  List.length (tEntradas (db ex_devolucao)) = 1%nat /\
  List.length (tDevolucoes (db ex_devolucao)) = 1%nat.
Proof.
  split; [|repeat split].
  apply (historico_so_cresce (Loja.sessao Loja.vendido5) ex_devolucao sessao_exemplo).
Defined.

Lemma status_final_witness :
  status_de 7 Loja.vendido5 = Some Concluido /\
  status_de 7 (db ex_devolucao) = Some Concluido.
Proof.
  split; [reflexivity|].
  apply (status_final_permanece (Loja.sessao Loja.vendido5) ex_devolucao 7 Concluido
           sessao_exemplo).
  - repeat constructor; simpl; intuition.
  - reflexivity.
  - discriminate.
Defined.

(* ------------------------------------------------------------------ *)
(** ** Select boxes over duplicate labels                              *)
(* ------------------------------------------------------------------ *)

Lemma dict_get_none (k : string) (kv : list (string * Z)) :
  dict_get k kv = None <-> forall v, ~ In (k, v) kv.
Proof.
  induction kv as [|[k' v'] r IH]; simpl.
  - split; [intros _ v []|reflexivity].
  - destruct (dict_get k r) as [x|] eqn:E.
    + split; [discriminate|]. intros H. exfalso.
      assert (N : Some x = None) by (apply IH; intros v Hv; apply (H v); now right).
      discriminate.
    + destruct (String.eqb k k') eqn:Ek.
      * apply String.eqb_eq in Ek. subst k'.
        split; [discriminate|]. intros H. exfalso. apply (H v'). now left.
      * apply String.eqb_neq in Ek. split; [|reflexivity].
        intros _ v [Hv|Hv].
        -- injection Hv as E1 E2. now symmetry in E1.
        -- revert Hv. now apply IH.
Qed.

Lemma dict_get_some (k : string) (kv : list (string * Z)) (v : Z) :
  dict_get k kv = Some v <->
  exists l1 l2, kv = l1 ++ (k, v) :: l2 /\ forall v', ~ In (k, v') l2.
Proof.
  revert v. induction kv as [|[k' v'] r IH]; intros v; simpl.
  - split; [discriminate|]. intros [l1 [l2 [H _]]]. destruct l1; discriminate.
  - destruct (dict_get k r) as [x|] eqn:E.
    + split.
      * intros H. injection H as <-. destruct (proj1 (IH x) eq_refl) as [l1 [l2 [-> Hl]]].
        exists ((k', v') :: l1), l2. split; [reflexivity|exact Hl].
      * intros [l1 [l2 [H Hl]]]. destruct l1 as [|y l1].
        -- injection H as Hk Hv Hr. subst k' v' r. exfalso.
           assert (N : Some x = None) by (rewrite <- E; now apply dict_get_none).
           discriminate.
        -- injection H as Hy Hr. subst y r. f_equal. symmetry.
           assert (S : Some x = Some v) by (apply IH; now exists l1, l2).
           now injection S.
    + pose proof (proj1 (dict_get_none k r) E) as Hn.
      destruct (String.eqb k k') eqn:Ek.
      * apply String.eqb_eq in Ek. subst k'. split.
        -- intros H. injection H as <-. exists [], r. split; [reflexivity|exact Hn].
        -- intros [l1 [l2 [H Hl]]]. destruct l1 as [|y l1].
           ++ injection H as Hv Hr. subst v' r. reflexivity.
           ++ injection H as Hy Hr. subst y r. exfalso. apply (Hn v).
              apply in_or_app. right. now left.
      * apply String.eqb_neq in Ek. split; [discriminate|].
        intros [l1 [l2 [H Hl]]]. destruct l1 as [|y l1].
        -- injection H as Hk Hv Hr. now contradiction Ek.
        -- injection H as Hy Hr. subst y r. exfalso. apply (Hn v).
           apply in_or_app. right. now left.
Qed.

(** X11.  A product select box resolves a description to the id of the last
    product that has it (an earlier product with the same description
    cannot be chosen), and a description that no product has is a
    [KeyError]. *)
Theorem escolha_de_produto (nome : string) (d : DB) :
  (forall pid,
      escolha (Some nome) (opcoes_produtos d) = Some pid <->
      exists l1 p l2,
        tProdutos d = l1 ++ p :: l2 /\ Produtos.descricao p = nome /\
        Produtos.produto_id p = pid /\
        forall q, In q l2 -> Produtos.descricao q <> nome) /\
  (escolha (Some nome) (opcoes_produtos d) = None <->
   forall p, In p (tProdutos d) -> Produtos.descricao p <> nome).
Proof.
  unfold escolha, opcoes_produtos. split.
  - intros pid. rewrite dict_get_some. split.
    + intros [k1 [k2 [Hk Hl]]].
      apply map_eq_app in Hk. destruct Hk as [l1 [l2' [Ht [H1 H2]]]].
      destruct l2' as [|p l2]; [discriminate|]. simpl in H2. injection H2 as Hd Hi Hl2.
      exists l1, p, l2. repeat split; try assumption.
      intros q Hq E. apply (Hl (Produtos.produto_id q)). rewrite <- Hl2.
      apply in_map_iff. exists q. split; [now rewrite E|exact Hq].
    + intros [l1 [p [l2 [Ht [Hd [Hi Hl]]]]]].
      exists (map (fun p => (Produtos.descricao p, Produtos.produto_id p)) l1),
             (map (fun p => (Produtos.descricao p, Produtos.produto_id p)) l2).
      split; [rewrite Ht, map_app; simpl; now rewrite Hd, Hi|].
      intros v' Hin. apply in_map_iff in Hin. destruct Hin as [q [E Hq]].
      injection E as E1 _. now apply (Hl q).
  - rewrite dict_get_none. split.
    + intros H p Hp E. apply (H (Produtos.produto_id p)).
      apply in_map_iff. exists p. split; [now rewrite E|exact Hp].
    + intros H v Hin. apply in_map_iff in Hin. destruct Hin as [p [E Hp]].
      injection E as E1 _. now apply (H p).
Qed.

(* ------------------------------------------------------------------ *)
(** ** The life of an order: pending, completed or cancelled, returned *)
(* ------------------------------------------------------------------ *)

Lemma pedidos_concluidos_In (pid : Z) (d : DB) :
  In pid (pedidos_concluidos d) <->
  exists p c, In p (tPedidos d) /\ Pedidos.pedido_id p = pid /\
              Pedidos.status_pedido p = Concluido /\
              In c (tClientes d) /\ Pedidos.cliente_id p = Clientes.cliente_id c.
Proof.
  unfold pedidos_concluidos. rewrite in_flat_map. split.
  - intros [p [Hp Hin]].
    destruct (Pedidos.status_pedido p) eqn:Es; simpl in Hin; try contradiction.
    apply in_map_iff in Hin. destruct Hin as [c [E Hc]].
    apply filter_In in Hc. destruct Hc as [Hc Hon]. apply Z.eqb_eq in Hon.
    exists p, c. repeat split; assumption.
  - intros [p [c [Hp [E [Es [Hc Hon]]]]]]. exists p. split; [exact Hp|].
    rewrite Es. simpl. apply in_map_iff. exists c. split; [exact E|].
    apply filter_In. split; [exact Hc|now apply Z.eqb_eq].
Qed.

Lemma opcoes_pendentes_In (pid : Z) (d : DB) :
  In pid (opcoes_pendentes d) <->
  exists p, In p (tPedidos d) /\ Pedidos.pedido_id p = pid /\
            Pedidos.status_pedido p = Pendente.
Proof.
  unfold opcoes_pendentes. rewrite in_map_iff. split.
  - intros [p [E Hp]]. apply filter_In in Hp. destruct Hp as [Hp Hs].
    exists p. repeat split; try assumption.
    destruct (Pedidos.status_pedido p); try discriminate. reflexivity.
  - intros [p [Hp [E Hs]]]. exists p. split; [exact E|].
    apply filter_In. split; [exact Hp|now rewrite Hs].
Qed.

Lemma update_status_In (s : StatusPedido) (sel : list Z) (d : DB) (p' : Pedidos.row) :
  In p' (tPedidos (sql_update_status s sel d)) <->
  exists p, In p (tPedidos d) /\
            p' = if existsb (Z.eqb (Pedidos.pedido_id p)) sel then with_status s p else p.
Proof.
  unfold sql_update_status, set_Pedidos, update_where. simpl tPedidos.
  rewrite in_map_iff. split.
  - intros [p [E Hp]]. exists p. split; [exact Hp|now symmetry].
  - intros [p [Hp E]]. exists p. split; [now symmetry|exact Hp].
Qed.

(** X13.  From order to return.  An order just committed is offered in the
    pending list.  When pending orders are marked completed (and the
    [UPDATE] does not fail) they leave the pending list and, if their
    customer exists, are offered for returns; when they are marked cancelled
    they leave the pending list and are never offered for returns: the
    return form cannot be filled for them. *)
Theorem vida_do_pedido (pid : Z) (sel : list Z) (imprimir : bool) (falhas : nat -> bool)
    (a : App) :
  (forall cs fp data novo_id fl d',
      run_transaction (registrar_pedido_tx cs fp data novo_id a) fl (db a) = (d', Some pid) ->
      In pid (opcoes_pendentes d')) /\
  (In pid sel -> falhas 0%nat = false ->
   ~ In pid (opcoes_pendentes (db (marcar_concluido sel imprimir falhas a))) /\
   ~ In pid (opcoes_pendentes (db (marcar_cancelado sel falhas a))) /\
   ((exists p c, In p (tPedidos (db a)) /\ Pedidos.pedido_id p = pid /\
                 In c (tClientes (db a)) /\ Pedidos.cliente_id p = Clientes.cliente_id c) ->
    In pid (pedidos_concluidos (db (marcar_concluido sel imprimir falhas a)))) /\
   ~ In pid (pedidos_concluidos (db (marcar_cancelado sel falhas a))) /\
   (forall nome qtd estado marcado motivo data,
       form_devolucao pid nome qtd estado marcado motivo data
         (db (marcar_cancelado sel falhas a)) = None)).
Proof.
  split.
  - intros cs fp data novo_id fl d' H.
    apply registrar_pedido_tx_commit in H. destruct H as [-> [cid [_ ->]]].
    apply opcoes_pendentes_In. rewrite fold_efeito_pedidos.
    eexists. split; [simpl; apply in_or_app; right; left; reflexivity|].
    split; reflexivity.
  - intros Hin Hf.
    assert (Hne : sel <> []) by (intros ->; contradiction).
    rewrite marcar_concluido_db, marcar_cancelado_db by assumption.
    assert (Hex : existsb (Z.eqb pid) sel = true) by (now apply existsb_eqb_In).
    assert (Hcanc : ~ In pid (pedidos_concluidos (sql_update_status Cancelado sel (db a)))).
    { intros H. apply pedidos_concluidos_In in H.
      destruct H as [p' [c [Hp' [E [Es _]]]]].
      apply update_status_In in Hp'. destruct Hp' as [p [Hp ->]].
      destruct (existsb (Z.eqb (Pedidos.pedido_id p)) sel) eqn:Ep.
      - simpl in Es. discriminate.
      - rewrite E, Hex in Ep. discriminate. }
    split; [|split; [|split; [|split]]].
    + intros H. apply opcoes_pendentes_In in H. destruct H as [p' [Hp' [E Es]]].
      apply update_status_In in Hp'. destruct Hp' as [p [Hp ->]].
      destruct (existsb (Z.eqb (Pedidos.pedido_id p)) sel) eqn:Ep.
      * simpl in Es. discriminate.
      * rewrite E, Hex in Ep. discriminate.
    + intros H. apply opcoes_pendentes_In in H. destruct H as [p' [Hp' [E Es]]].
      apply update_status_In in Hp'. destruct Hp' as [p [Hp ->]].
      destruct (existsb (Z.eqb (Pedidos.pedido_id p)) sel) eqn:Ep.
      * simpl in Es. discriminate.
      * rewrite E, Hex in Ep. discriminate.
    + intros [p [c [Hp [E [Hc Hon]]]]]. apply pedidos_concluidos_In.
      exists (with_status Concluido p), c. split.
      * apply update_status_In. exists p. split; [exact Hp|]. now rewrite E, Hex.
      * repeat split; assumption.
    + exact Hcanc.
    + intros nome qtd estado marcado motivo data. unfold form_devolucao.
      destruct (existsb (Z.eqb pid)
                  (pedidos_concluidos (sql_update_status Cancelado sel (db a)))) eqn:Ex;
        [|reflexivity].
      exfalso. apply Hcanc. now apply existsb_eqb_In.
Qed.

Lemma vida_do_pedido_witness :
  In 1 [1; 1] /\
  ~ In 1 (opcoes_pendentes
            (db (marcar_cancelado [1; 1] no_faults (Loja.sessao dois_pendentes)))) /\
  In 1 (pedidos_concluidos
          (db (marcar_concluido [1; 1] false no_faults (Loja.sessao dois_pendentes)))).
Proof.
  pose proof (proj2 (vida_do_pedido 1 [1; 1] false no_faults (Loja.sessao dois_pendentes))
                (or_introl eq_refl) eq_refl) as H.
  split; [left; reflexivity|]. split; [exact (proj1 (proj2 H))|].
  apply (proj1 (proj2 (proj2 H))). eexists. exists Loja.ana. split; [left; reflexivity|].
  split; [reflexivity|]. split; [left; reflexivity|reflexivity].
Defined.

(* ------------------------------------------------------------------ *)
(** ** The product forms                                               *)
(* ------------------------------------------------------------------ *)

Lemma execute_query_vendas (q : Sql) (fetch falha : bool) (a : App) :
  vendas (snd (execute_query q fetch falha a)) = vendas a.
Proof.
  unfold execute_query. destruct falha; [reflexivity|].
  cbv zeta. destruct (PyStr.startswith_any _ _).
  - destruct (PyStr.startswith _ _); reflexivity.
  - destruct fetch; reflexivity.
Qed.

(** X14.  "Salvar Produto" writes nothing when the SKU or the brand is empty.
    Otherwise it can only append one product: no order, sale line, receipt or
    return changes, every product already there keeps its stock, and, the
    stock field having [min_value=0], stock levels that were non-negative
    stay so. *)
Theorem cadastro_de_produto (novo_id : Z) (codigo_sku descricao marca : string)
    (preco_custo preco_venda : Q) (estoque_atual estoque_minimo : Z)
    (cat_id forn_id : Z) (modelo_moto ano_moto : string) (falha : bool) (a : App) :
  let a' := form_produto novo_id codigo_sku descricao marca preco_custo preco_venda
              estoque_atual estoque_minimo cat_id forn_id modelo_moto ano_moto falha a in
  (codigo_sku = EmptyString \/ marca = EmptyString -> a' = a) /\
  (exists novos, List.length novos <= 1 /\ tProdutos (db a') = tProdutos (db a) ++ novos)%nat /\
  tPedidos (db a') = tPedidos (db a) /\ tVendas (db a') = tVendas (db a) /\
  tEntradas (db a') = tEntradas (db a) /\ tDevolucoes (db a') = tDevolucoes (db a) /\
  vendas a' = vendas a /\
  (forall k, estoque_de k (db a) <> None -> estoque_de k (db a') = estoque_de k (db a)) /\
  (number_input 0 None estoque_atual = Some estoque_atual ->
   nao_negativo (db a) -> nao_negativo (db a')).
Proof.
  intros a'. split.
  { intros [-> | ->]; unfold a', form_produto; simpl; [reflexivity|].
    now rewrite andb_false_r. }
  assert (Hd : db a' = db a \/
               db a' = sql_insert_produto
                         (Produtos.mk novo_id codigo_sku descricao marca (Some preco_custo)
                            preco_venda (Some estoque_atual) estoque_minimo cat_id forn_id
                            modelo_moto ano_moto) (db a)).
  { unfold a', form_produto.
    destruct (preenchido codigo_sku && preenchido marca); [|now left].
    unfold salvar_produto. rewrite execute_query_db.
    destruct falha; cbn; [now left|now right]. }
  assert (Hv : vendas a' = vendas a).
  { unfold a', form_produto.
    destruct (preenchido codigo_sku && preenchido marca); [|reflexivity].
    apply execute_query_vendas. }
  destruct Hd as [Hd|Hd]; rewrite Hd.
  - repeat split; try reflexivity; try exact Hv.
    + exists []. split; [simpl; lia|now rewrite app_nil_r].
    + intros _ H. exact H.
  - repeat split; try reflexivity; try exact Hv.
    + eexists [_]. split; [simpl; lia|reflexivity].
    + intros k Hk. now apply estoque_de_insert_produto.
    + intros Hn Ha k e. unfold number_input in Hn.
      destruct (0 <=? estoque_atual) eqn:E0; [|discriminate]. apply Z.leb_le in E0.
      unfold estoque_de, sql_insert_produto, set_Produtos. simpl tProdutos.
      rewrite filter_app. specialize (Ha k). unfold estoque_de in Ha.
      destruct (filter (fun p => Produtos.produto_id p =? k) (tProdutos (db a))) as [|p ps].
      * simpl. destruct (novo_id =? k); simpl; [|discriminate].
        intros H. injection H as <-. exact E0.
      * simpl. apply Ha.
Qed.

Lemma cadastro_de_produto_witness :
  form_produto 3 EmptyString "Vela" "NGK" 10 20 4 1 1 1 "CG" "2012" false
    (Loja.sessao Loja.inicio) = Loja.sessao Loja.inicio /\
  nao_negativo
    (db (form_produto 3 "V1" "Vela" "NGK" 10 20 4 1 1 1 "CG" "2012" false
           (Loja.sessao Loja.inicio))).
Proof.
  pose proof (cadastro_de_produto 3 EmptyString "Vela" "NGK" 10 20 4 1 1 1 "CG" "2012" false
                (Loja.sessao Loja.inicio)) as H1.
  pose proof (cadastro_de_produto 3 "V1" "Vela" "NGK" 10 20 4 1 1 1 "CG" "2012" false
                (Loja.sessao Loja.inicio)) as H2.
  split.
  - apply H1. left. reflexivity.
  - apply H2; [reflexivity|apply inicio_nao_negativo].
Defined.

Lemma sql_dados_atuais_update_precos (custo venda : Q) (j : Z) (d : DB) :
  sql_dados_atuais j (sql_update_precos custo venda j d) =
  option_map (fun r => (fst r, Some custo)) (sql_dados_atuais j d).
Proof.
  unfold sql_dados_atuais, sql_update_precos, set_Produtos, update_where. simpl tProdutos.
  induction (tProdutos d) as [|p rows IH]; simpl; [reflexivity|].
  destruct (Produtos.produto_id p =? j) eqn:E; simpl.
  - rewrite E. reflexivity.
  - rewrite E. exact IH.
Qed.

(** X15.  "Atualizar Preços" never changes a stock level, the list of products or
    any other table; when its [UPDATE] does not fail, the cost that the next
    receipt of the product reads as the current average is the cost typed
    in the form. *)
Theorem precos_nao_mexem_no_estoque (custo venda : Q) (prod_id : Z) (falha : bool) (a : App) :
  let a' := atualizar_precos custo venda prod_id falha a in
  (forall k, estoque_de k (db a') = estoque_de k (db a)) /\
  map Produtos.produto_id (tProdutos (db a')) = map Produtos.produto_id (tProdutos (db a)) /\
  tPedidos (db a') = tPedidos (db a) /\ tVendas (db a') = tVendas (db a) /\
  tEntradas (db a') = tEntradas (db a) /\ tDevolucoes (db a') = tDevolucoes (db a) /\
  vendas a' = vendas a /\
  (falha = false ->
   sql_dados_atuais prod_id (db a') =
   option_map (fun r => (fst r, Some custo)) (sql_dados_atuais prod_id (db a))).
Proof.
  intros a'.
  assert (Hv : vendas a' = vendas a) by apply execute_query_vendas.
  assert (Hd : db a' = if falha then db a else sql_update_precos custo venda prod_id (db a)).
  { unfold a', atualizar_precos. rewrite execute_query_db. destruct falha; reflexivity. }
  rewrite Hd. destruct falha.
  - repeat split; try reflexivity; try exact Hv. discriminate.
  - repeat split; try reflexivity; try exact Hv.
    + intros k. apply estoque_de_update_precos.
    + unfold sql_update_precos, set_Produtos, update_where. simpl tProdutos.
      rewrite map_map. apply map_ext. intros p.
      destruct (Produtos.produto_id p =? prod_id); reflexivity.
    + intros _. apply sql_dados_atuais_update_precos.
Qed.

Lemma precos_nao_mexem_witness :
  false = false /\
  sql_dados_atuais 1 (db (atualizar_precos 7 120 1 false (Loja.sessao Loja.inicio))) =
  option_map (fun r => (fst r, Some 7%Q)) (sql_dados_atuais 1 Loja.inicio).
Proof.
  split; [reflexivity|].
  apply (precos_nao_mexem_no_estoque 7 120 1 false (Loja.sessao Loja.inicio)). reflexivity.
Defined.

(* ------------------------------------------------------------------ *)
(** ** Receipts: all or nothing, and [NULL] read as zero               *)
(* ------------------------------------------------------------------ *)



(* ------------------------------------------------------------------ *)
(** ** The status buttons and the stock                                *)
(* ------------------------------------------------------------------ *)

Lemma marcar_db_casos (sel : list Z) (imprimir : bool) (falhas : nat -> bool) (a : App) :
  (db (marcar_concluido sel imprimir falhas a) = db a \/
   db (marcar_concluido sel imprimir falhas a) = sql_update_status Concluido sel (db a)) /\
  (db (marcar_cancelado sel falhas a) = db a \/
   db (marcar_cancelado sel falhas a) = sql_update_status Cancelado sel (db a)).
Proof.
  destruct sel as [|x r]; [split; left; reflexivity|].
  destruct (falhas 0%nat) eqn:Hf.
  - split; left.
    + unfold marcar_concluido.
      pose proof (execute_query_db (UpdateStatus Concluido (x :: r)) false (falhas 0%nat) a)
        as Hd.
      destruct (execute_query (UpdateStatus Concluido (x :: r)) false (falhas 0%nat) a)
        as [res a1]. simpl snd in Hd. rewrite Hf in Hd. simpl in Hd.
      destruct imprimir; [|exact Hd].
      pose proof (imprimir_cupons_db (x :: r) 1 falhas a1) as Hc.
      destruct (imprimir_cupons (x :: r) 1 falhas a1) as [[cs|] a2]; simpl snd in Hc;
        simpl; rewrite Hc; exact Hd.
    + unfold marcar_cancelado.
      pose proof (execute_query_db (UpdateStatus Cancelado (x :: r)) false (falhas 0%nat) a)
        as Hd.
      destruct (execute_query (UpdateStatus Cancelado (x :: r)) false (falhas 0%nat) a)
        as [res a1]. simpl snd in Hd. rewrite Hf in Hd. simpl in Hd. exact Hd.
  - split; right.
    + apply marcar_concluido_db; [discriminate|exact Hf].
    + apply marcar_cancelado_db; [discriminate|exact Hf].
Qed.

(** X17.  Marking orders completed or cancelled rewrites nothing but the status
    column: products and their stock, sale lines, receipts, returns and
    customers stay as they are, and so does every other column of every
    order.  In particular cancelling an order does not give its units back
    to the stock. *)
Theorem status_nao_mexe_no_estoque (sel : list Z) (imprimir : bool) (falhas : nat -> bool)
    (a : App) :
  forall a', a' = marcar_concluido sel imprimir falhas a \/
             a' = marcar_cancelado sel falhas a ->
  tProdutos (db a') = tProdutos (db a) /\ tVendas (db a') = tVendas (db a) /\
  tEntradas (db a') = tEntradas (db a) /\ tDevolucoes (db a') = tDevolucoes (db a) /\
  tClientes (db a') = tClientes (db a) /\
  map cabecalho_fixo (tPedidos (db a')) = map cabecalho_fixo (tPedidos (db a)) /\
  (forall k, estoque_de k (db a') = estoque_de k (db a)).
Proof.
  intros a' Ha'.
  assert (Hd : db a' = db a \/ exists s, db a' = sql_update_status s sel (db a)).
  { destruct (marcar_db_casos sel imprimir falhas a) as [[H1|H1] [H2|H2]];
      destruct Ha' as [-> | ->]; try (now left); right; eauto. }
  destruct Hd as [->|[s ->]]; [repeat split|].
  repeat split.
  unfold sql_update_status, set_Pedidos, update_where. simpl tPedidos.
  rewrite map_map. apply map_ext. intros p.
  destruct (existsb (Z.eqb (Pedidos.pedido_id p)) sel); reflexivity.
Qed.

Lemma status_nao_mexe_witness :
  estoque_de 1 (db (marcar_cancelado [1; 1] no_faults (Loja.sessao dois_pendentes))) =
  estoque_de 1 dois_pendentes.
Proof.
  apply (status_nao_mexe_no_estoque [1; 1] false no_faults (Loja.sessao dois_pendentes)).
  right. reflexivity.
Defined.

(* ------------------------------------------------------------------ *)
(** ** The discount of a cart line                                     *)
(* ------------------------------------------------------------------ *)

Lemma valor_total_app (l : list Item.t) (i : Item.t) :
  (valor_total (l ++ [i]) == valor_total l + Item.subtotal i)%Q.
Proof.
  rewrite !valor_total_soma, map_app. unfold soma. simpl.
  induction (map Item.subtotal l) as [|x r IH]; simpl.
  - lra.
  - rewrite IH. lra.
Qed.

(** X18.  With the inputs the widgets allow (a discount from 0 to 100, a quantity
    of at least 1) and a catalog without negative prices, the line added to
    the cart has a unit price between zero and the catalog price and a
    subtotal between zero and the undiscounted amount; no discount leaves
    the catalog price, a discount of 100 gives the line away; and the order
    total grows by exactly the subtotal of the new line. *)
Theorem desconto_limites (produto_item : option string) (q : Z) (d : Q) (a a' : App) :
  adicionar_item produto_item (Some q) (Some d) a = Adicionado a' ->
  (forall p, In p (tProdutos (db a)) -> (0 <= Produtos.preco_venda p)%Q) ->
  (0 <= d)%Q -> (d <= 100)%Q -> 1 <= q ->
  exists item,
    vendas a' = vendas a ++ [item] /\
    (0 <= Item.preco_unit item)%Q /\
    (Item.preco_unit item <= Item.preco_unit_original item)%Q /\
    (0 <= Item.subtotal item)%Q /\
    (Item.subtotal item <= Item.preco_unit_original item * inject_Z q)%Q /\
    ((d == 0)%Q -> (Item.preco_unit item == Item.preco_unit_original item)%Q) /\
    ((d == 100)%Q -> (Item.subtotal item == 0)%Q) /\
    (valor_total (vendas a') == valor_total (vendas a) + Item.subtotal item)%Q /\
    (valor_total (vendas a) <= valor_total (vendas a'))%Q.
Proof.
  intros H Hp Hd0 Hd100 Hq.
  apply adicionar_item_linha in H.
  destruct H as [item [pd [Hv [_ [Hin [_ [Ho [_ [_ [Hu Hs]]]]]]]]]].
  exists item. split; [exact Hv|].
  pose proof (Hp pd Hin) as Hpo. rewrite <- Ho in Hpo.
  set (po := Item.preco_unit_original item) in *.
  set (pu := Item.preco_unit item) in *.
  set (sb := Item.subtotal item) in *.
  assert (Hf0 : (0 <= 1 - d / 100)%Q).
  { unfold Qdiv. change (/ 100)%Q with (1 # 100)%Q. lra. }
  assert (Hf1 : (1 - d / 100 <= 1)%Q).
  { unfold Qdiv. change (/ 100)%Q with (1 # 100)%Q. lra. }
  assert (Hz : (1 <= inject_Z q)%Q).
  { change 1%Q with (inject_Z 1). rewrite <- Zle_Qle. exact Hq. }
  assert (Hu0 : (0 <= pu)%Q).
  { rewrite Hu. now apply Qmult_le_0_compat. }
  assert (Hu1 : (pu <= po)%Q).
  { rewrite Hu. rewrite <- (Qmult_1_r po) at 2.
    rewrite !(Qmult_comm po). apply Qmult_le_compat_r; assumption. }
  assert (Hs0 : (0 <= sb)%Q).
  { rewrite Hs. apply Qmult_le_0_compat; [exact Hu0|lra]. }
  repeat split; try assumption.
  - rewrite Hs. apply Qmult_le_compat_r; [exact Hu1|lra].
  - intros E. rewrite Hu, E. unfold Qdiv. rewrite Qmult_0_l. lra.
  - intros E. rewrite Hs, Hu, E. unfold Qdiv. rewrite Qmult_inv_r by discriminate. lra.
  - rewrite Hv. apply valor_total_app.
  - rewrite Hv, valor_total_app. fold sb. lra.
Qed.

Lemma desconto_limites_witness :
  exists item,
    vendas carrinho1 = vendas (Loja.sessao Loja.inicio) ++ [item] /\
    (0 <= Item.preco_unit item)%Q /\
    (Item.preco_unit item <= Item.preco_unit_original item)%Q.
Proof.
  destruct (desconto_limites (Some "Pastilha"%string) 2 10 (Loja.sessao Loja.inicio) carrinho1)
    as [item [Hv [H0 [H1 _]]]].
  - reflexivity.
  - intros p [<-|[<-|[]]]; simpl; lra.
  - lra.
  - lra.
  - lia.
  - exists item. repeat split; assumption.
Defined.

(* ------------------------------------------------------------------ *)
(** ** Expenses                                                        *)
(* ------------------------------------------------------------------ *)

Lemma sql_insert_despesa_is_write : is_write_text sql_insert_despesa = true.
Proof. reflexivity. Qed.

Lemma Qle_bool_false (x y : Q) : Qle_bool x y = false <-> (y < x)%Q.
Proof.
  split.
  - intros H. apply Qnot_le_lt. intros Hle. apply Qle_bool_iff in Hle. congruence.
  - intros H. destruct (Qle_bool x y) eqn:E; [|reflexivity].
    apply Qle_bool_iff in E. exfalso. revert E. now apply Qlt_not_le.
Qed.

Lemma truthy_some (s : string) : truthy (Some s) = true <-> s <> EmptyString.
Proof. destruct s; simpl; split; congruence. Qed.

(** X19.  The expense form stores nothing unless a type and a status are chosen
    and the value is positive, and nothing when the [INSERT] fails.  When it
    stores, it appends one row and clears the connection cache; the row has
    a payment date exactly when its status is 'Pago'.  So a table in which
    every expense has a positive value, a type, a status, and a payment date
    exactly when paid, stays such a table. *)
Theorem despesa_registrada (tipo : option string) (descricao : string) (valor : Q)
    (data_vencimento : DataValor) (status : option string) (data_pgto : DataValor)
    (falha : bool) (st : list Despesas.row * bool) :
  let st' := form_despesa tipo descricao valor data_vencimento status data_pgto falha st in
  (truthy tipo = false \/ truthy status = false \/ (valor <= 0)%Q -> st' = st) /\
  (falha = true -> fst st' = fst st) /\
  (fst st' = fst st \/
   exists r, fst st' = fst st ++ [r] /\ snd st' = false /\ falha = false /\
             Some (Despesas.tipo_despesa r) = tipo /\ Some (Despesas.status r) = status /\
             Despesas.valor r = valor /\ despesa_valida r) /\
  (Forall despesa_valida (fst st) -> Forall despesa_valida (fst st')).
Proof.
  intros st'.
  assert (Hc : (st' = st \/ (falha = true /\ fst st' = fst st)) \/
               exists r, fst st' = fst st ++ [r] /\ snd st' = false /\ falha = false /\
                         Some (Despesas.tipo_despesa r) = tipo /\
                         Some (Despesas.status r) = status /\
                         Despesas.valor r = valor /\ despesa_valida r /\
                         truthy tipo = true /\ truthy status = true /\ (0 < valor)%Q).
  { unfold st', form_despesa.
    destruct tipo as [t|]; [|left; left; reflexivity].
    destruct status as [s|]; [|left; left; reflexivity].
    destruct (Qle_bool valor 0) eqn:Ev; [left; left; reflexivity|].
    destruct (truthy (Some t)) eqn:Et; [|left; left; reflexivity].
    destruct (truthy (Some s)) eqn:Es; [|left; left; reflexivity].
    cbn [negb andb]. unfold execute_query_texto. cbv zeta.
    destruct falha; [left; right; split; reflexivity|].
    change (PyStr.startswith_any (PyStr.upper (PyStr.strip sql_insert_despesa))
              ["INSERT"; "UPDATE"; "DELETE"]%string)
      with (is_write_text sql_insert_despesa).
    rewrite sql_insert_despesa_is_write.
    rewrite (upper_never_startswith _ "INSERT INTO Produtos") by reflexivity.
    right. eexists. cbn [fst snd]. split; [reflexivity|].
    split; [reflexivity|]. split; [reflexivity|]. cbn.
    split; [reflexivity|]. split; [reflexivity|]. split; [reflexivity|].
    apply Qle_bool_false in Ev.
    split; [|repeat split; assumption].
    split; [exact Ev|]. split; [now apply truthy_some|]. split; [now apply truthy_some|].
    destruct (String.eqb s "Pago") eqn:Ep.
    - apply String.eqb_eq in Ep. split; [intros _; exact Ep|discriminate].
    - apply String.eqb_neq in Ep. split; [intros H; now contradiction H|intros H; contradiction]. }
  split; [|split; [|split]].
  - intros Hn. destruct Hc as [[H|[_ H]]|[r [_ [_ [_ [_ [_ [_ [_ [Ht [Hs Hv]]]]]]]]]]].
    + exact H.
    + unfold st', form_despesa in *.
      destruct tipo as [t|]; [|reflexivity]. destruct status as [s|]; [|reflexivity].
      destruct Hn as [Hn|[Hn|Hn]].
      * rewrite Hn, andb_false_r. reflexivity.
      * rewrite Hn, andb_false_r. reflexivity.
      * apply Qle_bool_iff in Hn. rewrite Hn. reflexivity.
    + exfalso. destruct Hn as [Hn|[Hn|Hn]]; try congruence.
      revert Hn. now apply Qlt_not_le.
  - intros Hf. destruct Hc as [[H|[_ H]]|[r [_ [_ [Hn _]]]]]; [now rewrite H|exact H|congruence].
  - destruct Hc as [[H|[_ H]]|[r [H1 [H2 [H3 [H4 [H5 [H6 [H7 _]]]]]]]]].
    + left. now rewrite H.
    + left. exact H.
    + right. exists r. repeat split; try assumption; apply H7.
  - intros Hall. destruct Hc as [[H|[_ H]]|[r [H1 [_ [_ [_ [_ [_ [H7 _]]]]]]]]].
    + now rewrite H.
    + now rewrite H.
    + rewrite H1. apply Forall_app. split; [exact Hall|]. constructor; [exact H7|constructor].
Qed.

Lemma despesa_registrada_witness :
  truthy (Some "Aluguel"%string) = true /\
  fst (form_despesa None "Loja" 1500 Loja.hoje (Some "Pago"%string) Loja.hoje false ([], true))
  = [] /\
  Forall despesa_valida
    (fst (form_despesa (Some "Aluguel"%string) "Loja" 1500 Loja.hoje (Some "Pago"%string)
            Loja.hoje false ([], true))).
Proof.
  split; [reflexivity|]. split.
  - apply (f_equal fst
             (proj1 (despesa_registrada None "Loja" 1500 Loja.hoje (Some "Pago"%string)
                       Loja.hoje false ([], true)) (or_introl eq_refl))).
  - apply (despesa_registrada (Some "Aluguel"%string) "Loja" 1500 Loja.hoje
             (Some "Pago"%string) Loja.hoje false ([], true)).
    constructor.
Defined.
